(** * Chat.ts: channel provisioning, invitations, mirror records and reactions

    A shallow embedding of [src/Chat.ts] (the revision with
    [getOrCreateTextChat] and [updateTextChatACLs]).  The chat provider and the
    document store are explicit state ([World]); a handler is a function from
    the request and the world to a reply and the world it leaves behind.  The
    [handleCreateChat] of the earlier revision that the file holds as well is
    embedded beside the later one, as [handleCreateChat_earlier]. *)

From stdpp Require Import base strings list gmap pretty stringmap.
From Stdlib Require Import ZArith Ascii.

Local Open Scope Z_scope.

(** ** JavaScript values and strings

    A [string] stands for a JavaScript string whose code units fit in eight
    bits, which covers the object ids used as identities. *)

Module Js.

(** The values a JSON request body can hold. *)
#[warnings="-register-all"]
Inductive JsVal :=
| JUndefined
| JNull
| JBool (b : bool)
| JNum (n : Z)
| JStr (s : string)
| JArr (xs : list JsVal)
| JObj.

(** [!!v] *)
Definition truthy (v : JsVal) : bool :=
  match v with
  | JUndefined | JNull => false
  | JBool b => b
  | JNum n => negb (n =? 0)
  | JStr s => negb (String.eqb s "")
  | JArr _ | JObj => true
  end.

(** [typeof v === "string"] *)
Definition isString (v : JsVal) : bool :=
  match v with JStr _ => true | _ => false end.

(** [v === "lit"] *)
Definition strictEqStr (v : JsVal) (lit : string) : bool :=
  match v with JStr s => String.eqb s lit | _ => false end.

(** [v === true] *)
Definition strictEqTrue (v : JsVal) : bool :=
  match v with JBool true => true | _ => false end.

(** White space of [String.prototype.trim] among the code units a
    [string] holds here: TAB, LF, VT, FF, CR, SP and NBSP. *)
Definition isWhiteSpace (c : ascii) : bool :=
  let n := nat_of_ascii c in
  (Nat.leb 9 n && Nat.leb n 13) || Nat.eqb n 32 || Nat.eqb n 160.

Fixpoint trimStart (s : string) : string :=
  match s with
  | String c s' => if isWhiteSpace c then trimStart s' else s
  | EmptyString => EmptyString
  end.

Definition trim (s : string) : string :=
  String.rev (trimStart (String.rev (trimStart s))).

(** [s.substr(0, n)] *)
Definition substr0 (n : nat) (s : string) : string := String.substring 0 n s.

(** [s.length] *)
Definition strlen (s : string) : Z := Z.of_nat (String.length s).

(** What a call that is not awaited evaluates to: the answer itself when the
    function called is synchronous, a promise of the answer when it is
    [async]. *)
Inductive Returned (A : Type) :=
| Value (a : A)
| Promise (a : A).
Arguments Value {A} a.
Arguments Promise {A} a.

(** [!!v] for the returned answer of a boolean function: a promise is an
    object, and every object is truthy. *)
Definition truthyReturned (v : Returned bool) : bool :=
  match v with
  | Value b => b
  | Promise _ => true
  end.

(** [await v] *)
Definition awaited {A} (v : Returned A) : A :=
  match v with Value a | Promise a => a end.

(** The names of the properties that a plain object inherits from
    [Object.prototype]: functions, and under [__proto__] the prototype
    itself. *)
Definition inheritedNames : list string :=
  ["constructor"; "__defineGetter__"; "__defineSetter__"; "hasOwnProperty";
   "__lookupGetter__"; "__lookupSetter__"; "isPrototypeOf"; "propertyIsEnumerable";
   "toString"; "valueOf"; "__proto__"; "toLocaleString"].

End Js.
Import Js.

(** [xs.includes(x)] on an array of strings. *)
Definition includes (xs : list string) (x : string) : bool :=
  existsb (String.eqb x) xs.

(** ** The document store: profiles, roles, access lists, mirror records *)

Module Parse.

(** A [UserProfile] object: its id, the conference it belongs to, the id of
    the account behind it ([profile.get("user").id]) and its display name. *)
Record UserProfile := mkUserProfile {
  profile_id : string;
  profile_conference : string;
  profile_user : string;
  profile_displayName : string }.

(** The entries of a [Parse.ACL]: the public entry, one per account, one per
    role.  A role is named within its conference. *)
Inductive AclKey :=
| PublicKey
| UserKey (userId : string)
| RoleKey (conference roleName : string).

Global Instance AclKey_eq_dec : EqDecision AclKey.
Proof. solve_decision. Defined.

Global Instance AclKey_countable : Countable AclKey.
Proof.
  refine (inj_countable'
    (fun k => match k with
              | PublicKey => inl ()
              | UserKey u => inr (inl u)
              | RoleKey c r => inr (inr (c, r))
              end)
    (fun s => match s with
              | inl _ => PublicKey
              | inr (inl u) => UserKey u
              | inr (inr (c, r)) => RoleKey c r
              end) _).
  by intros [].
Defined.

Record Perm := mkPerm { perm_read : bool; perm_write : bool }.

(** [permissionsById] *)
Abbreviation ACL := (gmap AclKey Perm).

Inductive Access := Read | Write.

Global Instance Access_eq_dec : EqDecision Access.
Proof. solve_decision. Defined.

Definition permGet (a : Access) (p : Perm) : bool :=
  match a with Read => perm_read p | Write => perm_write p end.

Definition permSet (a : Access) (b : bool) (p : Perm) : Perm :=
  match a with
  | Read => mkPerm b (perm_write p)
  | Write => mkPerm (perm_read p) b
  end.

(** [ACL._setAccess]: granting creates the entry when needed; revoking
    clears the flag and drops an entry left without flags. *)
Definition setAccess (a : Access) (k : AclKey) (allowed : bool) (acl : ACL) : ACL :=
  match acl !! k with
  | None => if allowed then <[k := permSet a true (mkPerm false false)]> acl else acl
  | Some p =>
      let p' := permSet a allowed p in
      if perm_read p' || perm_write p' then <[k := p']> acl else delete k acl
  end.

(** [ACL._getAccess] *)
Definition getAccess (a : Access) (k : AclKey) (acl : ACL) : bool :=
  match acl !! k with
  | None => false
  | Some p => permGet a p
  end.

(** A [TextChat] object, the mirror record of a channel.  [tc_id] is the
    object id, absent until the object is saved. *)
Record TextChat := mkTextChat {
  tc_id : option string;
  tc_conference : string;
  tc_twilioID : string;
  tc_autoWatch : bool;
  tc_mirrored : bool;
  tc_name : string;
  tc_acl : option ACL }.

Definition tc_setACL (acl : ACL) (t : TextChat) : TextChat :=
  mkTextChat (tc_id t) (tc_conference t) (tc_twilioID t) (tc_autoWatch t)
             (tc_mirrored t) (tc_name t) (Some acl).

Definition tc_setId (i : string) (t : TextChat) : TextChat :=
  mkTextChat (Some i) (tc_conference t) (tc_twilioID t) (tc_autoWatch t)
             (tc_mirrored t) (tc_name t) (tc_acl t).

End Parse.
Import Parse.

(** ** The chat provider: channels, members, invitations, messages *)

Module Twilio.

(** The parsed attribute bag of a message, under the type the reaction
    handlers declare for it: the value under the key [reactions] (a map from
    reaction to the identities that gave it; [None] when the key is absent or
    null) and every other top-level key with its JSON text.  The map holds
    the own keys of the object; what a read of the object finds under a name
    that is not among them is said by [reactionUsersIn]. *)
Record Attributes := mkAttributes {
  attr_reactions : option (gmap string (list string));
  attr_others : gmap string string }.

(** A membership or an invitation: the identity and the role it carries.
    Creating one appends it; what the provider does with a pending invitation
    of an identity that becomes a member is left out. *)
Record Member := mkMember { identity : string; roleSid : string }.

Record Channel := mkChannel {
  ch_uniqueName : string;
  ch_friendlyName : string;
  ch_createdBy : string;
  ch_type : string;
  ch_isDM : bool;                                  (* [attributes.isDM], as a truth value *)
  ch_members : list Member;
  ch_invites : list Member;
  ch_messages : gmap string (option Attributes)    (* message sid to [JSON.parse(attributes)] *) }.

Definition ch_addMember (m : Member) (c : Channel) : Channel :=
  mkChannel (ch_uniqueName c) (ch_friendlyName c) (ch_createdBy c) (ch_type c)
            (ch_isDM c) (ch_members c ++ [m]) (ch_invites c) (ch_messages c).

Definition ch_addInvite (m : Member) (c : Channel) : Channel :=
  mkChannel (ch_uniqueName c) (ch_friendlyName c) (ch_createdBy c) (ch_type c)
            (ch_isDM c) (ch_members c) (ch_invites c ++ [m]) (ch_messages c).

Definition ch_setMessage (msg : string) (a : option Attributes) (c : Channel) : Channel :=
  mkChannel (ch_uniqueName c) (ch_friendlyName c) (ch_createdBy c) (ch_type c)
            (ch_isDM c) (ch_members c) (ch_invites c) (<[msg := a]> (ch_messages c)).

(** A service role: [friendlyName] and [sid]. *)
Record Role := mkRole { role_friendlyName : string; role_sid : string }.

(** The mutating requests sent to the provider. *)
Inductive Op :=
| ChannelCreate (uniqueName friendlyName createdBy type : string) (isDM : bool)
| ChannelRemove (sid : string)
| MemberCreate (sid identity roleSid : string)
| InviteCreate (sid identity roleSid : string)
| UserCreate (identity friendlyName : string)
| MessageUpdate (sid message : string) (attributes : Attributes).

End Twilio.
Import Twilio.

(** ** The world a handler runs in *)

Record World := mkWorld {
  w_channels : gmap string Channel;     (* provider channels by SID *)
  w_users : list (string * string);     (* provider users: identity, friendly name *)
  w_roles : list Role;                  (* provider roles of the service *)
  w_calls : list Op;                    (* every mutating request issued so far, oldest first *)
  w_profiles : list UserProfile;        (* store: user profiles *)
  w_textChats : list TextChat;          (* store: saved mirror records *)
  w_nextId : nat                        (* store: next object id *) }.

Definition setChannels (f : gmap string Channel → gmap string Channel) (w : World) : World :=
  mkWorld (f (w_channels w)) (w_users w) (w_roles w) (w_calls w)
          (w_profiles w) (w_textChats w) (w_nextId w).

Definition addUser (u : string * string) (w : World) : World :=
  mkWorld (w_channels w) (w_users w ++ [u]) (w_roles w) (w_calls w)
          (w_profiles w) (w_textChats w) (w_nextId w).

Definition logCall (op : Op) (w : World) : World :=
  mkWorld (w_channels w) (w_users w) (w_roles w) (w_calls w ++ [op])
          (w_profiles w) (w_textChats w) (w_nextId w).

Definition setTextChats (ts : list TextChat) (n : nat) (w : World) : World :=
  mkWorld (w_channels w) (w_users w) (w_roles w) (w_calls w)
          (w_profiles w) ts n.

(** What is thrown inside a handler. *)
Inductive Error :=
| ProviderError (op : Op)     (* the provider rejected a request *)
| NotFound                    (* a fetched resource does not exist *)
| TypeError                   (* a method called on a value that lacks it *)
| AssertionError.             (* [assert] on a missing role *)

Inductive Outcome (A : Type) :=
| Ok (a : A)
| Throw (e : Error).
Arguments Ok {A} a.
Arguments Throw {A} e.

(** An asynchronous computation: it may change the world and either yields a
    value or throws.  The world is kept when it throws. *)
Definition M (A : Type) : Type := World → Outcome A * World.

Definition ret {A} (a : A) : M A := fun w => (Ok a, w).

Definition throw {A} (e : Error) : M A := fun w => (Throw e, w).

Definition bind {A B} (m : M A) (k : A → M B) : M B :=
  fun w => match m w with
           | (Ok a, w') => k a w'
           | (Throw e, w') => (Throw e, w')
           end.

Notation "x <- m ;; k" := (bind m (fun x => k))
  (at level 100, m at next level, right associativity).
Notation "m ;;; k" := (bind m (fun _ => k))
  (at level 100, right associativity).

(** [try { body } catch (e) { handler }] *)
Definition tryCatch {A} (body : M A) (handler : Error → M A) : M A :=
  fun w => match body w with
           | (Ok a, w') => (Ok a, w')
           | (Throw e, w') => handler e w'
           end.

(** [await Promise.all(xs.map(f))]: every task is started, so every task runs
    (here one after the other, in list order); the call throws when one of
    them threw. *)
Fixpoint promiseAll {A B} (f : A → M B) (xs : list A) : M (list B) :=
  match xs with
  | [] => ret []
  | x :: xs' =>
      fun w =>
        let '(r, w1) := f x w in
        let '(rs, w2) := promiseAll f xs' w1 in
        (match r, rs with
         | Ok b, Ok bs => Ok (b :: bs)
         | Throw e, _ => Throw e
         | Ok _, Throw e => Throw e
         end, w2)
  end.

(** Reading the world, for the queries of the document store. *)
Definition getWorld : M World := fun w => (Ok w, w).

(** ** Requests and replies *)

(** What [handleRequestIntro] hands to a handler: the conference (its id) and
    the requester's profile. *)
Record RequestContext := mkContext {
  ctx_conf : string;
  ctx_userProfile : UserProfile }.

(** A request: the outcome of [handleRequestIntro] ([None] when it already
    answered), the JSON body, and the value [uuidv4()] draws for it. *)
Record Request := mkRequest {
  req_intro : option RequestContext;
  req_body : gmap string JsVal;
  req_uuid : string }.

(** [req.body.<name>] *)
Definition field (req : Request) (name : string) : JsVal :=
  default JUndefined (req_body req !! name).

Inductive Body :=
| Status (status : string)                                   (* [{ status }] *)
| Text (message : string)                                    (* a plain string *)
| ChatCreated (channelSID : string) (textChatID : option string)
| EmptyObject                                                (* [{}] *)
| OkTrue.                                                    (* [{ ok: true }] *)

Inductive Reply :=
| Send (status : Z) (body : Body)     (* [res.status(n); res.send(body)] *)
| Next (e : Error)                    (* [next(e)] *)
| NoReply.                            (* the intro helper answered *)

(** [try { ... } catch (e) { next(e) }] around a whole handler. *)
Definition runHandler (m : M Reply) (w : World) : Reply * World :=
  match m w with
  | (Ok r, w') => (r, w')
  | (Throw e, w') => (Next e, w')
  end.

(** The strings of an array whose elements are all strings. *)
Definition stringsOf (xs : list JsVal) : list string :=
  omap (fun v => match v with JStr s => Some s | _ => None end) xs.

(** [req.body.title?.trim()] *)
Definition optionalTrim (v : JsVal) : M JsVal :=
  match v with
  | JUndefined | JNull => ret JUndefined
  | JStr s => ret (JStr (trim s))
  | _ => throw TypeError
  end.

(** Modelled from the spec: [ParseHelpers.getUserProfileByID] is not among the
    sources; it resolves a profile id within a conference to the profile, or
    to nothing when there is none. *)
Definition lookupProfile (profiles : list UserProfile) (id conf : string) : option UserProfile :=
  List.find (fun p => String.eqb (profile_id p) id && String.eqb (profile_conference p) conf)
            profiles.

Definition getUserProfileByID (id conf : string) : M (option UserProfile) :=
  fun w => (Ok (lookupProfile (w_profiles w) id conf), w).

(** Modelled from the spec: [Roles.getRoleByName] is not among the sources; a
    role is identified by its name within the conference. *)
Definition getRoleByName (name conf : string) : AclKey := RoleKey conf name.

(** ** Provider calls

    Reads of the provider succeed when the resource exists and throw
    [NotFound] otherwise; a mutating request may also be rejected.  A read
    that fails for another reason, and a write that the document store
    rejects, are outside the model: what is proved of an error handed to
    [next] is proved of the errors that the model has. *)

Section Handlers.

(** [localeCompare] is the platform's collation. *)
Variable localeCompare : string → string → Z.

(** [Roles.isUserInRoles] is not among the sources.  The handlers call it
    without [await] and test what the call returns; the parameter gives that
    value, for a function of either kind.  The spec has the role resolver
    query the document store, and every call of the store suspend: the
    function is then [async] and what its call returns is a promise. *)
Variable isUserInRoles : string → string → list string → Returned bool.

(** Whether the provider rejects a mutating request at a given attempt. *)
Variable providerFails : Op → nat → bool.

(** How many times [callWithRetry] tries again after a failure. *)
Variable retryAttempts : nat.

(** A mutating request: it is recorded, then either rejected or carried out. *)
Definition request {A} (op : Op) (attempt : nat) (effect : World → Outcome A * World) : M A :=
  fun w =>
    let w1 := logCall op w in
    if providerFails op attempt then (Throw (ProviderError op), w1) else effect w1.

(** Modelled from the spec: [RequestHelpers.callWithRetry] is not among the
    sources; it runs the thunk again after a failure, a bounded number of
    times, and lets the last error through.  The thunk is given the number of
    the attempt. *)
Fixpoint retryFrom {A} (attempt remaining : nat) (f : nat → M A) : M A :=
  fun w =>
    match f attempt w with
    | (Ok a, w') => (Ok a, w')
    | (Throw e, w') =>
        match remaining with
        | O => (Throw e, w')
        | S r => retryFrom (S attempt) r f w'
        end
    end.

Definition callWithRetry {A} (f : nat → M A) : M A := retryFrom 0 retryAttempts f.

(** [service.channels.list()] *)
Definition channelsList : M (list (string * Channel)) :=
  fun w => (Ok (map_to_list (w_channels w)), w).

(** [service.channels(sid).fetch()] *)
Definition channelFetch (sid : string) : M Channel :=
  fun w => match w_channels w !! sid with
           | Some c => (Ok c, w)
           | None => (Throw NotFound, w)
           end.

(** [channel.members().list()] and [channel.invites().list()] *)
Definition membersList (sid : string) : M (list Member) :=
  c <- channelFetch sid ;; ret (ch_members c).

Definition invitesList (sid : string) : M (list Member) :=
  c <- channelFetch sid ;; ret (ch_invites c).

(** A change to one channel; the channel has to exist. *)
Definition onChannel (sid : string) (f : Channel → Channel) (w : World) : Outcome unit * World :=
  match w_channels w !! sid with
  | Some c => (Ok tt, setChannels (insert sid (f c)) w)
  | None => (Throw NotFound, w)
  end.

(** [service.channels.create({...})] *)
Definition channelsCreate (friendlyName uniqueName createdBy type : string) (isDM : bool)
    (attempt : nat) : M (string * Channel) :=
  request (ChannelCreate uniqueName friendlyName createdBy type isDM) attempt
    (fun w =>
       let sid := fresh_string "CH" (w_channels w) in
       let c := mkChannel uniqueName friendlyName createdBy type isDM [] [] ∅ in
       (Ok (sid, c), setChannels (insert sid c) w)).

(** [channel.members().create({ identity, roleSid })] *)
Definition membersCreate (sid identity roleSid : string) (attempt : nat) : M unit :=
  request (MemberCreate sid identity roleSid) attempt
    (onChannel sid (ch_addMember (mkMember identity roleSid))).

(** [channel.invites().create({ identity, roleSid })] *)
Definition invitesCreate (sid identity roleSid : string) (attempt : nat) : M unit :=
  request (InviteCreate sid identity roleSid) attempt
    (onChannel sid (ch_addInvite (mkMember identity roleSid))).

(** [channel.remove()] *)
Definition channelRemove (sid : string) (attempt : nat) : M unit :=
  request (ChannelRemove sid) attempt
    (fun w => match w_channels w !! sid with
              | Some _ => (Ok tt, setChannels (delete sid) w)
              | None => (Throw NotFound, w)
              end).

(** [service.users.list()] and [service.users.create({...})] *)
Definition usersList : M (list (string * string)) := fun w => (Ok (w_users w), w).

Definition usersCreate (identity friendlyName : string) : M unit :=
  request (UserCreate identity friendlyName) 0
    (fun w => (Ok tt, addUser (identity, friendlyName) w)).

(** [service.roles.list()] *)
Definition rolesList : M (list Role) := fun w => (Ok (w_roles w), w).

(** [channel.messages(sid).fetch()] followed by [JSON.parse(message.attributes)] *)
Definition messageFetch (sid message : string) : M (option Attributes) :=
  c <- channelFetch sid ;;
  match ch_messages c !! message with
  | Some a => ret a
  | None => throw NotFound
  end.

(** [message.update({ attributes: JSON.stringify(attributes) })] *)
Definition messageUpdate (sid message : string) (attributes : Attributes) : M unit :=
  request (MessageUpdate sid message attributes) 0
    (onChannel sid (ch_setMessage message (Some attributes))).

(** [assert(v)] *)
Definition assertSome {A} (v : option A) : M A :=
  match v with
  | Some a => ret a
  | None => throw AssertionError
  end.

(** ** [ensureTwilioUsersExist] *)

Definition ensureTwilioUsersExist (profiles : list UserProfile) : M unit :=
  existing <- usersList ;;
  let existingUserProfileIds := map fst existing in
  promiseAll (fun x =>
                if negb (includes existingUserProfileIds (profile_id x))
                then usersCreate (profile_id x) (profile_displayName x)
                else ret tt) profiles ;;;
  ret tt.

(** ** [getOrCreateTextChat] *)

(** [object.save()]: a new object gets its id and is stored; a stored one is
    replaced.  The store accepts every write. *)
Definition saveTextChat (t : TextChat) : M TextChat :=
  fun w =>
    match tc_id t with
    | Some i =>
        let replace := fun t' => if decide (tc_id t' = Some i) then t else t' in
        (Ok t, setTextChats (map replace (w_textChats w)) (w_nextId w) w)
    | None =>
        let t' := tc_setId ("TC" +:+ pretty (w_nextId w)) t in
        (Ok t', setTextChats (w_textChats w ++ [t']) (S (w_nextId w)) w)
    end.

Definition getOrCreateTextChat (newChannel : string * Channel) (conf : string) (isDM : bool)
    : M TextChat :=
  w <- getWorld ;;
  match List.find (fun t => String.eqb (tc_conference t) conf
                            && String.eqb (tc_twilioID t) (fst newChannel))
                  (w_textChats w) with
  | Some textChat => ret textChat
  | None =>
      saveTextChat (mkTextChat None conf (fst newChannel) isDM false
                               (ch_friendlyName (snd newChannel)) (Some ∅))
  end.

(** ** [updateTextChatACLs] *)

(** [isPrivate] when the caller leaves it out. *)
Definition derivedIsPrivate (textChat : TextChat) : bool :=
  match tc_acl textChat with
  | Some existingACL =>
      getAccess Read (getRoleByName "attendee" (tc_conference textChat)) existingACL
  | None => false
  end.

(** The part of the new list that does not depend on the privacy flag. *)
Definition baseACL (conf : string) : ACL :=
  let managerRole := getRoleByName "manager" conf in
  let adminRole := getRoleByName "admin" conf in
  setAccess Write adminRole true
    (setAccess Read adminRole true
       (setAccess Write managerRole true
          (setAccess Read managerRole true
             (setAccess Write PublicKey false
                (setAccess Read PublicKey false ∅))))).

(** One step of the loop over [allIds]. *)
Definition grantProfile (conf : string) (acl : ACL) (profileId : string) : M ACL :=
  profile <- getUserProfileByID profileId conf ;;
  match profile with
  | Some p => ret (setAccess Read (UserKey (profile_user p)) true acl)
  | None => ret acl
  end.

Fixpoint grantProfiles (conf : string) (acl : ACL) (allIds : list string) : M ACL :=
  match allIds with
  | [] => ret acl
  | profileId :: rest =>
      acl' <- grantProfile conf acl profileId ;;
      grantProfiles conf acl' rest
  end.

Definition updateTextChatACLs (newChannel : string) (textChat : TextChat)
    (isPrivate : option bool) : M TextChat :=
  let conf := tc_conference textChat in
  let attendeeRole := getRoleByName "attendee" conf in
  let isPrivate := match isPrivate with
                   | Some b => b
                   | None => derivedIsPrivate textChat
                   end in
  let acl := baseACL conf in
  acl <- (if isPrivate
          then members <- membersList newChannel ;;
               invited <- invitesList newChannel ;;
               let memberIds := map identity members in
               let invitedIds := map identity invited in
               let allIds := memberIds ++ invitedIds in
               grantProfiles conf acl allIds
          else ret (setAccess Read attendeeRole true acl)) ;;
  saveTextChat (tc_setACL acl textChat).

(** ** [handleCreateChat] *)

(** The unique name of a DM channel and of a group channel, cut to the 64
    characters the provider allows. *)
Definition dmUniqueName (requester invitee : string) : string :=
  substr0 64 (if localeCompare requester invitee =? -1
              then requester +:+ "-" +:+ invitee
              else invitee +:+ "-" +:+ requester).

Definition groupUniqueName (requester uuid : string) : string :=
  substr0 64 (requester +:+ "-" +:+ uuid).

Definition uniqueNameOf (isDM : bool) (userProfile : UserProfile)
    (userProfilesToInvite : list UserProfile) (uuid : string) : M string :=
  if isDM
  then match userProfilesToInvite with
       | invitee :: _ => ret (dmUniqueName (profile_id userProfile) (profile_id invitee))
       | [] => throw TypeError
       end
  else ret (groupUniqueName (profile_id userProfile) uuid).

(** [existingChannels] *)
Definition existingChannelsOf (isDM : bool) (uniqueName : string) : M (list (string * Channel)) :=
  if isDM
  then all <- channelsList ;;
       ret (List.filter (fun x => String.eqb (ch_uniqueName (snd x)) uniqueName) all)
  else ret [].

(** The two service roles, both asserted to exist. *)
Definition channelRoles : M (Role * Role) :=
  roles <- rolesList ;;
  let channelAdminRole :=
    List.find (fun x => String.eqb (role_friendlyName x) "channel admin") roles in
  let channelUserRole :=
    List.find (fun x => String.eqb (role_friendlyName x) "channel user") roles in
  channelAdminRole <- assertSome channelAdminRole ;;
  channelUserRole <- assertSome channelUserRole ;;
  ret (channelAdminRole, channelUserRole).

Definition adminOrManager : list string := ["admin"; "manager"].

(** The branch [existingChannels.length > 0]. *)
Definition reuseExistingChannel (conf : string) (userProfile : UserProfile)
    (userProfilesToInvite : list UserProfile) (isDM : bool)
    (channelAdminRole channelUserRole : Role) (newChannel : string * Channel) : M unit :=
  members <- membersList (fst newChannel) ;;
  invites <- invitesList (fst newChannel) ;;
  let members := map identity members in
  let invites := map identity invites in
  (if negb (includes members (profile_id userProfile))
   then
     let userIsManager := isUserInRoles (profile_user userProfile) conf adminOrManager in
     callWithRetry (membersCreate (fst newChannel) (profile_id userProfile)
                      (if isDM && negb (truthyReturned userIsManager)
                       then role_sid channelUserRole else role_sid channelAdminRole))
   else ret tt) ;;;
  promiseAll (fun profile =>
                if negb (includes members (profile_id profile))
                   && negb (includes invites (profile_id profile))
                then
                  let userIsManager := isUserInRoles (profile_user profile) conf adminOrManager in
                  callWithRetry (invitesCreate (fst newChannel) (profile_id profile)
                                   (if truthyReturned userIsManager
                                    then role_sid channelAdminRole else role_sid channelUserRole))
                else ret tt) userProfilesToInvite ;;;
  ret tt.

(** The body of the [try] on a channel that was just created. *)
Definition populateNewChannel (conf : string) (userProfile : UserProfile)
    (userProfilesToInvite : list UserProfile) (isDM : bool)
    (channelAdminRole channelUserRole : Role) (newChannel : string * Channel) : M unit :=
  ensureTwilioUsersExist (userProfilesToInvite ++ [userProfile]) ;;;
  (let userIsManager := isUserInRoles (profile_user userProfile) conf adminOrManager in
   callWithRetry (membersCreate (fst newChannel) (profile_id userProfile)
                    (if isDM && negb (truthyReturned userIsManager)
                     then role_sid channelUserRole else role_sid channelAdminRole))) ;;;
  promiseAll (fun profile =>
                let userIsManager := isUserInRoles (profile_user profile) conf adminOrManager in
                callWithRetry (invitesCreate (fst newChannel) (profile_id profile)
                                 (if truthyReturned userIsManager
                                  then role_sid channelAdminRole else role_sid channelUserRole)))
             userProfilesToInvite ;;;
  ret tt.

(** The branch that creates the channel: [inl reply] when the [catch] has
    answered, [inr newChannel] when the handler goes on. *)
Definition createNewChannel (conf : string) (userProfile : UserProfile)
    (userProfilesToInvite : list UserProfile) (isDM : bool) (mode : string)
    (friendlyName uniqueName createdBy : string)
    (channelAdminRole channelUserRole : Role) : M (Reply + string * Channel) :=
  newChannel <- callWithRetry (channelsCreate friendlyName uniqueName createdBy mode isDM) ;;
  tryCatch
    (populateNewChannel conf userProfile userProfilesToInvite isDM
                        channelAdminRole channelUserRole newChannel ;;;
     ret (inr newChannel))
    (fun e =>
       callWithRetry (channelRemove (fst newChannel)) ;;;
       ret (inl (Send 500 (Status "Failed to add or invite members.")))).

(** The channel of the request: the first existing one, or a new one. *)
Definition resolveChannel (conf : string) (userProfile : UserProfile)
    (userProfilesToInvite : list UserProfile) (isDM : bool) (mode : string)
    (friendlyName uniqueName createdBy : string)
    (channelAdminRole channelUserRole : Role)
    (existingChannels : list (string * Channel)) : M (Reply + string * Channel) :=
  match existingChannels with
  | newChannel :: _ =>
      reuseExistingChannel conf userProfile userProfilesToInvite isDM
                           channelAdminRole channelUserRole newChannel ;;;
      ret (inr newChannel)
  | [] =>
      createNewChannel conf userProfile userProfilesToInvite isDM mode
                       friendlyName uniqueName createdBy
                       channelAdminRole channelUserRole
  end.

(** The end of the handler: the mirror record, its access list, the reply. *)
Definition mirrorAndReply (conf : string) (isDM isPrivate : bool)
    (resolved : Reply + string * Channel) : M Reply :=
  match resolved with
  | inl reply => ret reply
  | inr newChannel =>
      textChat <- getOrCreateTextChat newChannel conf isDM ;;
      textChat <- updateTextChatACLs (fst newChannel) textChat (Some isPrivate) ;;
      ret (Send 200 (ChatCreated (fst newChannel) (tc_id textChat)))
  end.

(** From the resolved profiles to the reply. *)
Definition provisionChat (conf : string) (userProfile : UserProfile)
    (userProfilesToInvite : list UserProfile) (mode title : string)
    (forVideoRoom : JsVal) (uuid : string) : M Reply :=
  let isPrivate := String.eqb mode "private" in
  let isDM := isPrivate
              && (length userProfilesToInvite =? 1)%nat
              && negb (strictEqTrue forVideoRoom) in
  uniqueName <- uniqueNameOf isDM userProfile userProfilesToInvite uuid ;;
  let friendlyName := if isDM then uniqueName else title in
  let createdBy := if isDM then "system" else profile_id userProfile in
  existingChannels <- existingChannelsOf isDM uniqueName ;;
  roles <- channelRoles ;;
  let '(channelAdminRole, channelUserRole) := roles in
  resolved <- resolveChannel conf userProfile userProfilesToInvite isDM mode
                             friendlyName uniqueName createdBy
                             channelAdminRole channelUserRole existingChannels ;;
  mirrorAndReply conf isDM isPrivate resolved.

(** Resolving the invited ids to profiles; all of them have to exist. *)
Definition resolveProfiles (conf : string) (userProfileIdsToInvite : list string)
    : M (option (list UserProfile)) :=
  _userProfilesToInvite <-
    promiseAll (fun id => getUserProfileByID id conf) userProfileIdsToInvite ;;
  let usersValid := forallb (fun x => match x with Some _ => true | None => false end)
                            _userProfilesToInvite in
  if usersValid then ret (Some (omap (fun x => x) _userProfilesToInvite)) else ret None.

Definition handleCreateChat (req : Request) : World → Reply * World :=
  runHandler
    match req_intro req with
    | None => ret NoReply
    | Some requestContext =>
        let conf := ctx_conf requestContext in
        let userProfile := ctx_userProfile requestContext in
        let _userProfileIdsToInvite := field req "invite" in
        let mode := field req "mode" in
        title <- optionalTrim (field req "title") ;;
        if negb (truthy _userProfileIdsToInvite) || negb (truthy title)
           || strictEqStr title "" || negb (truthy mode)
        then ret (Send 400 (Status "Missing request parameter(s)."))
        else
          match _userProfileIdsToInvite with
          | JArr elements =>
              if negb (forallb isString elements)
              then ret (Send 400 (Status "Invited member ids should be strings."))
              else
                let userProfileIdsToInvite :=
                  List.filter (fun x => negb (String.eqb x (profile_id userProfile)))
                              (stringsOf elements) in
                match mode with
                | JStr mode =>
                    if negb (String.eqb mode "public") && negb (String.eqb mode "private")
                    then ret (Send 400 (Status "Mode should be 'public' or 'private'."))
                    else
                      match title with
                      | JStr title =>
                          if strlen (trim title) <? 5
                          then ret (Send 400 (Status
                                 "Title should be a trimmed string of at least 5 non-empty characters."))
                          else
                            let title := trim title in
                            profiles <- resolveProfiles conf userProfileIdsToInvite ;;
                            match profiles with
                            | None => ret (Send 400 (Status "Users to invite invalid."))
                            | Some userProfilesToInvite =>
                                provisionChat conf userProfile userProfilesToInvite mode title
                                              (field req "forVideoRoom") (req_uuid req)
                            end
                      | _ =>
                          ret (Send 400 (Status
                                 "Title should be a trimmed string of at least 5 non-empty characters."))
                      end
                | _ => ret (Send 400 (Status "Mode should be 'public' or 'private'."))
                end
          | _ => ret (Send 400 (Status "Invited members should be an array."))
          end
    end.

(** ** [handleInviteToChat]

    [fetch] throws for a channel that does not exist, so the handler's
    ["Channel not found."] branch is never taken. *)

Definition handleInviteToChat (req : Request) : World → Reply * World :=
  runHandler
    match req_intro req with
    | None => ret NoReply
    | Some requestContext =>
        let conf := ctx_conf requestContext in
        let userProfile := ctx_userProfile requestContext in
        let _userProfileIdsToInvite := field req "targetIdentities" in
        let channelSID := field req "channel" in
        if negb (truthy _userProfileIdsToInvite) || negb (truthy channelSID)
        then ret (Send 400 (Status "Missing request parameter(s)."))
        else
          match channelSID with
          | JStr channelSID =>
              match _userProfileIdsToInvite with
              | JArr elements =>
                  if negb (forallb isString elements)
                  then ret (Send 400 (Status "Invited member ids should be strings."))
                  else
                    let userProfileIdsToInvite :=
                      List.filter (fun x => negb (String.eqb x (profile_id userProfile)))
                                  (stringsOf elements) in
                    if (length userProfileIdsToInvite =? 0)%nat
                    then ret (Send 400 (Status
                           "Invited members should be a non-empty array (that does not include yourself)."))
                    else
                      profiles <- resolveProfiles conf userProfileIdsToInvite ;;
                      match profiles with
                      | None => ret (Send 400 (Status "Users to invite invalid."))
                      | Some userProfilesToInvite =>
                          existingChannel <- channelFetch channelSID ;;
                          roles <- channelRoles ;;
                          let '(channelAdminRole, channelUserRole) := roles in
                          if negb (ch_isDM existingChannel)
                          then
                            members <- membersList channelSID ;;
                            invites <- invitesList channelSID ;;
                            let members := map identity members in
                            let invites := map identity invites in
                            if includes members (profile_id userProfile)
                            then
                              promiseAll
                                (fun profile =>
                                   if negb (includes members (profile_id profile))
                                      && negb (includes invites (profile_id profile))
                                   then
                                     let userIsManager :=
                                       isUserInRoles (profile_user profile) conf adminOrManager in
                                     callWithRetry
                                       (invitesCreate channelSID (profile_id profile)
                                          (if truthyReturned userIsManager
                                           then role_sid channelAdminRole
                                           else role_sid channelUserRole))
                                   else ret tt) userProfilesToInvite ;;;
                              textChat <- getOrCreateTextChat (channelSID, existingChannel) conf
                                                              (ch_isDM existingChannel) ;;
                              updateTextChatACLs channelSID textChat None ;;;
                              ret (Send 200 EmptyObject)
                            else ret (Send 403 (Text "Access denied."))
                          else ret (Send 400 (Text "Cannot invite more users to a DM chat."))
                      end
              | _ => ret (Send 400 (Status "Invited members should be an array."))
              end
          | _ => ret (Send 400 (Status "Channel should be a string."))
          end
    end.

(** ** [handleAddReaction] and [handleRemoveReaction] *)

(** [attributes?.reactions ?? {}] *)
Definition reactionsOf (attributes : option Attributes) : gmap string (list string) :=
  match attributes with
  | Some a => default ∅ (attr_reactions a)
  | None => ∅
  end.

(** [{ ...(attributes ?? {}), reactions }] *)
Definition withReactions (attributes : option Attributes)
    (reactions : gmap string (list string)) : Attributes :=
  mkAttributes (Some reactions)
               (match attributes with Some a => attr_others a | None => ∅ end).

(** [reactions[reaction] ?? []], up to the first use of the value, which is
    [reactionUsers.includes(...)] in both handlers.  An own key yields its
    list.  A name that is not an own key yields the empty list, unless the
    object inherits a property of that name: the value read is then a function
    (the prototype itself for [__proto__]), it is not nullish and has no
    [includes], so the call throws. *)
Definition reactionUsersIn (reactions : gmap string (list string)) (reaction : string)
    : M (list string) :=
  match reactions !! reaction with
  | Some reactionUsers => ret reactionUsers
  | None => if includes inheritedNames reaction then throw TypeError else ret []
  end.

(** The three checks on the body shared by both handlers, then the check
    that the requester is a member of the channel. *)
Definition reactionRequest (req : Request) (userProfile : UserProfile)
    (k : string → string → string → M Reply) : M Reply :=
  match field req "channel" with
  | JStr channelSid =>
      if negb (truthy (JStr channelSid))
      then ret (Send 400 (Status "Invalid or missing channel sid"))
      else
        match field req "message" with
        | JStr messageSid =>
            if negb (truthy (JStr messageSid))
            then ret (Send 400 (Status "Invalid or missing message sid"))
            else
              match field req "reaction" with
              | JStr reaction =>
                  if negb (truthy (JStr reaction))
                  then ret (Send 400 (Status "Invalid or missing reaction"))
                  else
                    members <- membersList channelSid ;;
                    if negb (existsb (fun x => String.eqb (identity x) (profile_id userProfile))
                                     members)
                    then ret (Send 403 (Status "Invalid channel"))
                    else k channelSid messageSid reaction
              | _ => ret (Send 400 (Status "Invalid or missing reaction"))
              end
        | _ => ret (Send 400 (Status "Invalid or missing message sid"))
        end
  | _ => ret (Send 400 (Status "Invalid or missing channel sid"))
  end.

Definition handleAddReaction (req : Request) : World → Reply * World :=
  runHandler
    match req_intro req with
    | None => ret NoReply
    | Some requestContext =>
        let userProfile := ctx_userProfile requestContext in
        reactionRequest req userProfile (fun channelSid messageSid reaction =>
          attributes <- messageFetch channelSid messageSid ;;
          let reactions := reactionsOf attributes in
          reactionUsers <- reactionUsersIn reactions reaction ;;
          (if negb (includes reactionUsers (profile_id userProfile))
           then
             let reactionUsers := reactionUsers ++ [profile_id userProfile] in
             let reactions := <[reaction := reactionUsers]> reactions in
             let attributes := withReactions attributes reactions in
             messageUpdate channelSid messageSid attributes
           else ret tt) ;;;
          ret (Send 200 OkTrue))
    end.

Definition handleRemoveReaction (req : Request) : World → Reply * World :=
  runHandler
    match req_intro req with
    | None => ret NoReply
    | Some requestContext =>
        let userProfile := ctx_userProfile requestContext in
        reactionRequest req userProfile (fun channelSid messageSid reaction =>
          attributes <- messageFetch channelSid messageSid ;;
          let reactions := reactionsOf attributes in
          reactionUsers <- reactionUsersIn reactions reaction ;;
          (if includes reactionUsers (profile_id userProfile)
           then
             let remaining :=
               List.filter (fun x => negb (String.eqb x (profile_id userProfile)))
                           reactionUsers in
             let reactions := <[reaction := remaining]> reactions in
             let reactions := if (length remaining =? 0)%nat
                              then delete reaction reactions else reactions in
             let attributes := withReactions attributes reactions in
             messageUpdate channelSid messageSid attributes
           else ret tt) ;;;
          ret (Send 200 OkTrue))
    end.

(** ** Sample data *)

Definition sampleCompare (a b : string) : Z :=
  match String.compare a b with Lt => -1 | Eq => 0 | Gt => 1 end.

(** An [isUserInRoles] that answers at once and finds nobody in the roles,
    and an [async] one that finds nobody either. *)
Definition nobodyIsManager (user conf : string) (roles : list string) : Returned bool :=
  Value false.

Definition promisesNobody (user conf : string) (roles : list string) : Returned bool :=
  Promise false.

Definition neverRejects (op : Op) (attempt : nat) : bool := false.

Definition alice : UserProfile := mkUserProfile "alice" "conf" "u-alice" "Alice".
Definition bob : UserProfile := mkUserProfile "bob" "conf" "u-bob" "Bob".

Definition sampleRoles : list Role :=
  [mkRole "channel admin" "RL-admin"; mkRole "channel user" "RL-user"].

Definition emptyWorld : World := mkWorld ∅ [] sampleRoles [] [alice; bob] [] 0.

(** A public group channel with one member and one message, and its mirror
    record, marked public by the attendee role's read access. *)
Definition lobby : Channel :=
  mkChannel "alice-4f6c" "Lobby" "alice" "public" false
            [mkMember "alice" "RL-admin"] []
            {[ "IM1" := Some (mkAttributes (Some {[ "like" := ["alice"; "alice"] ]}) ∅);
               "IM2" := Some (mkAttributes None {[ "pinned" := "true" ]}) ]}.

Definition lobbyRecord : TextChat :=
  mkTextChat (Some "TC0") "conf" "CH1" false false "Lobby"
             (Some (setAccess Read (getRoleByName "attendee" "conf") true (baseACL "conf"))).

Definition lobbyWorld : World :=
  mkWorld {[ "CH1" := lobby ]} [("alice", "Alice")] sampleRoles [] [alice; bob] [lobbyRecord] 1.

Definition inviteBobToLobby : Request :=
  mkRequest (Some (mkContext "conf" alice))
            {[ "channel" := JStr "CH1"; "targetIdentities" := JArr [JStr "bob"] ]} "".

(** ** Reading the world *)

(** The parsed attribute bag of a message, when the channel and the message
    exist. *)
Definition messageAttributes (w : World) (sid message : string) : option (option Attributes) :=
  c ← w_channels w !! sid; ch_messages c !! message.

(** The identities recorded under a reaction in the bag: the list under that
    own key, none when there is no such key. *)
Definition reactionUsersOf (attributes : option Attributes) (reaction : string) : list string :=
  default [] (reactionsOf attributes !! reaction).

(** A read of [reactions[reaction]] ends at the prototype: the name is not an
    own key of the reactions of the bag and is one that objects inherit. *)
Definition readsInherited (attributes : option Attributes) (reaction : string) : bool :=
  match reactionsOf attributes !! reaction with
  | Some _ => false
  | None => includes inheritedNames reaction
  end.

(** The top-level keys of the bag other than [reactions]. *)
Definition otherKeysOf (attributes : option Attributes) : gmap string string :=
  match attributes with Some a => attr_others a | None => ∅ end.

(** How many times [x] occurs in [xs]. *)
Definition occurrences (x : string) (xs : list string) : nat :=
  length (List.filter (String.eqb x) xs).

(** A well-formed reaction request of a member: the handler can run it on
    channel [c] (SID [sid]) and message [message], whose bag is [attributes]. *)
Definition ReactionRequest (req : Request) (w : World) (requestContext : RequestContext)
    (sid message reaction : string) (c : Channel) (attributes : option Attributes) : Prop :=
  req_intro req = Some requestContext
  ∧ field req "channel" = JStr sid ∧ sid ≠ ""
  ∧ field req "message" = JStr message ∧ message ≠ ""
  ∧ field req "reaction" = JStr reaction ∧ reaction ≠ ""
  ∧ w_channels w !! sid = Some c
  ∧ existsb (fun x => String.eqb (identity x) (profile_id (ctx_userProfile requestContext)))
            (ch_members c) = true
  ∧ ch_messages c !! message = Some attributes.

Definition aliceInConf : RequestContext := mkContext "conf" alice.

(** Alice reacts with "like" to a message of the lobby. *)
Definition likeMessage (message : string) : Request :=
  mkRequest (Some aliceInConf)
            {[ "channel" := JStr "CH1"; "message" := JStr message; "reaction" := JStr "like" ]}
            "".

(** A DM channel of Alice and Bob in which Bob has not joined yet, and Bob's
    request to invite Alice to it. *)
Definition dmChannel : Channel :=
  mkChannel "alice-bob" "alice-bob" "system" "private" true
            [mkMember "alice" "RL-user"] [mkMember "bob" "RL-user"] ∅.

Definition dmWorld : World :=
  mkWorld {[ "CH2" := dmChannel ]} [("alice", "Alice"); ("bob", "Bob")] sampleRoles []
          [alice; bob] [] 0.

Definition bobInConf : RequestContext := mkContext "conf" bob.

Definition inviteAliceToDM : Request :=
  mkRequest (Some bobInConf)
            {[ "channel" := JStr "CH2"; "targetIdentities" := JArr [JStr "alice"] ]} "".

(** Alice's requests for a chat: a body with the given invite list and mode. *)
Definition createChatBy (requester : UserProfile) (invite : list JsVal) (mode : string)
    : Request :=
  mkRequest (Some (mkContext "conf" requester))
            {[ "invite" := JArr invite; "mode" := JStr mode; "title" := JStr " Plenary " ]}
            "1b9d6bcd".

(** Alice's request to invite only herself to the lobby. *)
Definition inviteSelfToLobby : Request :=
  mkRequest (Some aliceInConf)
            {[ "channel" := JStr "CH1"; "targetIdentities" := JArr [JStr "alice"] ]} "".

(** ** Vocabulary of the properties *)

(** A request that passes the checks of [handleCreateChat]: the fields of the
    body and the profiles the invite list resolves to. *)
Definition Validated (req : Request) (w : World) (requestContext : RequestContext)
    (elements : list JsVal) (mode title : string) (invitees : list UserProfile) : Prop :=
  req_intro req = Some requestContext
  ∧ field req "invite" = JArr elements
  ∧ forallb isString elements = true
  ∧ field req "mode" = JStr mode
  ∧ (mode = "public" ∨ mode = "private")
  ∧ field req "title" = JStr title
  ∧ 5 ≤ strlen (trim (trim title))
  ∧ (let found :=
       map (fun id => lookupProfile (w_profiles w) id (ctx_conf requestContext))
           (List.filter (fun x =>
                           negb (String.eqb x (profile_id (ctx_userProfile requestContext))))
                        (stringsOf elements)) in
     forallb (fun x => match x with Some _ => true | None => false end) found = true
     ∧ invitees = omap (fun x => x) found).

(** The provider rejects every attempt [callWithRetry] makes at [op]. *)
Definition gaveUp (op : Op) : Prop :=
  ∀ j, (j ≤ retryAttempts)%nat → providerFails op j = true.

(** The provider accepts one of the attempts [callWithRetry] makes at [op]. *)
Definition accepted (op : Op) : Prop :=
  ∃ j, (j ≤ retryAttempts)%nat ∧ providerFails op j = false.

(** [m] keeps the profiles and the roles, keeps the property [I] of the
    provider's channels, and sends only requests that satisfy [P], whatever
    its outcome. *)
Definition steps {A} (P : Op → Prop) (I : gmap string Channel → Prop) (m : M A) : Prop :=
  ∀ w r w', m w = (r, w') → I (w_channels w) →
    I (w_channels w')
    ∧ w_profiles w' = w_profiles w
    ∧ w_roles w' = w_roles w
    ∧ ∃ sent, w_calls w' = w_calls w ++ sent ∧ Forall P sent.

(** [I] survives a change to the channel [sid]. *)
Definition updatable (I : gmap string Channel → Prop) (sid : string) : Prop :=
  ∀ chs c f, I chs → chs !! sid = Some c → I (<[sid := f c]> chs).

(** [isDM] and the unique name, as [provisionChat] computes them. *)
Definition isDMFor (mode : string) (invitees : list UserProfile) (forVideoRoom : JsVal) : bool :=
  String.eqb mode "private" && (length invitees =? 1)%nat && negb (strictEqTrue forVideoRoom).

Definition uniqueNameFor (isDM : bool) (userProfile : UserProfile)
    (invitees : list UserProfile) (uuid : string) : string :=
  if isDM
  then match invitees with
       | invitee :: _ => dmUniqueName (profile_id userProfile) (profile_id invitee)
       | [] => ""
       end
  else groupUniqueName (profile_id userProfile) uuid.

(** The channels whose unique name is [key]. *)
Definition channelsNamed (key : string) (chs : gmap string Channel) : list (string * Channel) :=
  List.filter (fun x => String.eqb (ch_uniqueName (snd x)) key) (map_to_list chs).

(** The role the claim gives a participant: channel admin for the requester
    of a channel that is not a DM and for anyone with the manager or admin
    privilege, channel user otherwise. *)
Definition claimedRole (channelAdminRole channelUserRole : Role)
    (isDM isRequester privileged : bool) : string :=
  if (isRequester && negb isDM) || privileged
  then role_sid channelAdminRole else role_sid channelUserRole.

(** [isDM], read off the request: private mode, one invited id besides the
    requester's, and no [forVideoRoom: true]. *)
Definition requestIsDM (req : Request) (requester : string) : bool :=
  strictEqStr (field req "mode") "private"
  && match field req "invite" with
     | JArr elements =>
         (length (List.filter (fun x => negb (String.eqb x requester)) (stringsOf elements))
          =? 1)%nat
     | _ => false
     end
  && negb (strictEqTrue (field req "forVideoRoom")).

(** A membership is created for the requester only, an invitation for a
    resolved profile other than the requester's only, each with the role of
    [claimedRole] where the privilege is read as the handlers read it: the
    truthiness of what [isUserInRoles] returned. *)
Definition roleRule (profiles : list UserProfile) (conf : string) (requester : UserProfile)
    (channelAdminRole channelUserRole : Role) (isDM : bool) (op : Op) : Prop :=
  match op with
  | MemberCreate _ id role =>
      id = profile_id requester
      ∧ role = claimedRole channelAdminRole channelUserRole isDM true
                 (truthyReturned (isUserInRoles (profile_user requester) conf adminOrManager))
  | InviteCreate _ id role =>
      id ≠ profile_id requester
      ∧ ∃ p, lookupProfile profiles id conf = Some p
             ∧ role = claimedRole channelAdminRole channelUserRole isDM false
                        (truthyReturned (isUserInRoles (profile_user p) conf adminOrManager))
  | _ => True
  end.

(** The provider accepts every request at its first attempt. *)
Definition firstAttemptsAccepted : Prop := ∀ op, providerFails op 0 = false.

(** A DM channel that needs nothing more for [requester] and [invitee]: it
    carries the unique name, the requester is a member, the invitee a member
    or an invitee. *)
Definition Settled (key requester invitee : string) (c : Channel) : Prop :=
  ch_uniqueName c = key
  ∧ includes (map identity (ch_members c)) requester = true
  ∧ (includes (map identity (ch_members c)) invitee = true
     ∨ includes (map identity (ch_invites c)) invitee = true).

(** A provider that rejects every invitation and accepts everything else. *)
Definition rejectsInvitations (op : Op) (attempt : nat) : bool :=
  match op with InviteCreate _ _ _ => true | _ => false end.

Definition channelAdmin : Role := mkRole "channel admin" "RL-admin".
Definition channelUser : Role := mkRole "channel user" "RL-user".

(** ** Vocabulary of the checks on a request body *)

(** [title?.trim()] can be evaluated: the title is a string or is absent. *)
Definition canTrim (v : JsVal) : bool :=
  match v with JUndefined | JNull | JStr _ => true | _ => false end.

(** The value given as the list of ids is not an array of strings. *)
Definition inviteRejected (v : JsVal) : bool :=
  match v with JArr elements => negb (forallb isString elements) | _ => true end.

(** The mode is neither ["public"] nor ["private"]. *)
Definition modeRejected (v : JsVal) : bool :=
  negb (strictEqStr v "public") && negb (strictEqStr v "private").

(** The title is absent or, trimmed, shorter than five characters. *)
Definition titleRejected (v : JsVal) : bool :=
  match v with JStr title => strlen (trim (trim title)) <? 5 | _ => true end.

(** The value is not a non-empty string. *)
Definition stringRejected (v : JsVal) : bool :=
  match v with JStr sid => String.eqb sid "" | _ => true end.

(** The ids of the list other than the requester's. *)
Definition invitedIds (v : JsVal) (requester : string) : list string :=
  match v with
  | JArr elements => List.filter (fun x => negb (String.eqb x requester)) (stringsOf elements)
  | _ => []
  end.

(** One of the ids has no profile in the conference. *)
Definition unknownInvitee (w : World) (conf : string) (ids : list string) : Prop :=
  ∃ id, id ∈ ids ∧ lookupProfile (w_profiles w) id conf = None.

(** A request that passes the checks of [handleInviteToChat]. *)
Definition ValidatedInvite (req : Request) (w : World) (requestContext : RequestContext)
    (sid : string) (elements : list JsVal) (invitees : list UserProfile) : Prop :=
  req_intro req = Some requestContext
  ∧ field req "targetIdentities" = JArr elements
  ∧ forallb isString elements = true
  ∧ field req "channel" = JStr sid
  ∧ sid ≠ ""
  ∧ (let ids := List.filter (fun x =>
                   negb (String.eqb x (profile_id (ctx_userProfile requestContext))))
                 (stringsOf elements) in
     let found := map (fun id => lookupProfile (w_profiles w) id (ctx_conf requestContext))
                      ids in
     ids ≠ []
     ∧ forallb (fun x => match x with Some _ => true | None => false end) found = true
     ∧ invitees = omap (fun x => x) found).

(** A service role is missing. *)
Definition roleMissing (w : World) : Prop :=
  List.find (fun x => String.eqb (role_friendlyName x) "channel admin") (w_roles w) = None
  ∨ List.find (fun x => String.eqb (role_friendlyName x) "channel user") (w_roles w) = None.

(** Alice's request for a chat with Bob, with the given mode and title. *)
Definition chatWithBob (mode title : JsVal) : Request :=
  mkRequest (Some aliceInConf)
            {[ "invite" := JArr [JStr "bob"]; "mode" := mode; "title" := title ]}
            "1b9d6bcd".

(** A service whose roles were not set up. *)
Definition noRolesWorld : World := mkWorld {[ "CH1" := lobby ]} [] [] [] [alice; bob] [] 0.

(** ** Vocabulary of what a handler leaves behind *)

(** The world after the requests [ops] were sent, and after the provider
    users [us] were created. *)
Definition sendAll (ops : list Op) (w : World) : World :=
  mkWorld (w_channels w) (w_users w) (w_roles w) (w_calls w ++ ops)
          (w_profiles w) (w_textChats w) (w_nextId w).

Definition addUsers (us : list (string * string)) (w : World) : World :=
  mkWorld (w_channels w) (w_users w ++ us) (w_roles w) (w_calls w)
          (w_profiles w) (w_textChats w) (w_nextId w).

Definition ch_addInvites (ms : list Member) (c : Channel) : Channel :=
  mkChannel (ch_uniqueName c) (ch_friendlyName c) (ch_createdBy c) (ch_type c)
            (ch_isDM c) (ch_members c) (ch_invites c ++ ms) (ch_messages c).

(** The provider user of a profile and the request that creates it. *)
Definition userOf (p : UserProfile) : string * string :=
  (profile_id p, profile_displayName p).

Definition userCreate (p : UserProfile) : Op :=
  UserCreate (profile_id p) (profile_displayName p).

(** The profiles of the list without a provider user. *)
Definition withoutUser (w : World) (profiles : list UserProfile) : list UserProfile :=
  List.filter (fun x => negb (includes (map fst (w_users w)) (profile_id x))) profiles.

(** The membership the handlers create for the requester, the invitation
    they create for an invited profile, and the requests that ask for them. *)
Definition membership (conf : string) (channelAdminRole channelUserRole : Role) (isDM : bool)
    (p : UserProfile) : Member :=
  mkMember (profile_id p)
           (if isDM && negb (truthyReturned (isUserInRoles (profile_user p) conf adminOrManager))
            then role_sid channelUserRole else role_sid channelAdminRole).

Definition invitation (conf : string) (channelAdminRole channelUserRole : Role)
    (p : UserProfile) : Member :=
  mkMember (profile_id p)
           (if truthyReturned (isUserInRoles (profile_user p) conf adminOrManager)
            then role_sid channelAdminRole else role_sid channelUserRole).

Definition memberCreate (sid : string) (m : Member) : Op :=
  MemberCreate sid (identity m) (roleSid m).

Definition inviteCreate (sid : string) (m : Member) : Op :=
  InviteCreate sid (identity m) (roleSid m).

(** The profiles of the list that are neither members nor invitees of [c]. *)
Definition notYetIn (c : Channel) (profiles : list UserProfile) : list UserProfile :=
  List.filter (fun p => negb (includes (map identity (ch_members c)) (profile_id p))
                        && negb (includes (map identity (ch_invites c)) (profile_id p)))
              profiles.

(** The channel [handleCreateChat] builds when it creates one: the requester
    is its only member, every invited profile has an invitation. *)
Definition builtChannel (conf : string) (requester : UserProfile) (invitees : list UserProfile)
    (mode title : string) (isDM : bool) (key : string)
    (channelAdminRole channelUserRole : Role) : Channel :=
  mkChannel key (if isDM then key else title)
            (if isDM then "system" else profile_id requester) mode isDM
            [membership conf channelAdminRole channelUserRole isDM requester]
            (map (invitation conf channelAdminRole channelUserRole) invitees) ∅.

(** The requests [handleCreateChat] sends when it creates a channel, in the
    order it sends them. *)
Definition creationRequests (w : World) (sid conf : string) (requester : UserProfile)
    (invitees : list UserProfile) (mode title : string) (isDM : bool) (key : string)
    (channelAdminRole channelUserRole : Role) : list Op :=
  ChannelCreate key (if isDM then key else title)
                (if isDM then "system" else profile_id requester) mode isDM
  :: map userCreate (withoutUser w (invitees ++ [requester]))
  ++ memberCreate sid (membership conf channelAdminRole channelUserRole isDM requester)
  :: map (inviteCreate sid) (map (invitation conf channelAdminRole channelUserRole) invitees).

(** Alice's private request for a chat with Bob for a video room. *)
Definition videoRoomChat : Request :=
  mkRequest (Some aliceInConf)
            {[ "invite" := JArr [JStr "bob"]; "mode" := JStr "private";
               "title" := JStr " Plenary "; "forVideoRoom" := JBool true ]}
            "1b9d6bcd".

(** A provider that rejects every invitation and every removal of a channel,
    and one that rejects the creation of users. *)
Definition rejectsInvitationsAndRemovals (op : Op) (attempt : nat) : bool :=
  match op with InviteCreate _ _ _ | ChannelRemove _ => true | _ => false end.

Definition rejectsUsers (op : Op) (attempt : nat) : bool :=
  match op with UserCreate _ _ => true | _ => false end.

(** Bob's request to invite Alice to the lobby, of which he is not a
    member. *)
Definition inviteAliceToLobby : Request :=
  mkRequest (Some bobInConf)
            {[ "channel" := JStr "CH1"; "targetIdentities" := JArr [JStr "alice"] ]} "".

(** Alice's reaction to the first message of the lobby, with the given value
    as the reaction, and Bob's "like" of it; Bob is not a member. *)
Definition reactWith (reaction : JsVal) : Request :=
  mkRequest (Some aliceInConf)
            {[ "channel" := JStr "CH1"; "message" := JStr "IM1"; "reaction" := reaction ]}
            "".

Definition bobLikesMessage : Request :=
  mkRequest (Some bobInConf)
            {[ "channel" := JStr "CH1"; "message" := JStr "IM1"; "reaction" := JStr "like" ]}
            "".

(** The existing channel of a DM once [handleCreateChat] has gone over it:
    the requester is added as a member unless already one, and an invitation
    is added for each invited profile that was neither member nor invitee. *)
Definition completedChannel (conf : string) (requester : UserProfile)
    (invitees : list UserProfile) (isDM : bool)
    (channelAdminRole channelUserRole : Role) (c : Channel) : Channel :=
  ch_addInvites
    (map (invitation conf channelAdminRole channelUserRole) (notYetIn c invitees))
    (if includes (map identity (ch_members c)) (profile_id requester)
     then c
     else ch_addMember (membership conf channelAdminRole channelUserRole isDM requester) c).

(** The requests that go with it. *)
Definition completionRequests (sid conf : string) (requester : UserProfile)
    (invitees : list UserProfile) (isDM : bool)
    (channelAdminRole channelUserRole : Role) (c : Channel) : list Op :=
  (if includes (map identity (ch_members c)) (profile_id requester)
   then []
   else [memberCreate sid (membership conf channelAdminRole channelUserRole isDM requester)])
  ++ map (inviteCreate sid)
         (map (invitation conf channelAdminRole channelUserRole) (notYetIn c invitees)).

(** A collation in which a character is ignorable, as the soft hyphen is
    in the Unicode collation algorithm: two strings that differ only by it
    compare equal.  And two profiles whose identities differ only by it. *)
Definition softHyphen : string := String (ascii_of_nat 173) EmptyString.

Fixpoint withoutSoftHyphens (s : string) : string :=
  match s with
  | EmptyString => EmptyString
  | String c s' =>
      if Nat.eqb (nat_of_ascii c) 173
      then withoutSoftHyphens s' else String c (withoutSoftHyphens s')
  end.

Definition ignoringSoftHyphens (a b : string) : Z :=
  sampleCompare (withoutSoftHyphens a) (withoutSoftHyphens b).

Definition anna : UserProfile := mkUserProfile "anna" "conf" "u-anna" "Anna".

Definition anNa : UserProfile :=
  mkUserProfile ("an" +:+ softHyphen +:+ "na") "conf" "u-an-na" "An-na".

Definition annaWorld : World := mkWorld ∅ [] sampleRoles [] [anna; anNa] [] 0.

(** ** The earlier revision of [handleCreateChat]

    [src/Chat.ts] holds an earlier revision of the file as well.  Its
    [handleCreateChat] has one more check, on an invite list left empty, knows
    no [forVideoRoom], asks [isUserInRoles] nothing, keeps no mirror record and
    answers [{ channelSID }], which is [ChatCreated] without a [textChatID].
    Its [ensureTwilioUsersExist] is the one above. *)

(** The branch [existingChannels.length > 0], up to the reply. *)
Definition reuseExistingChannel_earlier (userProfile : UserProfile)
    (userProfilesToInvite : list UserProfile) (isDM : bool)
    (channelAdminRole channelUserRole : Role) (newChannel : string * Channel) : M unit :=
  members <- membersList (fst newChannel) ;;
  invites <- invitesList (fst newChannel) ;;
  let members := map identity members in
  let invites := map identity invites in
  (if negb (includes members (profile_id userProfile))
   then
     callWithRetry (membersCreate (fst newChannel) (profile_id userProfile)
                      (if isDM then role_sid channelUserRole else role_sid channelAdminRole))
   else ret tt) ;;;
  promiseAll (fun profile =>
                if negb (includes members (profile_id profile))
                   && negb (includes invites (profile_id profile))
                then
                  callWithRetry (invitesCreate (fst newChannel) (profile_id profile)
                                   (role_sid channelUserRole))
                else ret tt) userProfilesToInvite ;;;
  ret tt.

(** The body of the [try] on a channel that was just created, up to the
    reply. *)
Definition populateNewChannel_earlier (userProfile : UserProfile)
    (userProfilesToInvite : list UserProfile) (isDM : bool)
    (channelAdminRole channelUserRole : Role) (newChannel : string * Channel) : M unit :=
  ensureTwilioUsersExist (userProfilesToInvite ++ [userProfile]) ;;;
  callWithRetry (membersCreate (fst newChannel) (profile_id userProfile)
                   (if isDM then role_sid channelUserRole else role_sid channelAdminRole)) ;;;
  promiseAll (fun profile =>
                callWithRetry (invitesCreate (fst newChannel) (profile_id profile)
                                 (role_sid channelUserRole)))
             userProfilesToInvite ;;;
  ret tt.

(** From the resolved profiles to the reply. *)
Definition provisionChat_earlier (userProfile : UserProfile)
    (userProfilesToInvite : list UserProfile) (mode title : string) (uuid : string)
    : M Reply :=
  let isPrivate := String.eqb mode "private" in
  let isDM := isPrivate && (length userProfilesToInvite =? 1)%nat in
  uniqueName <- uniqueNameOf isDM userProfile userProfilesToInvite uuid ;;
  let friendlyName := if isDM then uniqueName else title in
  let createdBy := if isDM then "system" else profile_id userProfile in
  existingChannels <- existingChannelsOf isDM uniqueName ;;
  roles <- channelRoles ;;
  let '(channelAdminRole, channelUserRole) := roles in
  match existingChannels with
  | newChannel :: _ =>
      reuseExistingChannel_earlier userProfile userProfilesToInvite isDM
                                   channelAdminRole channelUserRole newChannel ;;;
      ret (Send 200 (ChatCreated (fst newChannel) None))
  | [] =>
      newChannel <- callWithRetry (channelsCreate friendlyName uniqueName createdBy mode isDM) ;;
      tryCatch
        (populateNewChannel_earlier userProfile userProfilesToInvite isDM
                                    channelAdminRole channelUserRole newChannel ;;;
         ret (Send 200 (ChatCreated (fst newChannel) None)))
        (fun e =>
           callWithRetry (channelRemove (fst newChannel)) ;;;
           ret (Send 500 (Status "Failed to add or invite members.")))
  end.

Definition handleCreateChat_earlier (req : Request) : World → Reply * World :=
  runHandler
    match req_intro req with
    | None => ret NoReply
    | Some requestContext =>
        let conf := ctx_conf requestContext in
        let userProfile := ctx_userProfile requestContext in
        let _userProfileIdsToInvite := field req "invite" in
        let mode := field req "mode" in
        title <- optionalTrim (field req "title") ;;
        if negb (truthy _userProfileIdsToInvite) || negb (truthy title)
           || strictEqStr title "" || negb (truthy mode)
        then ret (Send 400 (Status "Missing request parameter(s)."))
        else
          match _userProfileIdsToInvite with
          | JArr elements =>
              if negb (forallb isString elements)
              then ret (Send 400 (Status "Invited member ids should be strings."))
              else
                let userProfileIdsToInvite :=
                  List.filter (fun x => negb (String.eqb x (profile_id userProfile)))
                              (stringsOf elements) in
                if (length userProfileIdsToInvite =? 0)%nat
                then ret (Send 400 (Status
                       "Invited members should be a non-empty array (not including the creator)."))
                else
                  match mode with
                  | JStr mode =>
                      if negb (String.eqb mode "public") && negb (String.eqb mode "private")
                      then ret (Send 400 (Status "Mode should be 'public' or 'private'."))
                      else
                        match title with
                        | JStr title =>
                            if strlen (trim title) <? 5
                            then ret (Send 400 (Status
                                   "Title should be a trimmed string of at least 5 non-empty characters."))
                            else
                              let title := trim title in
                              profiles <- resolveProfiles conf userProfileIdsToInvite ;;
                              match profiles with
                              | None => ret (Send 400 (Status "Users to invite invalid."))
                              | Some userProfilesToInvite =>
                                  provisionChat_earlier userProfile userProfilesToInvite
                                                        mode title (req_uuid req)
                              end
                        | _ =>
                            ret (Send 400 (Status
                                   "Title should be a trimmed string of at least 5 non-empty characters."))
                        end
                  | _ => ret (Send 400 (Status "Mode should be 'public' or 'private'."))
                  end
          | _ => ret (Send 400 (Status "Invited members should be an array."))
          end
    end.

(** Alice's request for a public chat that invites only herself. *)
Definition chatWithHerself : Request :=
  mkRequest (Some aliceInConf)
            {[ "invite" := JArr [JStr "alice"]; "mode" := JStr "public";
               "title" := JStr " Plenary " ]}
            "1b9d6bcd".

(** ** Vocabulary of the rebuilt access list *)


(** [m] leaves the document store as it found it, whatever its outcome. *)
Definition storeKept {A} (m : M A) : Prop :=
  ∀ w r w', m w = (r, w') →
    w_textChats w' = w_textChats w ∧ w_nextId w' = w_nextId w.

(** * Properties *)

(** ** Access lists *)

Lemma getAccess_setAccess_eq a k b (acl : ACL) :
  getAccess a k (setAccess a k b acl) = b.
Proof.
  unfold getAccess, setAccess.
  destruct (acl !! k) as [p|] eqn:E.
  - destruct a, b, p as [[] []]; simpl;
      rewrite ?lookup_insert_eq, ?lookup_delete_eq; reflexivity.
  - destruct b; [rewrite lookup_insert_eq; by destruct a | by rewrite E].
Qed.

Lemma getAccess_setAccess_key a a' k k' b (acl : ACL) :
  k ≠ k' → getAccess a' k' (setAccess a k b acl) = getAccess a' k' acl.
Proof.
  intros Hk. unfold getAccess, setAccess.
  destruct (acl !! k) as [p|] eqn:E.
  - destruct (perm_read _ || perm_write _);
      by rewrite ?lookup_insert_ne, ?lookup_delete_ne.
  - destruct b; by rewrite ?lookup_insert_ne.
Qed.

Lemma getAccess_setAccess_access a a' k b (acl : ACL) :
  a ≠ a' → getAccess a' k (setAccess a k b acl) = getAccess a' k acl.
Proof.
  intros Ha. unfold getAccess, setAccess.
  destruct (acl !! k) as [p|] eqn:E.
  - destruct a, a', b, p as [[] []]; simpl; try congruence;
      rewrite ?lookup_insert_eq, ?lookup_delete_eq, ?E; reflexivity.
  - destruct b; [rewrite lookup_insert_eq | rewrite E];
      by destruct a, a'.
Qed.

Lemma getAccess_setAccess_write k k' b (acl : ACL) :
  getAccess Write k' (setAccess Read k b acl) = getAccess Write k' acl.
Proof.
  destruct (decide (k = k')) as [->|Hk].
  - by apply getAccess_setAccess_access.
  - by apply getAccess_setAccess_key.
Qed.

Lemma getAccess_empty a k : getAccess a k (∅ : ACL) = false.
Proof. unfold getAccess. by rewrite lookup_empty. Qed.

(** What [baseACL] grants: read and write to the manager and admin roles of
    the conference, nothing to anyone else. *)
Lemma baseACL_access conf a k :
  getAccess a k (baseACL conf)
  = bool_decide (k = RoleKey conf "manager" ∨ k = RoleKey conf "admin").
Proof.
  unfold baseACL, getRoleByName.
  destruct (decide (k = RoleKey conf "admin")) as [->|Hadmin].
  { rewrite bool_decide_eq_true_2 by auto.
    destruct a.
    - rewrite getAccess_setAccess_access by done. apply getAccess_setAccess_eq.
    - apply getAccess_setAccess_eq. }
  rewrite !(getAccess_setAccess_key _ _ (RoleKey conf "admin")) by done.
  destruct (decide (k = RoleKey conf "manager")) as [->|Hmgr].
  { rewrite bool_decide_eq_true_2 by auto.
    destruct a.
    - rewrite getAccess_setAccess_access by done. apply getAccess_setAccess_eq.
    - apply getAccess_setAccess_eq. }
  rewrite !(getAccess_setAccess_key _ _ (RoleKey conf "manager")) by done.
  rewrite bool_decide_eq_false_2 by (intros [?|?]; done).
  destruct (decide (k = PublicKey)) as [->|Hpub].
  - destruct a.
    + rewrite getAccess_setAccess_access by done. apply getAccess_setAccess_eq.
    + apply getAccess_setAccess_eq.
  - rewrite !(getAccess_setAccess_key _ _ PublicKey) by done. apply getAccess_empty.
Qed.

(** The loop over [allIds] never throws and leaves the world alone; it only
    adds read access for the accounts of the profiles that resolve. *)
Lemma grantProfiles_run conf allIds : ∀ acl w,
  ∃ acl', grantProfiles conf acl allIds w = (Ok acl', w)
    ∧ (∀ a k, (∀ u, k ≠ UserKey u) → getAccess a k acl' = getAccess a k acl)
    ∧ (∀ u, getAccess Write (UserKey u) acl' = getAccess Write (UserKey u) acl)
    ∧ (∀ u, getAccess Read (UserKey u) acl' = true
            ↔ getAccess Read (UserKey u) acl = true
              ∨ ∃ id p, id ∈ allIds
                        ∧ lookupProfile (w_profiles w) id conf = Some p
                        ∧ profile_user p = u).
Proof.
  induction allIds as [|id rest IH]; intros acl w.
  - exists acl. split; [done|]. split; [done|]. split; [done|].
    intros u. split; [auto|]. intros [H|(? & ? & Hin & _)]; [done|].
    by apply elem_of_nil in Hin.
  - simpl. unfold bind at 1, grantProfile, bind, getUserProfileByID.
    destruct (lookupProfile (w_profiles w) id conf) as [p|] eqn:Hp; unfold ret.
    + destruct (IH (setAccess Read (UserKey (profile_user p)) true acl) w)
        as (acl' & Hrun & Hkeys & Hwrite & Hread).
      exists acl'. split; [done|]. split; [|split].
      * intros a k Hk. rewrite Hkeys by done.
        apply getAccess_setAccess_key. intros <-. by eapply Hk.
      * intros u. rewrite Hwrite. apply getAccess_setAccess_write.
      * intros u. rewrite Hread. split.
        -- intros [H|(id' & p' & Hin & Hl & Hu)].
           ++ destruct (decide (profile_user p = u)) as [<-|Hne].
              ** right. exists id, p. split; [apply list_elem_of_here|done].
              ** left. by rewrite getAccess_setAccess_key in H by congruence.
           ++ right. exists id', p'. split; [by apply list_elem_of_further|done].
        -- intros [H|(id' & p' & Hin & Hl & Hu)].
           ++ left. destruct (decide (profile_user p = u)) as [<-|Hne].
              ** apply getAccess_setAccess_eq.
              ** by rewrite getAccess_setAccess_key by congruence.
           ++ apply elem_of_cons in Hin as [->|Hin].
              ** left. rewrite Hp in Hl. injection Hl as <-. rewrite Hu.
                 apply getAccess_setAccess_eq.
              ** right. by exists id', p'.
    + destruct (IH acl w) as (acl' & Hrun & Hkeys & Hwrite & Hread).
      exists acl'. split; [done|]. split; [done|]. split; [done|].
      intros u. rewrite Hread. split.
      * intros [H|(id' & p' & Hin & Hl & Hu)]; [by left|].
        right. exists id', p'. split; [by apply list_elem_of_further|done].
      * intros [H|(id' & p' & Hin & Hl & Hu)]; [by left|].
        apply elem_of_cons in Hin as [->|Hin]; [congruence|].
        right. by exists id', p'.
Qed.

Lemma saveTextChat_acl t w :
  ∃ t' w', saveTextChat t w = (Ok t', w') ∧ tc_acl t' = tc_acl t
           ∧ w_channels w' = w_channels w ∧ w_calls w' = w_calls w
           ∧ w_roles w' = w_roles w ∧ w_profiles w' = w_profiles w.
Proof.
  unfold saveTextChat. destruct (tc_id t); eauto 10.
Qed.

Local Ltac role_decide :=
  first [ apply bool_decide_eq_true_2; by auto
        | apply bool_decide_eq_false_2; by intros [?|?] ].

(** The rebuild succeeds for a channel that exists, and the attendee role
    reads in the result exactly when the privacy flag is off. *)
Lemma updateTextChatACLs_attendee sid textChat flag w c :
  w_channels w !! sid = Some c →
  let isPrivate := match flag with Some b => b | None => derivedIsPrivate textChat end in
  ∃ t' w' acl,
    updateTextChatACLs sid textChat flag w = (Ok t', w')
    ∧ tc_acl t' = Some acl
    ∧ getAccess Read (getRoleByName "attendee" (tc_conference textChat)) acl = negb isPrivate.
Proof.
  intros Hc isPrivate. unfold updateTextChatACLs. fold isPrivate.
  set (conf := tc_conference textChat).
  destruct isPrivate.
  - unfold bind at 1. unfold bind at 1, membersList, bind at 1, channelFetch.
    rewrite Hc. unfold ret at 1. unfold bind at 1, invitesList, bind at 1, channelFetch.
    rewrite Hc. unfold ret at 1.
    destruct (grantProfiles_run conf
                (map identity (ch_members c) ++ map identity (ch_invites c))
                (baseACL conf) w) as (acl & Hrun & Hkeys & _).
    rewrite Hrun.
    destruct (saveTextChat_acl (tc_setACL acl textChat) w) as (t' & w' & Hsave & Hacl & _).
    exists t', w', acl. split; [done|]. split; [by rewrite Hacl|].
    unfold getRoleByName. rewrite Hkeys by done. rewrite baseACL_access. role_decide.
  - unfold bind at 1, ret at 1.
    set (acl := setAccess Read (getRoleByName "attendee" conf) true (baseACL conf)).
    destruct (saveTextChat_acl (tc_setACL acl textChat) w) as (t' & w' & Hsave & Hacl & _).
    exists t', w', acl. split; [done|]. split; [by rewrite Hacl|].
    apply getAccess_setAccess_eq.
Qed.

(** The privacy flag that the rebuild derives when the caller leaves it out
    is the attendee role's read access, which is what marks a record as
    public: the rebuilt record has the opposite classification. *)
Lemma updateTextChatACLs_derived_flag sid textChat w c :
  w_channels w !! sid = Some c →
  ∃ t' w' acl,
    updateTextChatACLs sid textChat None w = (Ok t', w')
    ∧ tc_acl t' = Some acl
    ∧ getAccess Read (getRoleByName "attendee" (tc_conference textChat)) acl
      = negb (derivedIsPrivate textChat).
Proof. intros Hc. exact (updateTextChatACLs_attendee sid textChat None w c Hc). Qed.




(** ** The unique name of a DM channel *)

Lemma substr0_length n : ∀ s, (String.length (substr0 n s) ≤ n)%nat.
Proof.
  unfold substr0. induction n as [|n IH]; intros [|c s]; simpl; try lia.
  specialize (IH s). lia.
Qed.

(** ** Running computations *)

Lemma bind_run {A B} (m : M A) (k : A → M B) w :
  bind m k w = match m w with
               | (Ok a, w') => k a w'
               | (Throw e, w') => (Throw e, w')
               end.
Proof. reflexivity. Qed.

Lemma promiseAll_pure {A B} (f : A → M B) (g : A → B) w :
  (∀ x, f x w = (Ok (g x), w)) → ∀ xs, promiseAll f xs w = (Ok (map g xs), w).
Proof.
  intros Hf. induction xs as [|x xs IH]; [done|].
  simpl. by rewrite Hf, IH.
Qed.

(** Resolving profiles reads the store and nothing else. *)
Lemma resolveProfiles_run conf ids w :
  resolveProfiles conf ids w
  = (Ok (let found := map (fun id => lookupProfile (w_profiles w) id conf) ids in
         if forallb (fun x => match x with Some _ => true | None => false end) found
         then Some (omap (fun x => x) found) else None), w).
Proof.
  unfold resolveProfiles. rewrite bind_run.
  rewrite (promiseAll_pure _ (fun id => lookupProfile (w_profiles w) id conf)) by done.
  simpl. by destruct (forallb _ _).
Qed.

(** ** Inviting to a DM channel *)

(** C8.  An invitation request that names a channel marked [isDM] is answered
    with status 400 and leaves the world as it was: no membership, no
    invitation, no mirror record is written.  Whether the requester is a
    member of the channel plays no part.  (The two service roles exist.) *)
Theorem inviteToChat_DM_is_rejected req requestContext sid c roles w :
  req_intro req = Some requestContext →
  field req "channel" = JStr sid →
  w_channels w !! sid = Some c →
  ch_isDM c = true →
  channelRoles w = (Ok roles, w) →
  ∃ body, handleInviteToChat req w = (Send 400 body, w).
Proof.
  intros Hintro Hchannel Hc HisDM Hroles.
  unfold handleInviteToChat, runHandler. rewrite Hintro, Hchannel.
  destruct (negb (truthy (field req "targetIdentities")) || negb (truthy (JStr sid)));
    [by eexists|].
  destruct (field req "targetIdentities") as [| | | | |elements|]; try by eexists.
  destruct (negb (forallb isString elements)); [by eexists|].
  destruct (length _ =? 0)%nat; [by eexists|].
  rewrite bind_run, resolveProfiles_run.
  destruct (if forallb _ _ then _ else _) as [profiles|]; [|by eexists].
  rewrite bind_run. unfold channelFetch at 1. rewrite Hc.
  rewrite bind_run, Hroles. destruct roles as [channelAdminRole channelUserRole].
  rewrite HisDM. by eexists.
Qed.

(** ** Reactions *)

Lemma truthy_JStr s : s ≠ "" → truthy (JStr s) = true.
Proof. intros H. simpl. by apply negb_true_iff, String.eqb_neq. Qed.

Lemma messageUpdate_run sid message attributes c w :
  w_channels w !! sid = Some c →
  messageUpdate sid message attributes w
  = let op := MessageUpdate sid message attributes in
    if providerFails op 0
    then (Throw (ProviderError op), logCall op w)
    else (Ok tt, setChannels (insert sid (ch_setMessage message (Some attributes) c))
                             (logCall op w)).
Proof.
  intros Hc. unfold messageUpdate, request. simpl.
  destruct (providerFails _ 0); [done|].
  unfold onChannel. simpl. by rewrite Hc.
Qed.

Lemma reactionRequest_run req w requestContext sid message reaction c attributes k :
  ReactionRequest req w requestContext sid message reaction c attributes →
  reactionRequest req (ctx_userProfile requestContext) k w
  = k sid message reaction w
  ∧ messageFetch sid message w = (Ok attributes, w).
Proof.
  intros (Hintro & Hch & Hsid & Hmsg & Hmessage & Hr & Hreaction & Hc & Hmember & Ha).
  assert (Hfetch : messageFetch sid message w = (Ok attributes, w)).
  { unfold messageFetch. rewrite bind_run. unfold channelFetch. by rewrite Hc, Ha. }
  split; [|done].
  unfold reactionRequest. rewrite Hch, Hmsg, Hr, !truthy_JStr by done. cbn [negb].
  rewrite bind_run.
  unfold membersList. rewrite bind_run. unfold channelFetch. rewrite Hc.
  unfold ret at 1. by rewrite Hmember.
Qed.

Lemma reactionUsersIn_run attributes reaction w :
  reactionUsersIn (reactionsOf attributes) reaction w
  = if readsInherited attributes reaction then (Throw TypeError, w)
    else (Ok (reactionUsersOf attributes reaction), w).
Proof.
  unfold reactionUsersIn, readsInherited, reactionUsersOf.
  destruct (reactionsOf attributes !! reaction); [done|].
  by destruct (includes inheritedNames reaction).
Qed.

(** A reaction with a user recorded under it is an own key. *)
Lemma readsInherited_recorded attributes reaction user :
  includes (reactionUsersOf attributes reaction) user = true →
  readsInherited attributes reaction = false.
Proof.
  unfold readsInherited, reactionUsersOf.
  by destruct (reactionsOf attributes !! reaction).
Qed.

(** What [handleAddReaction] does with a well-formed request of a member. *)
Lemma handleAddReaction_run req w requestContext sid message reaction c attributes :
  ReactionRequest req w requestContext sid message reaction c attributes →
  let user := profile_id (ctx_userProfile requestContext) in
  let users := reactionUsersOf attributes reaction in
  let attributes' :=
    withReactions attributes (<[reaction := users ++ [user]]> (reactionsOf attributes)) in
  let op := MessageUpdate sid message attributes' in
  handleAddReaction req w
  = if readsInherited attributes reaction then (Next TypeError, w)
    else if includes users user then (Send 200 OkTrue, w)
    else if providerFails op 0 then (Next (ProviderError op), logCall op w)
    else (Send 200 OkTrue,
          setChannels (insert sid (ch_setMessage message (Some attributes') c)) (logCall op w)).
Proof.
  intros Hreq user users attributes' op.
  pose proof Hreq as (Hintro & _ & _ & _ & _ & _ & _ & Hc & _ & _).
  unfold handleAddReaction, runHandler. rewrite Hintro.
  match goal with
  | |- context [reactionRequest req _ ?k w] =>
      destruct (reactionRequest_run req w requestContext sid message reaction c attributes k Hreq)
        as [-> Hfetch]
  end.
  rewrite bind_run, Hfetch. rewrite bind_run, reactionUsersIn_run.
  destruct (readsInherited attributes reaction); [done|].
  rewrite bind_run. fold user. fold users.
  destruct (includes users user); [done|]. cbn [negb].
  fold attributes'. rewrite (messageUpdate_run _ _ _ c) by done. fold op.
  cbv zeta. by destruct (providerFails op 0).
Qed.

(** What [handleRemoveReaction] does with a well-formed request of a member. *)
Lemma handleRemoveReaction_run req w requestContext sid message reaction c attributes :
  ReactionRequest req w requestContext sid message reaction c attributes →
  let user := profile_id (ctx_userProfile requestContext) in
  let users := reactionUsersOf attributes reaction in
  let remaining := List.filter (fun x => negb (String.eqb x user)) users in
  let reactions := <[reaction := remaining]> (reactionsOf attributes) in
  let attributes' :=
    withReactions attributes
      (if (length remaining =? 0)%nat then delete reaction reactions else reactions) in
  let op := MessageUpdate sid message attributes' in
  handleRemoveReaction req w
  = if readsInherited attributes reaction then (Next TypeError, w)
    else if negb (includes users user) then (Send 200 OkTrue, w)
    else if providerFails op 0 then (Next (ProviderError op), logCall op w)
    else (Send 200 OkTrue,
          setChannels (insert sid (ch_setMessage message (Some attributes') c)) (logCall op w)).
Proof.
  intros Hreq user users remaining reactions attributes' op.
  pose proof Hreq as (Hintro & _ & _ & _ & _ & _ & _ & Hc & _ & _).
  unfold handleRemoveReaction, runHandler. rewrite Hintro.
  match goal with
  | |- context [reactionRequest req _ ?k w] =>
      destruct (reactionRequest_run req w requestContext sid message reaction c attributes k Hreq)
        as [-> Hfetch]
  end.
  rewrite bind_run, Hfetch. rewrite bind_run, reactionUsersIn_run.
  destruct (readsInherited attributes reaction); [done|].
  rewrite bind_run. fold user. fold users.
  destruct (includes users user); [|done]. cbn [negb].
  fold remaining. fold reactions. fold attributes'.
  rewrite (messageUpdate_run _ _ _ c) by done. fold op.
  cbv zeta. by destruct (providerFails op 0).
Qed.

Lemma messageAttributes_updated w op sid message c a :
  messageAttributes (setChannels (insert sid (ch_setMessage message a c)) (logCall op w))
                    sid message = Some a.
Proof.
  unfold messageAttributes. cbn [w_channels setChannels logCall].
  rewrite lookup_insert_eq. cbn [mbind option_bind ch_messages ch_setMessage].
  apply lookup_insert_eq.
Qed.


Lemma messageAttributes_found w sid message c a :
  w_channels w !! sid = Some c → ch_messages c !! message = Some a →
  messageAttributes w sid message = Some a.
Proof. intros Hc Ha. unfold messageAttributes. by rewrite Hc. Qed.

Lemma includes_occurrences x xs : includes xs x = negb (occurrences x xs =? 0)%nat.
Proof.
  unfold includes, occurrences.
  induction xs as [|y ys IH]; [done|]. simpl.
  destruct (x =? y)%string; simpl; [done|exact IH].
Qed.

Lemma occurrences_app x xs ys :
  occurrences x (xs ++ ys) = (occurrences x xs + occurrences x ys)%nat.
Proof. unfold occurrences. by rewrite List.filter_app, length_app. Qed.

Lemma occurrences_self x : occurrences x [x] = 1%nat.
Proof. unfold occurrences. simpl. by rewrite String.eqb_refl. Qed.

Lemma occurrences_removed x xs :
  occurrences x (List.filter (fun y => negb (String.eqb y x)) xs) = 0%nat.
Proof.
  unfold occurrences. induction xs as [|y ys IH]; [done|]. simpl.
  destruct (y =? x)%string eqn:E; simpl; [exact IH|].
  rewrite String.eqb_sym, E. exact IH.
Qed.

Lemma reactionsOf_withReactions attributes reactions :
  reactionsOf (Some (withReactions attributes reactions)) = reactions.
Proof. reflexivity. Qed.

Lemma otherKeysOf_withReactions attributes reactions :
  otherKeysOf (Some (withReactions attributes reactions)) = otherKeysOf attributes.
Proof. by destruct attributes. Qed.



(** C9 as amended.  For a reaction request of a member whose identity occurs
    at most once in the reaction's user list, about a reaction that is a key
    of the message's reactions or is not the name of a property that objects
    inherit, with message updates accepted by the provider: adding twice
    answers [{ ok: true }] both times, the second call changes nothing, and
    the identity then occurs exactly once in the list.  Removing answers
    [{ ok: true }] and leaves no occurrence of the identity (whatever their
    number), and when the identity was in the list the reaction's key holds
    the remaining users, or is gone from the attributes when nobody
    remains. *)
Theorem reactions_add_twice_and_remove
    req w requestContext sid message reaction c attributes :
  ReactionRequest req w requestContext sid message reaction c attributes →
  (∀ a, providerFails (MessageUpdate sid message a) 0 = false) →
  readsInherited attributes reaction = false →
  let user := profile_id (ctx_userProfile requestContext) in
  let users := reactionUsersOf attributes reaction in
  let remaining := List.filter (fun x => negb (String.eqb x user)) users in
  (occurrences user users ≤ 1)%nat →
  (let first := handleAddReaction req w in
   let second := handleAddReaction req (snd first) in
   fst first = Send 200 OkTrue
   ∧ second = (Send 200 OkTrue, snd first)
   ∧ ∃ attributes',
       messageAttributes (snd second) sid message = Some attributes'
       ∧ occurrences user (reactionUsersOf attributes' reaction) = 1%nat)
  ∧ (let removed := handleRemoveReaction req w in
     fst removed = Send 200 OkTrue
     ∧ ∃ attributes',
         messageAttributes (snd removed) sid message = Some attributes'
         ∧ occurrences user (reactionUsersOf attributes' reaction) = 0%nat
         ∧ (includes users user = true →
            reactionsOf attributes' !! reaction
            = if (length remaining =? 0)%nat then None else Some remaining)).
Proof.
  intros Hreq Haccept Hown user users remaining Honce.
  pose proof Hreq as (Hintro & Hch & Hsid & Hmsg & Hmessage & Hr & Hreaction
                      & Hc & Hmember & Ha).
  pose proof (messageAttributes_found w sid message c attributes Hc Ha) as Hfound.
  pose proof (includes_occurrences user users) as Hincl.
  split.
  - pose proof (handleAddReaction_run _ _ _ _ _ _ _ _ Hreq) as Hadd.
    cbv zeta in Hadd. fold user in Hadd. fold users in Hadd.
    rewrite Hown, Haccept in Hadd. cbv zeta.
    destruct (includes users user) eqn:Hin.
    + rewrite Hadd. cbn [fst snd]. rewrite Hadd.
      split; [done|]. split; [done|].
      exists attributes. split; [done|]. fold users.
      symmetry in Hincl. apply negb_true_iff, Nat.eqb_neq in Hincl. lia.
    + rewrite Hadd. cbn [fst snd].
      set (attributes' := withReactions attributes
                            (<[reaction := users ++ [user]]> (reactionsOf attributes))) in *.
      set (op := MessageUpdate sid message attributes') in *.
      set (c' := ch_setMessage message (Some attributes') c).
      set (w1 := setChannels (insert sid c') (logCall op w)).
      assert (Husers' : reactionUsersOf (Some attributes') reaction = users ++ [user]).
      { unfold reactionUsersOf, attributes'.
        by rewrite reactionsOf_withReactions, lookup_insert_eq. }
      assert (Hreq1 : ReactionRequest req w1 requestContext sid message reaction c'
                                      (Some attributes')).
      { repeat split; try assumption.
        - unfold w1. cbn [w_channels setChannels logCall]. apply lookup_insert_eq.
        - unfold c'. cbn [ch_messages ch_setMessage]. apply lookup_insert_eq. }
      pose proof (handleAddReaction_run _ _ _ _ _ _ _ _ Hreq1) as Hadd1.
      cbv zeta in Hadd1. fold user in Hadd1. rewrite Husers' in Hadd1.
      assert (Hin1 : includes (users ++ [user]) user = true).
      { rewrite includes_occurrences, occurrences_app, occurrences_self.
        apply negb_true_iff, Nat.eqb_neq. lia. }
      assert (Hown1 : readsInherited (Some attributes') reaction = false).
      { apply (readsInherited_recorded _ _ user). by rewrite Husers'. }
      rewrite Hown1, Hin1 in Hadd1. rewrite Hadd1.
      split; [done|]. split; [done|].
      exists (Some attributes'). cbn [snd]. unfold w1, c'.
      rewrite messageAttributes_updated. split; [done|].
      rewrite Husers', occurrences_app, occurrences_self.
      symmetry in Hincl. apply negb_false_iff, Nat.eqb_eq in Hincl.
      fold users in Hincl. lia.
  - pose proof (handleRemoveReaction_run _ _ _ _ _ _ _ _ Hreq) as Hremove.
    cbv zeta in Hremove. fold user in Hremove. fold users in Hremove.
    fold remaining in Hremove. rewrite Hown, Haccept in Hremove. cbv zeta.
    rewrite Hremove. destruct (includes users user) eqn:Hin; cbn [negb fst snd].
    + split; [done|]. rewrite messageAttributes_updated.
      eexists. split; [reflexivity|].
      unfold reactionUsersOf. rewrite reactionsOf_withReactions.
      destruct (length remaining =? 0)%nat eqn:Hlen.
      * rewrite lookup_delete_eq. by split.
      * rewrite lookup_insert_eq. split; [|done].
        apply occurrences_removed.
    + split; [done|]. exists attributes. split; [done|]. split; [|done].
      symmetry in Hincl. apply negb_false_iff, Nat.eqb_eq in Hincl. exact Hincl.
Qed.

(** ** What a computation sends and keeps *)

Lemma steps_ret {A} P I (a : A) : steps P I (ret a).
Proof.
  intros w r w' [= <- <-] HI. repeat split; try done.
  exists []. by rewrite app_nil_r.
Qed.

Lemma steps_throw {A} P I e : steps P I (@throw A e).
Proof.
  intros w r w' [= <- <-] HI. repeat split; try done.
  exists []. by rewrite app_nil_r.
Qed.

Lemma steps_read {A} P I (f : World → Outcome A) : steps P I (fun w => (f w, w)).
Proof.
  intros w r w' [= <- <-] HI. repeat split; try done.
  exists []. by rewrite app_nil_r.
Qed.

Lemma steps_seq {A B} P I (m : M A) (k : Outcome A → M B) :
  steps P I m → (∀ r, steps P I (k r)) →
  steps P I (fun w => let '(r, w1) := m w in k r w1).
Proof.
  intros Hm Hk w r w' Hrun HI.
  destruct (m w) as [r1 w1] eqn:Em.
  destruct (Hm _ _ _ Em HI) as (HI1 & Hp1 & Hr1 & l1 & Hl1 & HP1).
  destruct (Hk r1 _ _ _ Hrun HI1) as (HI2 & Hp2 & Hr2 & l2 & Hl2 & HP2).
  split; [done|]. split; [congruence|]. split; [congruence|].
  exists (l1 ++ l2). split; [by rewrite Hl2, Hl1, app_assoc|by apply Forall_app].
Qed.

Lemma steps_ext {A} P I (m m' : M A) :
  (∀ w, m w = m' w) → steps P I m → steps P I m'.
Proof. intros Heq Hm w r w' Hrun. rewrite <- Heq in Hrun. exact (Hm _ _ _ Hrun). Qed.

Lemma steps_bind {A B} P I (m : M A) (k : A → M B) :
  steps P I m → (∀ a, steps P I (k a)) → steps P I (bind m k).
Proof.
  intros Hm Hk.
  apply (steps_ext P I
           (fun w => let '(r, w1) := m w in
                     match r with Ok a => k a | Throw e => throw e end w1)).
  { intros w. unfold bind. by destruct (m w) as [[a|e] w1]. }
  apply (steps_seq P I m (fun r => match r with Ok a => k a | Throw e => throw e end));
    [done|].
  intros [a|e]; [apply Hk|apply steps_throw].
Qed.

Lemma steps_tryCatch {A} P I (body : M A) (handler : Error → M A) :
  steps P I body → (∀ e, steps P I (handler e)) → steps P I (tryCatch body handler).
Proof.
  intros Hm Hk.
  apply (steps_ext P I
           (fun w => let '(r, w1) := body w in
                     match r with Ok a => ret a | Throw e => handler e end w1)).
  { intros w. unfold tryCatch. by destruct (body w) as [[a|e] w1]. }
  apply (steps_seq P I body (fun r => match r with Ok a => ret a | Throw e => handler e end));
    [done|].
  intros [a|e]; [apply steps_ret|apply Hk].
Qed.

Lemma steps_promiseAll {A B} P I (f : A → M B) xs :
  (∀ x, x ∈ xs → steps P I (f x)) → steps P I (promiseAll f xs).
Proof.
  induction xs as [|x xs IH]; intros Hf; [apply steps_ret|].
  simpl.
  apply (steps_seq P I (f x)
           (fun r w1 => let '(rs, w2) := promiseAll f xs w1 in
                        (match r, rs with
                         | Ok b, Ok bs => Ok (b :: bs)
                         | Throw e, _ => Throw e
                         | Ok _, Throw e => Throw e
                         end, w2))).
  - apply Hf, list_elem_of_here.
  - intros r.
    apply (steps_seq P I (promiseAll f xs) (fun rs w2 => (_, w2))).
    + apply IH. intros y Hy. apply Hf. by apply list_elem_of_further.
    + intros rs. apply (steps_read P I (fun _ => _)).
Qed.

Lemma steps_retryFrom {A} P I (f : nat → M A) remaining :
  (∀ j, steps P I (f j)) → ∀ attempt, steps P I (retryFrom attempt remaining f).
Proof.
  intros Hf. induction remaining as [|n IH]; intros attempt; simpl.
  - apply (steps_ext P I (fun w => let '(r, w1) := f attempt w in (r, w1))).
    { intros w. by destruct (f attempt w) as [[a|e] w1]. }
    apply (steps_seq P I (f attempt) (fun r w' => (r, w'))); [done|].
    intros r. apply (steps_read P I (fun _ => r)).
  - apply (steps_ext P I
             (fun w => let '(r, w1) := f attempt w in
                       match r with
                       | Ok a => ret a
                       | Throw e => retryFrom (S attempt) n f
                       end w1)).
    { intros w. by destruct (f attempt w) as [[a|e] w1]. }
    apply (steps_seq P I (f attempt)
             (fun r => match r with
                       | Ok a => ret a
                       | Throw e => retryFrom (S attempt) n f
                       end)); [done|].
    intros [a|e]; [apply steps_ret|apply IH].
Qed.

Lemma steps_callWithRetry {A} P I (f : nat → M A) :
  (∀ j, steps P I (f j)) → steps P I (callWithRetry f).
Proof. intros Hf. by apply steps_retryFrom. Qed.

(** A mutating request: it is sent, and its effect has to keep [I]. *)
Lemma steps_request {A} (P : Op → Prop) I op attempt (effect : World → Outcome A * World) :
  P op →
  (∀ w r w', effect w = (r, w') → I (w_channels w) →
     I (w_channels w') ∧ w_profiles w' = w_profiles w ∧ w_roles w' = w_roles w
     ∧ w_calls w' = w_calls w) →
  steps P I (request op attempt effect).
Proof.
  intros HP Heff w r w' Hrun HI. unfold request in Hrun.
  destruct (providerFails op attempt).
  - injection Hrun as <- <-. repeat split; try done.
    exists [op]. split; [done|]. by apply Forall_singleton.
  - destruct (Heff _ _ _ Hrun HI) as (HI' & Hp & Hr & Hc).
    repeat split; try done.
    exists [op]. split; [by rewrite Hc|]. by apply Forall_singleton.
Qed.

Lemma steps_onChannel (P : Op → Prop) (I : gmap string Channel → Prop) op attempt sid f :
  P op →
  (∀ chs c, I chs → chs !! sid = Some c → I (<[sid := f c]> chs)) →
  steps P I (request op attempt (onChannel sid f)).
Proof.
  intros HP HI. apply steps_request; [done|].
  intros w r w' Hrun HIw. unfold onChannel in Hrun.
  destruct (w_channels w !! sid) as [c|] eqn:Hc; injection Hrun as <- <-; [|done].
  repeat split. by apply HI.
Qed.

Lemma steps_saveTextChat P I t : steps P I (saveTextChat t).
Proof.
  intros w r w' Hrun HI. unfold saveTextChat in Hrun.
  destruct (tc_id t); injection Hrun as <- <-; repeat split; try done;
    exists []; by rewrite app_nil_r.
Qed.

Lemma steps_channelFetch P I sid : steps P I (channelFetch sid).
Proof.
  intros w r w' Hrun HI. unfold channelFetch in Hrun.
  destruct (w_channels w !! sid); injection Hrun as <- <-;
    repeat split; try done; exists []; by rewrite app_nil_r.
Qed.

(** ** Running [handleCreateChat] up to the channel *)

Lemma channelRoles_run w :
  channelRoles w
  = (match List.find (fun x => String.eqb (role_friendlyName x) "channel admin") (w_roles w),
           List.find (fun x => String.eqb (role_friendlyName x) "channel user") (w_roles w) with
     | Some channelAdminRole, Some channelUserRole => Ok (channelAdminRole, channelUserRole)
     | _, _ => Throw AssertionError
     end, w).
Proof.
  unfold channelRoles. rewrite bind_run. unfold rolesList.
  destruct (List.find _ (w_roles w)); [|done].
  by destruct (List.find _ (w_roles w)).
Qed.

Lemma channelRoles_same w w' roles :
  w_roles w' = w_roles w → channelRoles w = (Ok roles, w) → channelRoles w' = (Ok roles, w').
Proof.
  intros Hr. rewrite !channelRoles_run, Hr.
  destruct (List.find _ _); [|done]. destruct (List.find _ _); [|done].
  by intros [= <-].
Qed.

Lemma provisionChat_run conf userProfile invitees mode title forVideoRoom uuid w
    channelAdminRole channelUserRole :
  let isDM := isDMFor mode invitees forVideoRoom in
  let key := uniqueNameFor isDM userProfile invitees uuid in
  channelRoles w = (Ok (channelAdminRole, channelUserRole), w) →
  provisionChat conf userProfile invitees mode title forVideoRoom uuid w
  = bind (resolveChannel conf userProfile invitees isDM mode
                         (if isDM then key else title) key
                         (if isDM then "system" else profile_id userProfile)
                         channelAdminRole channelUserRole
                         (if isDM then channelsNamed key (w_channels w) else []))
         (mirrorAndReply conf isDM (String.eqb mode "private")) w.
Proof.
  intros isDM key Hroles. unfold provisionChat.
  fold (isDMFor mode invitees forVideoRoom). fold isDM.
  assert (Hkey : uniqueNameOf isDM userProfile invitees uuid w = (Ok key, w)).
  { unfold uniqueNameOf, key, uniqueNameFor.
    destruct isDM eqn:HisDM; [|done].
    destruct invitees; [|done].
    unfold isDM, isDMFor in HisDM. simpl in HisDM.
    by rewrite andb_false_r in HisDM. }
  rewrite bind_run, Hkey. rewrite bind_run.
  assert (Hexisting : existingChannelsOf isDM key w
                      = (Ok (if isDM then channelsNamed key (w_channels w) else []), w)).
  { unfold existingChannelsOf. by destruct isDM. }
  rewrite Hexisting. by rewrite bind_run, Hroles.
Qed.

(** The checks of [handleCreateChat] pass on a validated request. *)
Lemma handleCreateChat_validated req w requestContext elements mode title invitees :
  Validated req w requestContext elements mode title invitees →
  handleCreateChat req w
  = runHandler (provisionChat (ctx_conf requestContext) (ctx_userProfile requestContext)
                              invitees mode (trim (trim title))
                              (field req "forVideoRoom") (req_uuid req)) w.
Proof.
  intros (Hintro & Hinvite & Hstrings & Hmode & Hmodes & Htitle & Hlen & Hfound & ->).
  unfold handleCreateChat, runHandler. rewrite Hintro, Hinvite, Hmode, Htitle.
  cbn [optionalTrim]. rewrite bind_run. unfold ret at 1.
  assert (Hnonempty : trim title ≠ "").
  { intros Heq. rewrite Heq in Hlen. vm_compute in Hlen. by apply Hlen. }
  assert (Hmodetruthy : truthy (JStr mode) = true) by (by destruct Hmodes as [-> | ->]).
  rewrite Hmodetruthy, Hstrings.
  cbn [truthy strictEqStr negb orb].
  apply String.eqb_neq in Hnonempty. rewrite Hnonempty. cbn [negb orb].
  assert (Hmodeok : negb (mode =? "public")%string && negb (mode =? "private")%string = false)
    by (by destruct Hmodes as [-> | ->]).
  rewrite Hmodeok.
  destruct (strlen (trim (trim title)) <? 5) eqn:Hshort; [apply Z.ltb_lt in Hshort; lia|].
  rewrite bind_run, resolveProfiles_run. cbv zeta. by rewrite Hfound.
Qed.

(** ** What the parts of the handlers send and keep *)

Lemma steps_membersList P I sid : steps P I (membersList sid).
Proof.
  apply steps_bind; [apply steps_channelFetch|]. intros c. apply steps_ret.
Qed.

Lemma steps_invitesList P I sid : steps P I (invitesList sid).
Proof.
  apply steps_bind; [apply steps_channelFetch|]. intros c. apply steps_ret.
Qed.

Lemma steps_membersCreate (P : Op → Prop) I sid id r j :
  P (MemberCreate sid id r) → updatable I sid → steps P I (membersCreate sid id r j).
Proof. intros HP HI. apply steps_onChannel; [done|]. intros chs c. apply HI. Qed.

Lemma steps_invitesCreate (P : Op → Prop) I sid id r j :
  P (InviteCreate sid id r) → updatable I sid → steps P I (invitesCreate sid id r j).
Proof. intros HP HI. apply steps_onChannel; [done|]. intros chs c. apply HI. Qed.

Lemma steps_ensureTwilioUsersExist (P : Op → Prop) I profiles :
  (∀ i n, P (UserCreate i n)) → steps P I (ensureTwilioUsersExist profiles).
Proof.
  intros HP. unfold ensureTwilioUsersExist.
  apply steps_bind; [apply (steps_read P I (fun w => Ok (w_users w)))|]. intros existing.
  apply steps_bind; [|intros _; apply steps_ret].
  apply steps_promiseAll. intros x _.
  destruct (negb _); [|apply steps_ret].
  apply steps_request; [apply HP|].
  intros w r w' [= <- <-] HI. by repeat split.
Qed.

Lemma steps_grantProfiles P I conf allIds : ∀ acl, steps P I (grantProfiles conf acl allIds).
Proof.
  induction allIds as [|id rest IH]; intros acl; simpl; [apply steps_ret|].
  apply steps_bind; [|intros acl'; apply IH].
  unfold grantProfile. apply steps_bind.
  - apply (steps_read P I (fun w => Ok (lookupProfile (w_profiles w) id conf))).
  - intros [p|]; apply steps_ret.
Qed.

Lemma steps_updateTextChatACLs P I sid textChat flag :
  steps P I (updateTextChatACLs sid textChat flag).
Proof.
  unfold updateTextChatACLs. apply steps_bind; [|intros acl; apply steps_saveTextChat].
  destruct (match flag with Some b => b | None => _ end); [|apply steps_ret].
  apply steps_bind; [apply steps_membersList|]. intros members.
  apply steps_bind; [apply steps_invitesList|]. intros invited.
  apply steps_grantProfiles.
Qed.

Lemma steps_getOrCreateTextChat P I newChannel conf isDM :
  steps P I (getOrCreateTextChat newChannel conf isDM).
Proof.
  unfold getOrCreateTextChat.
  apply steps_bind; [apply (steps_read P I (fun w => Ok w))|]. intros w.
  destruct (List.find _ _); [apply steps_ret|apply steps_saveTextChat].
Qed.

Lemma steps_mirrorAndReply P I conf isDM isPrivate resolved :
  steps P I (mirrorAndReply conf isDM isPrivate resolved).
Proof.
  destruct resolved as [reply|newChannel]; simpl; [apply steps_ret|].
  apply steps_bind; [apply steps_getOrCreateTextChat|]. intros textChat.
  apply steps_bind; [apply steps_updateTextChatACLs|]. intros textChat'.
  apply steps_ret.
Qed.

Lemma steps_reuseExistingChannel (P : Op → Prop) I conf userProfile invitees isDM
    channelAdminRole channelUserRole newChannel :
  P (MemberCreate (fst newChannel) (profile_id userProfile)
       (if isDM && negb (truthyReturned (isUserInRoles (profile_user userProfile) conf adminOrManager))
        then role_sid channelUserRole else role_sid channelAdminRole)) →
  (∀ p, p ∈ invitees →
        P (InviteCreate (fst newChannel) (profile_id p)
             (if truthyReturned (isUserInRoles (profile_user p) conf adminOrManager)
              then role_sid channelAdminRole else role_sid channelUserRole))) →
  updatable I (fst newChannel) →
  steps P I (reuseExistingChannel conf userProfile invitees isDM
                                  channelAdminRole channelUserRole newChannel).
Proof.
  intros Hmember Hinvite HI. unfold reuseExistingChannel.
  apply steps_bind; [apply steps_membersList|]. intros members.
  apply steps_bind; [apply steps_invitesList|]. intros invites.
  apply steps_bind.
  { destruct (negb (includes _ _)); [|apply steps_ret].
    apply steps_callWithRetry. intros j. by apply steps_membersCreate. }
  intros _. apply steps_bind; [|intros _; apply steps_ret].
  apply steps_promiseAll. intros p Hp.
  destruct (negb (includes _ _) && _); [|apply steps_ret].
  apply steps_callWithRetry. intros j. apply steps_invitesCreate; [by apply Hinvite|done].
Qed.

Lemma steps_populateNewChannel (P : Op → Prop) I conf userProfile invitees isDM
    channelAdminRole channelUserRole newChannel :
  (∀ i n, P (UserCreate i n)) →
  P (MemberCreate (fst newChannel) (profile_id userProfile)
       (if isDM && negb (truthyReturned (isUserInRoles (profile_user userProfile) conf adminOrManager))
        then role_sid channelUserRole else role_sid channelAdminRole)) →
  (∀ p, p ∈ invitees →
        P (InviteCreate (fst newChannel) (profile_id p)
             (if truthyReturned (isUserInRoles (profile_user p) conf adminOrManager)
              then role_sid channelAdminRole else role_sid channelUserRole))) →
  updatable I (fst newChannel) →
  steps P I (populateNewChannel conf userProfile invitees isDM
                                channelAdminRole channelUserRole newChannel).
Proof.
  intros Huser Hmember Hinvite HI. unfold populateNewChannel.
  apply steps_bind; [by apply steps_ensureTwilioUsersExist|]. intros _.
  apply steps_bind.
  { apply steps_callWithRetry. intros j. by apply steps_membersCreate. }
  intros _. apply steps_bind; [|intros _; apply steps_ret].
  apply steps_promiseAll. intros p Hp.
  apply steps_callWithRetry. intros j. apply steps_invitesCreate; [by apply Hinvite|done].
Qed.

(** ** Roles *)

Lemma lookupProfile_id profiles id conf p :
  lookupProfile profiles id conf = Some p → profile_id p = id.
Proof.
  unfold lookupProfile. intros H. apply List.find_some in H as [_ H].
  apply andb_true_iff in H as [H _]. by apply String.eqb_eq.
Qed.

Lemma resolved_profiles profiles conf ids :
  let found := map (fun id => lookupProfile profiles id conf) ids in
  forallb (fun x => match x with Some _ => true | None => false end) found = true →
  length (omap (fun x => x) found) = length ids
  ∧ ∀ p, p ∈ omap (fun x => x) found →
         profile_id p ∈ ids ∧ lookupProfile profiles (profile_id p) conf = Some p.
Proof.
  induction ids as [|id ids IH]; simpl.
  - intros _. split; [done|]. intros p Hp. by apply elem_of_nil in Hp.
  - destruct (lookupProfile profiles id conf) as [q|] eqn:Hq; [|done].
    simpl. intros Hall. destruct (IH Hall) as [Hlen Hin].
    split; [simpl in *; by f_equal|].
    intros p Hp. apply elem_of_cons in Hp as [->|Hp].
    + rewrite (lookupProfile_id _ _ _ _ Hq). split; [apply list_elem_of_here|done].
    + destruct (Hin p Hp). split; [by apply list_elem_of_further|done].
Qed.

(** The profiles a validated request resolves to: as many as the invited ids
    other than the requester's, each one the profile of its own id, none the
    requester's. *)
Lemma Validated_invitees req w requestContext elements mode title invitees :
  Validated req w requestContext elements mode title invitees →
  length invitees
  = length (List.filter
              (fun x => negb (String.eqb x (profile_id (ctx_userProfile requestContext))))
              (stringsOf elements))
  ∧ ∀ p, p ∈ invitees →
         profile_id p ≠ profile_id (ctx_userProfile requestContext)
         ∧ lookupProfile (w_profiles w) (profile_id p) (ctx_conf requestContext) = Some p.
Proof.
  intros (_ & _ & _ & _ & _ & _ & _ & Hall & ->).
  destruct (resolved_profiles _ _ _ Hall) as [Hlen Hin].
  split; [done|]. intros p Hp. destruct (Hin p Hp) as [Hid Hlookup].
  split; [|done].
  apply list_elem_of_In, List.filter_In in Hid as [_ Hne].
  by apply negb_true_iff, String.eqb_neq in Hne.
Qed.

(** [handleCreateChat] either stops at a check, leaving the world as it was,
    or runs on a validated request. *)
Lemma handleCreateChat_cases req w requestContext :
  req_intro req = Some requestContext →
  snd (handleCreateChat req w) = w
  ∨ ∃ elements mode title invitees,
      Validated req w requestContext elements mode title invitees.
Proof.
  intros Hintro. unfold handleCreateChat, runHandler. rewrite Hintro.
  destruct (field req "title") as [| | | |title| |] eqn:Htitle; try by left.
  1-2: cbn [optionalTrim]; rewrite bind_run; unfold ret at 1;
       destruct (negb (truthy (field req "invite"))); by left.
  cbn [optionalTrim]. rewrite bind_run. unfold ret at 1.
  destruct (negb (truthy (field req "invite")) || _ || _ || _) eqn:Hmissing; [by left|].
  destruct (field req "invite") as [| | | | |elements|] eqn:Hinvite; try by left.
  destruct (negb (forallb isString elements)) eqn:Hstrings; [by left|].
  apply negb_false_iff in Hstrings.
  destruct (field req "mode") as [| | | |mode| |] eqn:Hmode; try by left.
  destruct (negb (mode =? "public")%string && negb (mode =? "private")%string) eqn:Hmodes;
    [by left|].
  destruct (strlen (trim (trim title)) <? 5) eqn:Hlen; [by left|].
  rewrite bind_run, resolveProfiles_run. cbv zeta.
  destruct (forallb (fun x : option UserProfile => _) _) eqn:Hall; [|by left].
  right. eexists elements, mode, title, _.
  repeat split; try done.
  - apply andb_false_iff in Hmodes as [H|H]; apply negb_false_iff, String.eqb_eq in H; auto.
  - apply Z.ltb_ge in Hlen. exact Hlen.
Qed.

Lemma steps_createNewChannel (P : Op → Prop) conf userProfile invitees isDM mode
    friendlyName uniqueName createdBy channelAdminRole channelUserRole :
  P (ChannelCreate uniqueName friendlyName createdBy mode isDM) →
  (∀ sid, P (ChannelRemove sid)) →
  (∀ i n, P (UserCreate i n)) →
  (∀ sid, P (MemberCreate sid (profile_id userProfile)
               (if isDM && negb (truthyReturned (isUserInRoles (profile_user userProfile) conf adminOrManager))
                then role_sid channelUserRole else role_sid channelAdminRole))) →
  (∀ sid p, p ∈ invitees →
            P (InviteCreate sid (profile_id p)
                 (if truthyReturned (isUserInRoles (profile_user p) conf adminOrManager)
                  then role_sid channelAdminRole else role_sid channelUserRole))) →
  steps P (fun _ => True)
        (createNewChannel conf userProfile invitees isDM mode friendlyName uniqueName
                          createdBy channelAdminRole channelUserRole).
Proof.
  intros Hcreate Hremove Huser Hmember Hinvite. unfold createNewChannel.
  apply steps_bind.
  { apply steps_callWithRetry. intros j. apply steps_request; [done|].
    by intros w r w' [= <- <-] _. }
  intros newChannel. apply steps_tryCatch.
  - apply steps_bind; [|intros _; apply steps_ret].
    apply steps_populateNewChannel; auto. by intros chs c f _ _.
  - intros e. apply steps_bind; [|intros _; apply steps_ret].
    apply steps_callWithRetry. intros j. apply steps_request; [done|].
    intros w r w' Hrun _. by destruct (w_channels w !! _); injection Hrun as <- <-.
Qed.

Lemma claimedRole_requester channelAdminRole channelUserRole isDM privileged :
  (if isDM && negb privileged then role_sid channelUserRole else role_sid channelAdminRole)
  = claimedRole channelAdminRole channelUserRole isDM true privileged.
Proof. by destruct isDM, privileged. Qed.

Lemma claimedRole_invitee channelAdminRole channelUserRole isDM (privileged : bool) :
  (if privileged then role_sid channelAdminRole else role_sid channelUserRole)
  = claimedRole channelAdminRole channelUserRole isDM false privileged.
Proof. by destruct privileged. Qed.

Local Ltac nothing_sent :=
  exists (@nil Op); split; [by rewrite app_nil_r | by apply Forall_nil].

(** With both service roles in place, every membership and invitation that
    [handleCreateChat] or [handleInviteToChat] asks the provider to create
    follows [roleRule]: a membership is for the requester, an invitation for
    a resolved profile that is not the requester's, and the role is channel
    admin when the participant is the requester of a request that is not a DM
    or when what [isUserInRoles] returned for the participant's account is
    truthy, channel user in every other case. *)
Lemma created_roles_follow_the_tested_value
    req w requestContext channelAdminRole channelUserRole :
  req_intro req = Some requestContext →
  channelRoles w = (Ok (channelAdminRole, channelUserRole), w) →
  let requester := ctx_userProfile requestContext in
  let rule := roleRule (w_profiles w) (ctx_conf requestContext) requester
                       channelAdminRole channelUserRole in
  (∃ sent, w_calls (snd (handleCreateChat req w)) = w_calls w ++ sent
           ∧ Forall (rule (requestIsDM req (profile_id requester))) sent)
  ∧ (∀ isDM, ∃ sent, w_calls (snd (handleInviteToChat req w)) = w_calls w ++ sent
                     ∧ Forall (rule isDM) sent).
Proof.
  intros Hintro Hroles requester rule. split.
  - destruct (handleCreateChat_cases req w requestContext Hintro)
      as [Hsame | (elements & mode & title & invitees & Hv)].
    { rewrite Hsame. nothing_sent. }
    rewrite (handleCreateChat_validated _ _ _ _ _ _ _ Hv). unfold runHandler.
    rewrite (provisionChat_run _ _ _ _ _ _ _ _ _ _ Hroles).
    destruct (Validated_invitees _ _ _ _ _ _ _ Hv) as [Hlen Hinvitees].
    pose proof Hv as (_ & Hinvite & _ & Hmode & _).
    assert (HisDM : isDMFor mode invitees (field req "forVideoRoom")
                    = requestIsDM req (profile_id requester)).
    { unfold isDMFor, requestIsDM. by rewrite Hmode, Hinvite, Hlen. }
    rewrite HisDM.
    set (isDM := requestIsDM req (profile_id requester)).
    match goal with
    | |- context [bind ?m ?k w] =>
        assert (Hsteps : steps (rule isDM) (fun _ => True) (bind m k))
    end.
    { apply steps_bind; [|intros resolved; apply steps_mirrorAndReply].
      assert (Hmember : ∀ sid,
                rule isDM (MemberCreate sid (profile_id requester)
                   (if isDM && negb (truthyReturned (isUserInRoles (profile_user requester)
                                       (ctx_conf requestContext) adminOrManager))
                    then role_sid channelUserRole else role_sid channelAdminRole))).
      { intros sid. split; [done|]. apply claimedRole_requester. }
      assert (Hinvited : ∀ sid p, p ∈ invitees →
                rule isDM (InviteCreate sid (profile_id p)
                   (if truthyReturned (isUserInRoles (profile_user p) (ctx_conf requestContext) adminOrManager)
                    then role_sid channelAdminRole else role_sid channelUserRole))).
      { intros sid p Hp. destruct (Hinvitees p Hp) as [Hne Hlookup].
        split; [done|]. exists p. split; [done|]. apply claimedRole_invitee. }
      unfold resolveChannel.
      destruct (if isDM then _ else _) as [|newChannel rest].
      - by apply steps_createNewChannel.
      - apply steps_bind; [|intros _; apply steps_ret].
        apply steps_reuseExistingChannel; auto. by intros chs c f _ _. }
    match goal with
    | |- context [bind ?m ?k w] => destruct (bind m k w) as [r w'] eqn:Hrun
    end.
    destruct (Hsteps _ _ _ Hrun I) as (_ & _ & _ & sent & Hsent & HP).
    exists sent. split; [|done]. by destruct r.
  - intros isDM. unfold handleInviteToChat, runHandler. rewrite Hintro.
    destruct (negb (truthy (field req "targetIdentities")) || _); [nothing_sent|].
    destruct (field req "channel") as [| | | |sid| |]; try nothing_sent.
    destruct (field req "targetIdentities") as [| | | | |elements|]; try nothing_sent.
    destruct (negb (forallb isString elements)); [nothing_sent|].
    destruct (length _ =? 0)%nat; [nothing_sent|].
    rewrite bind_run, resolveProfiles_run. cbv zeta.
    destruct (forallb (fun x : option UserProfile => _) _) eqn:Hall; [|nothing_sent].
    destruct (resolved_profiles _ _ _ Hall) as [_ Hinvitees].
    rewrite bind_run. unfold channelFetch at 1.
    destruct (w_channels w !! sid) as [existingChannel|]; [|nothing_sent].
    rewrite bind_run, Hroles.
    destruct (negb (ch_isDM existingChannel)); [|nothing_sent].
    match goal with
    | |- context [bind ?m ?k w] =>
        assert (Hsteps : steps (rule isDM) (fun _ => True) (bind m k))
    end.
    { apply steps_bind; [apply steps_membersList|]. intros members.
      apply steps_bind; [apply steps_invitesList|]. intros invites.
      destruct (includes _ _); [|apply steps_ret].
      apply steps_bind.
      { apply steps_promiseAll. intros p Hp.
        destruct (negb (includes _ _) && _); [|apply steps_ret].
        apply steps_callWithRetry. intros j.
        apply steps_invitesCreate; [|by intros chs c f _ _].
        destruct (Hinvitees p Hp) as [Hid Hlookup].
        split.
        - apply list_elem_of_In, List.filter_In in Hid as [_ Hne].
          by apply negb_true_iff, String.eqb_neq in Hne.
        - exists p. split; [done|]. apply claimedRole_invitee. }
      intros _. apply steps_bind; [apply steps_getOrCreateTextChat|]. intros textChat.
      apply steps_bind; [apply steps_updateTextChatACLs|]. intros _. apply steps_ret. }
    match goal with
    | |- context [bind ?m ?k w] => destruct (bind m k w) as [r w'] eqn:Hrun
    end.
    destruct (Hsteps _ _ _ Hrun I) as (_ & _ & _ & sent & Hsent & HP).
    exists sent. split; [|done]. by destruct r.
Qed.

(** When [isUserInRoles] is [async], so that every call of it returns a
    promise, every membership and every invitation that the two handlers ask
    for carries the channel admin role, whatever the promises resolve to and
    whether or not the request is a DM. *)
Lemma promised_privilege_gives_channel_admin
    req w requestContext channelAdminRole channelUserRole :
  (∀ user conf roles, ∃ b, isUserInRoles user conf roles = Promise b) →
  req_intro req = Some requestContext →
  channelRoles w = (Ok (channelAdminRole, channelUserRole), w) →
  let admin := fun op =>
    match op with
    | MemberCreate _ _ role | InviteCreate _ _ role => role = role_sid channelAdminRole
    | _ => True
    end in
  (∃ sent, w_calls (snd (handleCreateChat req w)) = w_calls w ++ sent ∧ Forall admin sent)
  ∧ (∃ sent, w_calls (snd (handleInviteToChat req w)) = w_calls w ++ sent
             ∧ Forall admin sent).
Proof.
  intros Hpromise Hintro Hroles admin.
  assert (Hadmin : ∀ isDM op,
            roleRule (w_profiles w) (ctx_conf requestContext) (ctx_userProfile requestContext)
                     channelAdminRole channelUserRole isDM op → admin op).
  { intros isDM [] Hrule; try exact I; cbn [roleRule admin] in *.
    - destruct Hrule as [_ ->].
      destruct (Hpromise (profile_user (ctx_userProfile requestContext))
                         (ctx_conf requestContext) adminOrManager) as [b ->].
      unfold claimedRole. cbn [truthyReturned]. by rewrite orb_true_r.
    - destruct Hrule as (_ & p & _ & ->).
      destruct (Hpromise (profile_user p) (ctx_conf requestContext) adminOrManager)
        as [b ->].
      unfold claimedRole. cbn [truthyReturned]. by rewrite orb_true_r. }
  destruct (created_roles_follow_the_tested_value req w requestContext
              channelAdminRole channelUserRole Hintro Hroles) as [Hcreate Hinvite].
  split.
  - destruct Hcreate as (sent & Hsent & Hrule). exists sent. split; [exact Hsent|].
    eapply Forall_impl; [exact Hrule|]. apply Hadmin.
  - destruct (Hinvite false) as (sent & Hsent & Hrule). exists sent. split; [exact Hsent|].
    eapply Forall_impl; [exact Hrule|]. apply Hadmin.
Qed.

(** ** Retries *)

Lemma logCall_iter_channels op n w :
  w_channels (Nat.iter n (logCall op) w) = w_channels w.
Proof. induction n as [|n IH]; [done|]. simpl. exact IH. Qed.

Lemma logCall_iter_profiles op n w :
  w_profiles (Nat.iter n (logCall op) w) = w_profiles w.
Proof. induction n as [|n IH]; [done|]. simpl. exact IH. Qed.

Lemma logCall_iter_calls op n w :
  w_calls (Nat.iter n (logCall op) w) = w_calls w ++ replicate n op.
Proof.
  induction n as [|n IH]; simpl; [by rewrite app_nil_r|].
  rewrite IH, <- app_assoc. f_equal.
  clear IH. induction n as [|n IH]; [done|]. simpl. by rewrite IH.
Qed.

Lemma logCall_iter_shift op n w :
  Nat.iter n (logCall op) (logCall op w) = Nat.iter (S n) (logCall op) w.
Proof. induction n as [|n IH]; [done|]. simpl. by rewrite IH. Qed.

(** When every attempt is rejected, the error gets through. *)
Lemma retryFrom_gaveUp {A} op (effect : World → Outcome A * World) remaining :
  ∀ attempt w,
    (∀ j, (attempt ≤ j ≤ attempt + remaining)%nat → providerFails op j = true) →
    ∃ w', retryFrom attempt remaining (fun j => request op j effect) w
          = (Throw (ProviderError op), w').
Proof.
  induction remaining as [|n IH]; intros attempt w Hfails; simpl;
    unfold request at 1; rewrite (Hfails attempt) by lia.
  - by eexists.
  - apply IH. intros j Hj. apply Hfails. lia.
Qed.

Lemma callWithRetry_gaveUp {A} op (effect : World → Outcome A * World) w :
  gaveUp op →
  ∃ w', callWithRetry (fun j => request op j effect) w = (Throw (ProviderError op), w').
Proof. intros H. apply retryFrom_gaveUp. intros j Hj. apply H. lia. Qed.

(** When an attempt is accepted and the effect goes through, the call is the
    effect, after the request was recorded once per attempt. *)
Lemma retryFrom_accepted {A} op (effect : World → Outcome A * World) remaining :
  ∀ attempt w,
    (∃ j, (attempt ≤ j ≤ attempt + remaining)%nat ∧ providerFails op j = false) →
    (∀ n, ∃ a w', effect (Nat.iter n (logCall op) w) = (Ok a, w')) →
    ∃ n, retryFrom attempt remaining (fun j => request op j effect) w
         = effect (Nat.iter (S n) (logCall op) w).
Proof.
  induction remaining as [|r IH]; intros attempt w (j & Hj & Hok) Heff; simpl;
    unfold request at 1; destruct (providerFails op attempt) eqn:Hfails.
  - assert (j = attempt) as -> by lia. congruence.
  - exists 0%nat. specialize (Heff 1%nat). simpl in *. by destruct Heff as (a & w' & ->).
  - destruct (IH (S attempt) (logCall op w)) as [n Hn].
    + exists j. split; [|done].
      destruct (decide (j = attempt)) as [->|]; [congruence|lia].
    + intros n. rewrite logCall_iter_shift. apply Heff.
    + exists (S n). by rewrite Hn, logCall_iter_shift.
  - exists 0%nat. specialize (Heff 1%nat). simpl in *. by destruct Heff as (a & w' & ->).
Qed.

Lemma callWithRetry_accepted {A} op (effect : World → Outcome A * World) w :
  accepted op →
  (∀ n, ∃ a w', effect (Nat.iter n (logCall op) w) = (Ok a, w')) →
  ∃ n, callWithRetry (fun j => request op j effect) w
       = effect (Nat.iter (S n) (logCall op) w).
Proof.
  intros (j & Hj & Hok) Heff. apply retryFrom_accepted; [|done].
  exists j. split; [lia|done].
Qed.

Lemma promiseAll_throws {A B} (f : A → M B) x :
  (∀ w, ∃ e w', f x w = (Throw e, w')) →
  ∀ xs, x ∈ xs → ∀ w, ∃ e w', promiseAll f xs w = (Throw e, w').
Proof.
  intros Hx. induction xs as [|y ys IH]; intros Hin w; [by apply elem_of_nil in Hin|].
  simpl. apply elem_of_cons in Hin as [<-|Hin].
  - destruct (Hx w) as (e & w1 & ->). destruct (promiseAll f ys w1) as [rs w2].
    by eexists _, _.
  - destruct (f y w) as [[b|e] w1].
    + destruct (IH Hin w1) as (e & w2 & ->). by eexists _, _.
    + destruct (promiseAll f ys w1) as [rs w2]. by eexists _, _.
Qed.

Lemma membersCreate_gaveUp sid id role w :
  gaveUp (MemberCreate sid id role) →
  ∃ w', callWithRetry (membersCreate sid id role) w
        = (Throw (ProviderError (MemberCreate sid id role)), w').
Proof. intros H. unfold membersCreate. by apply callWithRetry_gaveUp. Qed.

Lemma invitesCreate_gaveUp sid id role w :
  gaveUp (InviteCreate sid id role) →
  ∃ w', callWithRetry (invitesCreate sid id role) w
        = (Throw (ProviderError (InviteCreate sid id role)), w').
Proof. intros H. unfold invitesCreate. by apply callWithRetry_gaveUp. Qed.

(** ** Compensation *)

(** The [try] block throws when the provider gives up on the requester's
    membership or on one of the invitations. *)
Lemma populateNewChannel_throws conf userProfile invitees isDM
    channelAdminRole channelUserRole newChannel :
  (∀ role, gaveUp (MemberCreate (fst newChannel) (profile_id userProfile) role))
  ∨ (∃ p, p ∈ invitees ∧ ∀ role, gaveUp (InviteCreate (fst newChannel) (profile_id p) role)) →
  ∀ w, ∃ e w', populateNewChannel conf userProfile invitees isDM
                                  channelAdminRole channelUserRole newChannel w
               = (Throw e, w').
Proof.
  intros Hfail w. unfold populateNewChannel. rewrite bind_run.
  destruct (ensureTwilioUsersExist _ w) as [[[]|e] w1]; [|by eexists _, _].
  rewrite bind_run.
  destruct (callWithRetry (membersCreate _ _ _) w1) as [[[]|e] w2] eqn:Hmember;
    [|by eexists _, _].
  destruct Hfail as [Hm | (p & Hp & Hi)].
  { match type of Hmember with
    | callWithRetry (membersCreate ?s ?i ?r) _ = _ =>
        destruct (membersCreate_gaveUp s i r w1 (Hm r)) as [w' Hw']
    end.
    rewrite Hw' in Hmember. done. }
  rewrite bind_run.
  match goal with
  | |- context [promiseAll ?f invitees w2] =>
      destruct (promiseAll_throws f p) with (xs := invitees) (w := w2) as (e & w3 & ->)
  end; [|done|by eexists _, _].
  intros w0. cbv beta.
  match goal with
  | |- context [invitesCreate ?s ?i ?r] =>
      destruct (invitesCreate_gaveUp s i r w0 (Hi r)) as [w' Hw']
  end.
  eexists _, _. exact Hw'.
Qed.

Lemma last_replicate {A} (x : A) n l : last (l ++ replicate (S n) x) = Some x.
Proof.
  induction n as [|n IH] in l |- *.
  - apply last_snoc.
  - change (replicate (S (S n)) x) with ([x] ++ replicate (S n) x).
    rewrite app_assoc. apply IH.
Qed.

(** The branch that creates the channel, when the creation is accepted, the
    provider gives up on the requester's membership or on an invitation, and
    the removal is accepted: the channel is removed again, the removal is the
    last request sent, and the branch yields the 500 reply. *)
Lemma createNewChannel_compensates conf userProfile invitees isDM mode
    friendlyName uniqueName createdBy channelAdminRole channelUserRole w :
  let sid := fresh_string "CH" (w_channels w) in
  accepted (ChannelCreate uniqueName friendlyName createdBy mode isDM) →
  (∀ role, gaveUp (MemberCreate sid (profile_id userProfile) role))
  ∨ (∃ p, p ∈ invitees ∧ ∀ role, gaveUp (InviteCreate sid (profile_id p) role)) →
  accepted (ChannelRemove sid) →
  ∃ w', createNewChannel conf userProfile invitees isDM mode friendlyName uniqueName
                         createdBy channelAdminRole channelUserRole w
        = (Ok (inl (Send 500 (Status "Failed to add or invite members."))), w')
        ∧ w_channels w' = w_channels w
        ∧ w_profiles w' = w_profiles w
        ∧ last (w_calls w') = Some (ChannelRemove sid).
Proof.
  intros sid Hcreate Hfail Hremove.
  pose proof (fresh_string_fresh (w_channels w) "CH") as Hfresh. fold sid in Hfresh.
  unfold createNewChannel. rewrite bind_run. unfold channelsCreate.
  set (c0 := mkChannel uniqueName friendlyName createdBy mode isDM [] [] ∅).
  match goal with
  | |- context [callWithRetry (fun attempt => request ?op attempt ?eff) w] =>
      destruct (callWithRetry_accepted op eff w Hcreate) as [n ->]; [intros k; by eexists _, _|]
  end.
  rewrite logCall_iter_channels. fold sid.
  set (w1 := setChannels (insert sid c0) _).
  unfold tryCatch.
  destruct (populateNewChannel_throws conf userProfile invitees isDM channelAdminRole
              channelUserRole (sid, c0) Hfail w1) as (e & w2 & Hthrows).
  rewrite bind_run, Hthrows.
  pose (I := fun chs : gmap string Channel => ∃ c', chs = <[sid := c']> (w_channels w)).
  assert (Hupd : updatable I sid).
  { intros chs c f [c' ->] _. exists (f c). apply insert_insert_eq. }
  destruct (steps_populateNewChannel (fun _ => True) I conf userProfile invitees isDM
              channelAdminRole channelUserRole (sid, c0)
              (fun _ _ => Logic.I) Logic.I (fun _ _ => Logic.I) Hupd _ _ _ Hthrows)
    as ([c' Hc'] & Hprofiles & _).
  { exists c0. unfold w1. cbn [w_channels setChannels]. by rewrite logCall_iter_channels. }
  rewrite bind_run. cbn [fst]. unfold channelRemove.
  match goal with
  | |- context [callWithRetry (fun attempt => request ?op attempt ?eff) w2] =>
      destruct (callWithRetry_accepted op eff w2 Hremove) as [m ->]
  end.
  { intros k. rewrite logCall_iter_channels, Hc', lookup_insert_eq. by eexists _, _. }
  rewrite logCall_iter_channels, Hc', lookup_insert_eq.
  eexists. split; [reflexivity|].
  cbn [w_channels w_profiles w_calls setChannels].
  rewrite logCall_iter_channels, Hc', logCall_iter_calls.
  split; [by apply delete_insert_id|]. split; [|apply last_replicate].
  rewrite logCall_iter_profiles, Hprofiles. unfold w1. cbn [w_profiles setChannels].
  apply logCall_iter_profiles.
Qed.

(** C3.  For a validated request, with both service roles in place.
    New channel (no existing channel is selected): when the provider accepts
    the creation, gives up on the requester's membership or on one of the
    invitations, and accepts the removal, the handler answers 500 with
    ["Failed to add or invite members."]; the removal, sent through
    [callWithRetry], is the last request before the reply, the channel does not
    exist afterwards, and the provider's channels are those from before the
    request.
    Existing channel: whatever the provider accepts or rejects, the handler
    sends no removal and the set of channels stays the same. *)
Theorem createChat_compensates_only_a_new_channel
    req w requestContext elements mode title invitees channelAdminRole channelUserRole :
  Validated req w requestContext elements mode title invitees →
  channelRoles w = (Ok (channelAdminRole, channelUserRole), w) →
  let requester := ctx_userProfile requestContext in
  let isDM := isDMFor mode invitees (field req "forVideoRoom") in
  let key := uniqueNameFor isDM requester invitees (req_uuid req) in
  let existingChannels := if isDM then channelsNamed key (w_channels w) else [] in
  let sid := fresh_string "CH" (w_channels w) in
  (existingChannels = [] →
   accepted (ChannelCreate key (if isDM then key else trim (trim title))
                           (if isDM then "system" else profile_id requester) mode isDM) →
   (∀ role, gaveUp (MemberCreate sid (profile_id requester) role))
   ∨ (∃ p, p ∈ invitees ∧ ∀ role, gaveUp (InviteCreate sid (profile_id p) role)) →
   accepted (ChannelRemove sid) →
   ∃ w', handleCreateChat req w
         = (Send 500 (Status "Failed to add or invite members."), w')
         ∧ last (w_calls w') = Some (ChannelRemove sid)
         ∧ w_channels w' !! sid = None
         ∧ w_channels w' = w_channels w)
  ∧ (existingChannels ≠ [] →
     let w' := snd (handleCreateChat req w) in
     (dom (w_channels w') : gset string) = dom (w_channels w)
     ∧ ∃ sent, w_calls w' = w_calls w ++ sent
               ∧ Forall (fun op => ∀ s, op ≠ ChannelRemove s) sent).
Proof.
  intros Hv Hroles requester isDM key existingChannels sid.
  rewrite (handleCreateChat_validated _ _ _ _ _ _ _ Hv). unfold runHandler.
  rewrite (provisionChat_run _ _ _ _ _ _ _ _ _ _ Hroles).
  fold requester isDM key existingChannels.
  split.
  - intros -> Hcreate Hfail Hremove. rewrite bind_run. unfold resolveChannel.
    destruct (createNewChannel_compensates
                (ctx_conf requestContext) requester invitees isDM mode
                (if isDM then key else trim (trim title)) key
                (if isDM then "system" else profile_id requester)
                channelAdminRole channelUserRole w Hcreate Hfail Hremove)
      as (w' & -> & Hchannels & _ & Hlast).
    exists w'. split; [done|]. split; [done|]. split; [|done].
    rewrite Hchannels. apply fresh_string_fresh.
  - intros Hexisting.
    destruct existingChannels as [|newChannel rest]; [done|]. clear Hexisting.
    pose (P := fun op : Op => ∀ s, op ≠ ChannelRemove s).
    pose (I := fun chs : gmap string Channel =>
                 (dom chs : gset string) = dom (w_channels w)).
    match goal with
    | |- context [bind ?m ?k w] => assert (Hsteps : steps P I (bind m k))
    end.
    { apply steps_bind; [|intros resolved; apply steps_mirrorAndReply].
      unfold resolveChannel.
      apply steps_bind; [|intros _; apply steps_ret].
      apply steps_reuseExistingChannel; try done.
      intros chs c f Hdom Hc. unfold I in *.
      rewrite dom_insert_lookup_L; [done|by eexists]. }
    match goal with
    | |- context [bind ?m ?k w] => destruct (bind m k w) as [r w'] eqn:Hrun
    end.
    destruct (Hsteps _ _ _ Hrun eq_refl) as (Hdom & _ & _ & sent & Hsent & HP).
    assert (Hsnd : snd (match r with Ok r0 => (r0, w') | Throw e => (Next e, w') end) = w')
      by (by destruct r).
    cbv zeta. rewrite Hsnd. split; [done|]. by exists sent.
Qed.

(** ** Creating a DM chat twice *)

Lemma callWithRetry_first {A} op (effect : World → Outcome A * World) w a w' :
  providerFails op 0 = false →
  effect (logCall op w) = (Ok a, w') →
  callWithRetry (fun j => request op j effect) w = (Ok a, w').
Proof.
  intros Hok Heff. unfold callWithRetry.
  destruct retryAttempts; simpl; unfold request; by rewrite Hok, Heff.
Qed.

Lemma membersCreate_first sid id role c w :
  providerFails (MemberCreate sid id role) 0 = false →
  w_channels w !! sid = Some c →
  callWithRetry (membersCreate sid id role) w
  = (Ok tt, setChannels (insert sid (ch_addMember (mkMember id role) c))
                        (logCall (MemberCreate sid id role) w)).
Proof.
  intros Hok Hc. unfold membersCreate. apply callWithRetry_first; [done|].
  unfold onChannel. cbn [w_channels logCall]. by rewrite Hc.
Qed.

Lemma invitesCreate_first sid id role c w :
  providerFails (InviteCreate sid id role) 0 = false →
  w_channels w !! sid = Some c →
  callWithRetry (invitesCreate sid id role) w
  = (Ok tt, setChannels (insert sid (ch_addInvite (mkMember id role) c))
                        (logCall (InviteCreate sid id role) w)).
Proof.
  intros Hok Hc. unfold invitesCreate. apply callWithRetry_first; [done|].
  unfold onChannel. cbn [w_channels logCall]. by rewrite Hc.
Qed.

Lemma includes_app xs ys x : includes (xs ++ ys) x = includes xs x || includes ys x.
Proof. unfold includes. apply existsb_app. Qed.

Lemma includes_here x : includes [x] x = true.
Proof. unfold includes. simpl. by rewrite String.eqb_refl. Qed.

Lemma promiseAll_ok {A B} (f : A → M B) :
  (∀ x w, ∃ b w', f x w = (Ok b, w')) →
  ∀ xs w, ∃ bs w', promiseAll f xs w = (Ok bs, w').
Proof.
  intros Hf. induction xs as [|x xs IH]; intros w; [by eexists _, _|].
  simpl. destruct (Hf x w) as (b & w1 & ->). destruct (IH w1) as (bs & w2 & ->).
  by eexists _, _.
Qed.

(** With first attempts accepted, the users are made to exist and nothing
    else changes. *)
Lemma ensureTwilioUsersExist_ok profiles w :
  firstAttemptsAccepted →
  ∃ w', ensureTwilioUsersExist profiles w = (Ok tt, w')
        ∧ w_channels w' = w_channels w
        ∧ w_profiles w' = w_profiles w
        ∧ w_roles w' = w_roles w.
Proof.
  intros Hok.
  assert (Hrun : ∃ w', ensureTwilioUsersExist profiles w = (Ok tt, w')).
  { unfold ensureTwilioUsersExist. rewrite bind_run. unfold usersList. rewrite bind_run.
    match goal with
    | |- context [promiseAll ?f profiles w] =>
        destruct (promiseAll_ok f) with (xs := profiles) (w := w) as (bs & w' & ->)
    end; [|by eexists].
    intros x w0. destruct (negb _); [|by eexists _, _].
    unfold usersCreate, request. rewrite Hok. by eexists _, _. }
  destruct Hrun as [w' Hrun]. exists w'. split; [done|].
  destruct (steps_ensureTwilioUsersExist (fun _ => True)
              (fun chs => chs = w_channels w) profiles (fun _ _ => I) _ _ _ Hrun eq_refl)
    as (Hch & Hp & Hr & _).
  done.
Qed.

(** The mirror record is found or created and its list rebuilt; the provider
    is not asked to change anything. *)
Lemma mirrorAndReply_ok conf isDM isPrivate sid c x w :
  w_channels w !! sid = Some c →
  ∃ textChatID w',
    mirrorAndReply conf isDM isPrivate (inr (sid, x)) w
    = (Ok (Send 200 (ChatCreated sid textChatID)), w')
    ∧ w_channels w' = w_channels w
    ∧ w_calls w' = w_calls w
    ∧ w_profiles w' = w_profiles w
    ∧ w_roles w' = w_roles w.
Proof.
  intros Hc.
  assert (Hrun : ∃ textChatID w',
            mirrorAndReply conf isDM isPrivate (inr (sid, x)) w
            = (Ok (Send 200 (ChatCreated sid textChatID)), w')).
  { unfold mirrorAndReply. rewrite bind_run.
    destruct (getOrCreateTextChat (sid, x) conf isDM w) as [[textChat|e] w1] eqn:Hget.
    - assert (Hc1 : w_channels w1 = w_channels w).
      { by destruct (steps_getOrCreateTextChat (fun _ => True)
                       (fun chs => chs = w_channels w) _ _ _ _ _ _ Hget eq_refl). }
      rewrite <- Hc1 in Hc. cbn [fst]. rewrite bind_run.
      destruct (updateTextChatACLs_attendee sid textChat (Some isPrivate) w1 c Hc)
        as (t' & w' & acl & -> & _).
      by eexists _, _.
    - exfalso. unfold getOrCreateTextChat in Hget. rewrite bind_run in Hget.
      unfold getWorld in Hget.
      destruct (List.find _ _); [done|].
      by destruct (saveTextChat_acl
                     (mkTextChat None conf (fst (sid, x)) isDM false
                                 (ch_friendlyName (snd (sid, x))) (Some ∅)) w)
        as (t' & w' & Hsave & _); rewrite Hsave in Hget. }
  destruct Hrun as (textChatID & w' & Hrun). exists textChatID, w'. split; [done|].
  destruct (steps_mirrorAndReply (fun _ => False) (fun chs => chs = w_channels w)
              _ _ _ _ _ _ _ Hrun eq_refl) as (Hch & Hp & Hr & sent & Hsent & HP).
  destruct sent as [|op sent]; [|by apply Forall_cons in HP as [[] _]].
  rewrite app_nil_r in Hsent. done.
Qed.

Lemma elem_of_channelsNamed key (chs : gmap string Channel) sid c :
  (sid, c) ∈ channelsNamed key chs ↔ chs !! sid = Some c ∧ ch_uniqueName c = key.
Proof.
  unfold channelsNamed.
  rewrite list_elem_of_In, List.filter_In, <- list_elem_of_In, elem_of_map_to_list.
  cbn [snd]. by rewrite String.eqb_eq.
Qed.

Lemma NoDup_all_equal {A} (a : A) l :
  NoDup l → (∀ y, y ∈ l → y = a) → a ∈ l → l = [a].
Proof.
  intros Hnodup Hall Hin. destruct l as [|y [|z l]].
  - by apply elem_of_nil in Hin.
  - f_equal. apply Hall, list_elem_of_here.
  - exfalso. apply NoDup_cons in Hnodup as [Hnotin _]. apply Hnotin.
    rewrite (Hall y) by apply list_elem_of_here.
    rewrite <- (Hall z) at 1 by apply list_elem_of_further, list_elem_of_here.
    apply list_elem_of_here.
Qed.

Lemma channelsNamed_singleton key (chs : gmap string Channel) sid c :
  chs !! sid = Some c → ch_uniqueName c = key →
  (∀ s d, chs !! s = Some d → ch_uniqueName d = key → s = sid) →
  channelsNamed key chs = [(sid, c)].
Proof.
  intros Hc Hkey Honly. apply NoDup_all_equal.
  - unfold channelsNamed. apply NoDup_ListNoDup, List.NoDup_filter, NoDup_ListNoDup.
    apply NoDup_map_to_list.
  - intros [s d] Hin. apply elem_of_channelsNamed in Hin as [Hd Hname].
    assert (s = sid) as -> by eauto. congruence.
  - by apply elem_of_channelsNamed.
Qed.

(** A settled channel is reused as it is: nothing is sent. *)
Lemma reuseExistingChannel_settled conf userProfile invitee isDM
    channelAdminRole channelUserRole sid c x w :
  w_channels w !! sid = Some c →
  Settled (ch_uniqueName c) (profile_id userProfile) (profile_id invitee) c →
  reuseExistingChannel conf userProfile [invitee] isDM channelAdminRole channelUserRole
                       (sid, x) w
  = (Ok tt, w).
Proof.
  intros Hc (_ & Hmember & Hinvited).
  unfold reuseExistingChannel. cbn [fst].
  rewrite bind_run. unfold membersList at 1. rewrite bind_run. unfold channelFetch at 1.
  rewrite Hc. unfold ret at 1.
  rewrite bind_run. unfold invitesList at 1. rewrite bind_run. unfold channelFetch at 1.
  rewrite Hc. unfold ret at 1.
  rewrite Hmember. cbn [negb]. rewrite bind_run. unfold ret at 1.
  rewrite bind_run. cbn [promiseAll].
  assert (Hskip : negb (includes (map identity (ch_members c)) (profile_id invitee))
                  && negb (includes (map identity (ch_invites c)) (profile_id invitee))
                  = false).
  { destruct Hinvited as [-> | ->]; [done|]. apply andb_false_r. }
  by rewrite Hskip.
Qed.

(** An existing channel under the unique name is brought to the settled
    state. *)
Lemma reuseExistingChannel_settles conf userProfile invitee isDM
    channelAdminRole channelUserRole sid c x w :
  firstAttemptsAccepted →
  w_channels w !! sid = Some c →
  ∃ c' w',
    reuseExistingChannel conf userProfile [invitee] isDM channelAdminRole channelUserRole
                         (sid, x) w
    = (Ok tt, w')
    ∧ w_channels w' = <[sid := c']> (w_channels w)
    ∧ Settled (ch_uniqueName c) (profile_id userProfile) (profile_id invitee) c'
    ∧ w_profiles w' = w_profiles w
    ∧ w_roles w' = w_roles w.
Proof.
  intros Hok Hc.
  unfold reuseExistingChannel. cbn [fst].
  rewrite bind_run. unfold membersList at 1. rewrite bind_run. unfold channelFetch at 1.
  rewrite Hc. unfold ret at 1.
  rewrite bind_run. unfold invitesList at 1. rewrite bind_run. unfold channelFetch at 1.
  rewrite Hc. unfold ret at 1.
  rewrite bind_run.
  set (members := map identity (ch_members c)).
  set (invites := map identity (ch_invites c)).
  assert (Hfirst : ∃ c1 w1,
            (if negb (includes members (profile_id userProfile))
             then callWithRetry
                    (membersCreate sid (profile_id userProfile)
                       (if isDM && negb (truthyReturned (isUserInRoles (profile_user userProfile) conf
                                                       adminOrManager))
                        then role_sid channelUserRole else role_sid channelAdminRole))
             else ret tt) w = (Ok tt, w1)
            ∧ w_channels w1 = <[sid := c1]> (w_channels w)
            ∧ ch_uniqueName c1 = ch_uniqueName c
            ∧ includes (map identity (ch_members c1)) (profile_id userProfile) = true
            ∧ (includes members (profile_id invitee) = true →
               includes (map identity (ch_members c1)) (profile_id invitee) = true)
            ∧ ch_invites c1 = ch_invites c
            ∧ w_profiles w1 = w_profiles w ∧ w_roles w1 = w_roles w).
  { destruct (includes members (profile_id userProfile)) eqn:Hin; cbn [negb].
    - exists c, w. repeat split; try done. by rewrite insert_id.
    - rewrite (membersCreate_first _ _ _ c) by done.
      eexists _, _. split; [reflexivity|]. repeat split.
      + cbn [ch_members ch_addMember]. rewrite map_app, includes_app.
        cbn [map identity]. rewrite includes_here. apply orb_true_r.
      + intros HB. cbn [ch_members ch_addMember]. rewrite map_app, includes_app.
        fold members. by rewrite HB. }
  destruct Hfirst as (c1 & w1 & -> & Hch1 & Hname1 & HA1 & HB1 & Hinv1 & Hp1 & Hr1).
  rewrite bind_run. cbn [promiseAll].
  assert (Hc1 : w_channels w1 !! sid = Some c1) by (rewrite Hch1; apply lookup_insert_eq).
  destruct (negb (includes members (profile_id invitee))
            && negb (includes invites (profile_id invitee))) eqn:Hneeded.
  - rewrite (invitesCreate_first _ _ _ c1) by done. unfold ret.
    eexists _, _. split; [reflexivity|].
    cbn [w_channels w_profiles w_roles setChannels logCall].
    rewrite Hch1, insert_insert_eq. repeat split; try done.
    right. cbn [ch_invites ch_addInvite]. rewrite map_app, includes_app.
    cbn [map identity]. rewrite includes_here. apply orb_true_r.
  - unfold ret. exists c1, w1. repeat split; try done.
    apply andb_false_iff in Hneeded as [H|H]; apply negb_false_iff in H.
    + left. by apply HB1.
    + right. by rewrite Hinv1.
Qed.

(** A new DM channel is created and brought to the settled state. *)
Lemma createNewChannel_settles conf userProfile invitee isDM mode
    friendlyName uniqueName createdBy channelAdminRole channelUserRole w :
  firstAttemptsAccepted →
  let sid := fresh_string "CH" (w_channels w) in
  ∃ c' x w',
    createNewChannel conf userProfile [invitee] isDM mode friendlyName uniqueName createdBy
                     channelAdminRole channelUserRole w
    = (Ok (inr (sid, x)), w')
    ∧ w_channels w' = <[sid := c']> (w_channels w)
    ∧ Settled uniqueName (profile_id userProfile) (profile_id invitee) c'
    ∧ w_profiles w' = w_profiles w
    ∧ w_roles w' = w_roles w.
Proof.
  intros Hok sid. unfold createNewChannel. rewrite bind_run. unfold channelsCreate.
  set (c0 := mkChannel uniqueName friendlyName createdBy mode isDM [] [] ∅).
  erewrite callWithRetry_first; [|apply Hok|reflexivity].
  cbn [w_channels logCall]. fold sid.
  set (w1 := setChannels (insert sid c0) _).
  unfold tryCatch. rewrite bind_run. unfold populateNewChannel. cbn [fst].
  rewrite bind_run.
  destruct (ensureTwilioUsersExist_ok ([invitee] ++ [userProfile]) w1 Hok)
    as (w2 & -> & Hch2 & Hp2 & Hr2).
  assert (Hc2 : w_channels w2 !! sid = Some c0).
  { rewrite Hch2. unfold w1. cbn [w_channels setChannels]. apply lookup_insert_eq. }
  rewrite bind_run, (membersCreate_first _ _ _ c0) by done.
  set (c1 := ch_addMember _ c0). set (w3 := setChannels (insert sid c1) _).
  assert (Hc3 : w_channels w3 !! sid = Some c1).
  { unfold w3. cbn [w_channels setChannels]. apply lookup_insert_eq. }
  rewrite bind_run. cbn [promiseAll].
  rewrite (invitesCreate_first _ _ _ c1) by done. unfold ret.
  eexists _, _, _. split; [reflexivity|].
  unfold w3. cbn [w_channels w_profiles w_roles setChannels logCall].
  rewrite Hch2, Hp2, Hr2. unfold w1. cbn [w_channels w_profiles w_roles setChannels logCall].
  rewrite !insert_insert_eq.
  split; [reflexivity|]. split; [|done].
  split; [done|]. split.
  - cbn [ch_members ch_addInvite c1 ch_addMember c0 app map identity].
    apply includes_here.
  - right. cbn [ch_invites ch_addInvite c1 ch_addMember c0 app map identity].
    apply includes_here.
Qed.

Lemma Validated_same_profiles req w w' requestContext elements mode title invitees :
  w_profiles w' = w_profiles w →
  Validated req w requestContext elements mode title invitees →
  Validated req w' requestContext elements mode title invitees.
Proof. unfold Validated. by intros ->. Qed.

(** C1.  A validated private request with one invitee and no [forVideoRoom],
    run twice, with both service roles in place, first attempts accepted by
    the provider and at most one channel under the DM's unique name: both
    calls answer 200 with the same channel SID; the second call sends the
    provider nothing and leaves its channels as they are; after the first
    call the channels are those from before with the one entry of that SID
    set, which is new exactly when no channel carried the unique name; and in
    the end exactly one channel carries the unique name, with the requester a
    member and the invitee a member or an invitee. *)
Theorem createChat_DM_twice_reuses_the_channel
    req w requestContext elements title invitee channelAdminRole channelUserRole :
  Validated req w requestContext elements "private" title [invitee] →
  strictEqTrue (field req "forVideoRoom") = false →
  channelRoles w = (Ok (channelAdminRole, channelUserRole), w) →
  firstAttemptsAccepted →
  let requester := ctx_userProfile requestContext in
  let key := dmUniqueName (profile_id requester) (profile_id invitee) in
  (∀ s1 c1 s2 c2,
     w_channels w !! s1 = Some c1 → w_channels w !! s2 = Some c2 →
     ch_uniqueName c1 = key → ch_uniqueName c2 = key → s1 = s2) →
  ∃ sid c textChatID1 textChatID2 w1 w2,
    handleCreateChat req w = (Send 200 (ChatCreated sid textChatID1), w1)
    ∧ handleCreateChat req w1 = (Send 200 (ChatCreated sid textChatID2), w2)
    ∧ w_calls w2 = w_calls w1
    ∧ w_channels w2 = w_channels w1
    ∧ w_channels w1 = <[sid := c]> (w_channels w)
    ∧ (w_channels w !! sid = None ↔ channelsNamed key (w_channels w) = [])
    ∧ channelsNamed key (w_channels w2) = [(sid, c)]
    ∧ Settled key (profile_id requester) (profile_id invitee) c.
Proof.
  intros Hv Hfvr Hroles Hok requester key Huniq.
  set (conf := ctx_conf requestContext).
  assert (Hrun : ∀ w0, w_profiles w0 = w_profiles w → w_roles w0 = w_roles w →
            handleCreateChat req w0
            = runHandler
                (bind (resolveChannel conf requester [invitee] true "private" key key "system"
                                      channelAdminRole channelUserRole
                                      (channelsNamed key (w_channels w0)))
                      (mirrorAndReply conf true true)) w0).
  { intros w0 Hp0 Hr0.
    rewrite (handleCreateChat_validated _ _ _ _ _ _ _
               (Validated_same_profiles _ _ _ _ _ _ _ _ Hp0 Hv)).
    unfold runHandler.
    rewrite (provisionChat_run _ _ _ _ _ _ _ _ _ _ (channelRoles_same _ _ _ Hr0 Hroles)).
    unfold isDMFor. rewrite Hfvr. reflexivity. }
  assert (Hresolved : ∃ sid c x w1,
            resolveChannel conf requester [invitee] true "private" key key "system"
                           channelAdminRole channelUserRole
                           (channelsNamed key (w_channels w)) w
            = (Ok (inr (sid, x)), w1)
            ∧ w_channels w1 = <[sid := c]> (w_channels w)
            ∧ Settled key (profile_id requester) (profile_id invitee) c
            ∧ w_profiles w1 = w_profiles w ∧ w_roles w1 = w_roles w
            ∧ (∀ s d, w_channels w !! s = Some d → ch_uniqueName d = key → s = sid)
            ∧ (w_channels w !! sid = None ↔ channelsNamed key (w_channels w) = [])).
  { destruct (channelsNamed key (w_channels w)) as [|[sid c] rest] eqn:Hnamed;
      unfold resolveChannel.
    - destruct (createNewChannel_settles conf requester invitee true "private" key key
                  "system" channelAdminRole channelUserRole w Hok)
        as (c' & x & w1 & Hnew & Hch & Hsettled & Hp & Hr).
      eexists _, c', x, w1. split; [exact Hnew|].
      split; [exact Hch|]. split; [exact Hsettled|]. split; [exact Hp|]. split; [exact Hr|].
      split.
      + intros s d Hd Hname. exfalso.
        assert (Hin : (s, d) ∈ channelsNamed key (w_channels w))
          by (by apply elem_of_channelsNamed).
        rewrite Hnamed in Hin. by apply elem_of_nil in Hin.
      + split; [done|]. intros _. apply fresh_string_fresh.
    - assert (Hin : (sid, c) ∈ channelsNamed key (w_channels w))
        by (rewrite Hnamed; apply list_elem_of_here).
      apply elem_of_channelsNamed in Hin as [Hc Hname].
      destruct (reuseExistingChannel_settles conf requester invitee true
                  channelAdminRole channelUserRole sid c c w Hok Hc)
        as (c' & w1 & Hreuse & Hch & Hsettled & Hp & Hr).
      rewrite Hname in Hsettled.
      exists sid, c', c, w1. rewrite bind_run, Hreuse.
      split; [done|].
      split; [exact Hch|]. split; [exact Hsettled|]. split; [exact Hp|]. split; [exact Hr|].
      split.
      + intros s d Hd Hd'. by apply (Huniq s d sid c).
      + split; [congruence|done]. }
  destruct Hresolved as (sid & c & x & w1 & Hres & Hch1 & Hsettled & Hp1 & Hr1 & Honly & Hnew).
  assert (Hc1 : w_channels w1 !! sid = Some c) by (rewrite Hch1; apply lookup_insert_eq).
  destruct (mirrorAndReply_ok conf true true sid c x w1 Hc1)
    as (tid1 & w1' & Hmirror1 & Hch1' & Hcalls1' & Hp1' & Hr1').
  assert (Hnamed1 : channelsNamed key (w_channels w1') = [(sid, c)]).
  { rewrite Hch1', Hch1. apply channelsNamed_singleton.
    - apply lookup_insert_eq.
    - by destruct Hsettled.
    - intros s d Hd Hname. destruct (decide (s = sid)) as [|Hne]; [done|].
      rewrite lookup_insert_ne in Hd by done. by apply (Honly s d). }
  assert (Hc1' : w_channels w1' !! sid = Some c) by (by rewrite Hch1').
  destruct (mirrorAndReply_ok conf true true sid c c w1' Hc1')
    as (tid2 & w2 & Hmirror2 & Hch2 & Hcalls2 & Hp2 & Hr2).
  exists sid, c, tid1, tid2, w1', w2.
  split.
  { rewrite (Hrun w) by done. unfold runHandler. by rewrite bind_run, Hres, Hmirror1. }
  split.
  { rewrite (Hrun w1') by congruence. unfold runHandler.
    rewrite Hnamed1, bind_run. unfold resolveChannel. rewrite bind_run.
    rewrite (reuseExistingChannel_settled _ _ _ _ _ _ _ c) ; [|done|].
    - unfold ret at 1. by rewrite Hmirror2.
    - destruct Hsettled as (Hname & HA & HB). by rewrite Hname. }
  split; [done|]. split; [done|]. split; [by rewrite Hch1'|]. split; [exact Hnew|].
  split; [by rewrite Hch2|]. exact Hsettled.
Qed.

(** ** The checks of [handleCreateChat] *)

(** A cause of rejection rules out a validated request. *)
Lemma Validated_not_rejected req w requestContext elements mode title invitees :
  Validated req w requestContext elements mode title invitees →
  inviteRejected (field req "invite") = false
  ∧ modeRejected (field req "mode") = false
  ∧ titleRejected (field req "title") = false
  ∧ ¬ unknownInvitee w (ctx_conf requestContext)
        (invitedIds (field req "invite")
                    (profile_id (ctx_userProfile requestContext))).
Proof.
  intros (_ & Hinvite & Hstrings & Hmode & Hmodes & Htitle & Hlen & Hfound & _).
  rewrite Hinvite, Hmode, Htitle. cbn [inviteRejected modeRejected titleRejected invitedIds].
  rewrite Hstrings. split; [done|]. split.
  { unfold strictEqStr. by destruct Hmodes as [-> | ->]. }
  split; [apply Z.ltb_ge; lia|].
  intros (id & Hin & Hnone).
  rewrite forallb_forall in Hfound.
  specialize (Hfound None). rewrite <- list_elem_of_In in Hfound.
  enough (true = false) by done. symmetry. rewrite <- Hfound; [done|].
  apply list_elem_of_fmap. by exists id.
Qed.

(** Up to the resolution of the profiles, [handleCreateChat] passes a type
    error on, answers 400, or has a validated request; in the first two cases
    nothing has changed. *)
Lemma handleCreateChat_checks req w requestContext :
  req_intro req = Some requestContext →
  if canTrim (field req "title")
  then (∃ body, handleCreateChat req w = (Send 400 body, w))
       ∨ ∃ elements mode title invitees,
           Validated req w requestContext elements mode title invitees
  else handleCreateChat req w = (Next TypeError, w).
Proof.
  intros Hintro. unfold handleCreateChat, runHandler. rewrite Hintro.
  destruct (field req "title") as [| | | |title| |] eqn:Htitle; cbn [canTrim]; try done.
  1-2: cbn [optionalTrim]; rewrite bind_run; unfold ret at 1;
       destruct (negb (truthy (field req "invite"))); left; by eexists.
  cbn [optionalTrim]. rewrite bind_run. unfold ret at 1.
  destruct (negb (truthy (field req "invite")) || _ || _ || _) eqn:Hmissing;
    [left; by eexists|].
  destruct (field req "invite") as [| | | | |elements|] eqn:Hinvite; try (left; by eexists).
  destruct (negb (forallb isString elements)) eqn:Hstrings; [left; by eexists|].
  apply negb_false_iff in Hstrings.
  destruct (field req "mode") as [| | | |mode| |] eqn:Hmode; try (left; by eexists).
  destruct (negb (mode =? "public")%string && negb (mode =? "private")%string) eqn:Hmodes;
    [left; by eexists|].
  destruct (strlen (trim (trim title)) <? 5) eqn:Hlen; [left; by eexists|].
  rewrite bind_run, resolveProfiles_run. cbv zeta.
  destruct (forallb (fun x : option UserProfile => _) _) eqn:Hall; [|left; by eexists].
  right. eexists elements, mode, title, _.
  repeat split; try done.
  - apply andb_false_iff in Hmodes as [H|H]; apply negb_false_iff, String.eqb_eq in H; auto.
  - apply Z.ltb_ge in Hlen. exact Hlen.
Qed.

(** X1.  [handleCreateChat] answers 400 and changes nothing when the invite
    list is not an array of strings, when the mode is neither public nor
    private, when the title is absent or shorter than five characters once
    trimmed, or when one of the invited ids (other than the requester's) has
    no profile in the conference. *)
Theorem createChat_rejects_before_acting req w requestContext :
  req_intro req = Some requestContext →
  canTrim (field req "title") = true →
  inviteRejected (field req "invite") = true
  ∨ modeRejected (field req "mode") = true
  ∨ titleRejected (field req "title") = true
  ∨ unknownInvitee w (ctx_conf requestContext)
      (invitedIds (field req "invite") (profile_id (ctx_userProfile requestContext))) →
  ∃ body, handleCreateChat req w = (Send 400 body, w).
Proof.
  intros Hintro Htrim Hcause.
  pose proof (handleCreateChat_checks req w requestContext Hintro) as Hchecks.
  rewrite Htrim in Hchecks.
  destruct Hchecks as [Hrejected | (elements & mode & title & invitees & Hv)]; [done|].
  exfalso.
  destruct (Validated_not_rejected _ _ _ _ _ _ _ Hv) as (Hi & Hm & Ht & Hu).
  destruct Hcause as [H | [H | [H | H]]]; congruence || done.
Qed.

(** X2.  A title that is neither a string nor absent makes [title?.trim()]
    throw: [handleCreateChat] hands the type error to [next] instead of
    answering 400, and changes nothing. *)
Theorem createChat_title_of_another_type req w requestContext :
  req_intro req = Some requestContext →
  canTrim (field req "title") = false →
  handleCreateChat req w = (Next TypeError, w).
Proof.
  intros Hintro Htrim.
  pose proof (handleCreateChat_checks req w requestContext Hintro) as Hchecks.
  by rewrite Htrim in Hchecks.
Qed.

(** Without both service roles the chat is not provisioned. *)
Lemma provisionChat_roleMissing conf userProfile invitees mode title forVideoRoom uuid w :
  (isDMFor mode invitees forVideoRoom = true → invitees ≠ []) →
  roleMissing w →
  provisionChat conf userProfile invitees mode title forVideoRoom uuid w
  = (Throw AssertionError, w).
Proof.
  intros Hdm Hmissing. unfold provisionChat.
  fold (isDMFor mode invitees forVideoRoom).
  destruct (isDMFor mode invitees forVideoRoom) eqn:HisDM.
  - destruct invitees as [|invitee rest]; [by destruct Hdm|].
    cbn [uniqueNameOf]. rewrite bind_run. unfold ret at 1.
    rewrite bind_run. unfold existingChannelsOf. rewrite bind_run. unfold channelsList, ret at 1.
    rewrite bind_run, channelRoles_run.
    by destruct Hmissing as [-> | ->]; [|destruct (List.find _ _)].
  - cbn [uniqueNameOf]. rewrite bind_run. unfold ret at 1.
    rewrite bind_run. unfold existingChannelsOf, ret at 1.
    rewrite bind_run, channelRoles_run.
    by destruct Hmissing as [-> | ->]; [|destruct (List.find _ _)].
Qed.

Lemma isDMFor_invitees mode invitees forVideoRoom :
  isDMFor mode invitees forVideoRoom = true → invitees ≠ [].
Proof.
  unfold isDMFor. intros H ->. simpl in H. by rewrite andb_false_r in H.
Qed.

(** X3.  When the service lacks the channel admin or the channel user role,
    a validated request to [handleCreateChat] ends in the assertion error,
    handed to [next]: nothing was sent to the provider and nothing was
    stored. *)
Theorem createChat_asserts_the_roles_first
    req w requestContext elements mode title invitees :
  Validated req w requestContext elements mode title invitees →
  roleMissing w →
  handleCreateChat req w = (Next AssertionError, w).
Proof.
  intros Hv Hmissing.
  rewrite (handleCreateChat_validated _ _ _ _ _ _ _ Hv). unfold runHandler.
  rewrite provisionChat_roleMissing; [done| |done].
  apply isDMFor_invitees.
Qed.

(** ** What a run sends and leaves behind, with first attempts accepted *)

Lemma World_eq w w' :
  w_channels w = w_channels w' → w_users w = w_users w' → w_roles w = w_roles w' →
  w_calls w = w_calls w' → w_profiles w = w_profiles w' →
  w_textChats w = w_textChats w' → w_nextId w = w_nextId w' →
  w = w'.
Proof. destruct w, w'. cbn. by intros -> -> -> -> -> -> ->. Qed.

Lemma sendAll_nil w : sendAll [] w = w.
Proof. destruct w. unfold sendAll. cbn. by rewrite app_nil_r. Qed.

Lemma addUsers_nil w : addUsers [] w = w.
Proof. destruct w. unfold addUsers. cbn. by rewrite app_nil_r. Qed.

Lemma createMissingUsers_run existing :
  (∀ i n, providerFails (UserCreate i n) 0 = false) →
  ∀ ps w,
    promiseAll (fun x => if negb (includes existing (profile_id x))
                         then usersCreate (profile_id x) (profile_displayName x)
                         else ret tt) ps w
    = (Ok (map (fun _ => tt) ps),
       let missing := List.filter (fun x => negb (includes existing (profile_id x))) ps in
       addUsers (map userOf missing) (sendAll (map userCreate missing) w)).
Proof.
  intros Hok. induction ps as [|p ps IH]; intros w.
  - cbn. by rewrite sendAll_nil, addUsers_nil.
  - cbn [promiseAll List.filter].
    destruct (negb (includes existing (profile_id p))).
    + unfold usersCreate at 1, request. rewrite Hok, IH. cbn [map].
      destruct w. unfold addUsers, sendAll, logCall, userOf at 2, userCreate at 2. cbn.
      by rewrite <- !app_assoc.
    + unfold ret at 1. by rewrite IH.
Qed.

Lemma ensureTwilioUsersExist_run profiles w :
  (∀ i n, providerFails (UserCreate i n) 0 = false) →
  ensureTwilioUsersExist profiles w
  = (Ok tt, addUsers (map userOf (withoutUser w profiles))
                     (sendAll (map userCreate (withoutUser w profiles)) w)).
Proof.
  intros Hok. unfold ensureTwilioUsersExist. rewrite bind_run. unfold usersList.
  rewrite bind_run, (createMissingUsers_run _ Hok). reflexivity.
Qed.

Lemma includes_elem_of xs x : includes xs x = true ↔ x ∈ xs.
Proof.
  unfold includes. rewrite existsb_exists. split.
  - intros (y & Hin & Heq). apply String.eqb_eq in Heq as ->. by apply list_elem_of_In.
  - intros Hin. exists x. split; [by apply list_elem_of_In|apply String.eqb_refl].
Qed.

Lemma filter_none {A} (f : A → bool) l :
  (∀ x, x ∈ l → f x = false) → List.filter f l = [].
Proof.
  induction l as [|y l IH]; intros Hf; [done|]. simpl.
  rewrite (Hf y) by apply list_elem_of_here.
  apply IH. intros x Hx. apply Hf. by apply list_elem_of_further.
Qed.

(** X4.  When the provider accepts the creation of users,
    [ensureTwilioUsersExist] asks for a user for exactly the listed profiles
    that had none when it started, in list order (twice for a profile listed
    twice), and keeps the users there were; afterwards every listed profile
    has a user, the channels are untouched, and a second run sends nothing. *)
Theorem ensureTwilioUsersExist_creates_the_missing_users profiles w :
  (∀ i n, providerFails (UserCreate i n) 0 = false) →
  ∃ w',
    ensureTwilioUsersExist profiles w = (Ok tt, w')
    ∧ w_users w' = w_users w ++ map userOf (withoutUser w profiles)
    ∧ w_calls w' = w_calls w ++ map userCreate (withoutUser w profiles)
    ∧ w_channels w' = w_channels w
    ∧ (∀ p, p ∈ profiles → includes (map fst (w_users w')) (profile_id p) = true)
    ∧ ensureTwilioUsersExist profiles w' = (Ok tt, w').
Proof.
  intros Hok. rewrite (ensureTwilioUsersExist_run _ _ Hok).
  eexists. split; [reflexivity|].
  set (w' := addUsers _ _).
  assert (Hall : ∀ p, p ∈ profiles → includes (map fst (w_users w')) (profile_id p) = true).
  { intros p Hp. unfold w'. cbn [w_users addUsers sendAll].
    rewrite map_app, includes_app.
    destruct (includes (map fst (w_users w)) (profile_id p)) eqn:Hin; [done|].
    cbn [orb]. apply includes_elem_of, list_elem_of_fmap.
    exists (userOf p). split; [done|]. apply list_elem_of_fmap. exists p. split; [done|].
    unfold withoutUser. apply list_elem_of_In, List.filter_In.
    split; [by apply list_elem_of_In|]. by rewrite Hin. }
  split; [done|]. split; [done|]. split; [done|]. split; [exact Hall|].
  rewrite (ensureTwilioUsersExist_run _ _ Hok).
  assert (Hnone : withoutUser w' profiles = []).
  { unfold withoutUser. apply filter_none. intros p Hp. by rewrite (Hall p Hp). }
  rewrite Hnone. cbn [map]. by rewrite sendAll_nil, addUsers_nil.
Qed.

Lemma ch_addInvites_nil c : ch_addInvites [] c = c.
Proof. destruct c. unfold ch_addInvites. cbn. by rewrite app_nil_r. Qed.

(** The invitations of a list of profiles: those of the profiles for which
    [needed] holds are created, in list order. *)
Lemma inviteAll_run (f : UserProfile → M unit) sid (needed : UserProfile → bool)
    (role : UserProfile → string) :
  firstAttemptsAccepted →
  (∀ p w, f p w = if needed p
                  then callWithRetry (invitesCreate sid (profile_id p) (role p)) w
                  else (Ok tt, w)) →
  ∀ ps c w,
    w_channels w !! sid = Some c →
    promiseAll f ps w
    = (Ok (map (fun _ => tt) ps),
       let ms := map (fun p => mkMember (profile_id p) (role p)) (List.filter needed ps) in
       setChannels (insert sid (ch_addInvites ms c)) (sendAll (map (inviteCreate sid) ms) w)).
Proof.
  intros Hok Hf. induction ps as [|p ps IH]; intros c w Hc.
  - cbn. rewrite sendAll_nil, ch_addInvites_nil. unfold ret.
    destruct w. unfold setChannels. cbn in *. by rewrite insert_id.
  - cbn [promiseAll List.filter]. rewrite Hf.
    destruct (needed p).
    + rewrite (invitesCreate_first _ _ _ c) by done.
      rewrite (IH (ch_addInvite (mkMember (profile_id p) (role p)) c))
        by (cbn [w_channels setChannels]; apply lookup_insert_eq).
      cbn [map]. destruct w, c.
      unfold setChannels, sendAll, logCall, ch_addInvites, ch_addInvite, inviteCreate at 2. cbn.
      by rewrite insert_insert_eq, <- !app_assoc.
    + by rewrite (IH c w Hc).
Qed.

(** The branch that creates the channel, when nothing is rejected: the
    requests it sends, in order, and the channel it leaves. *)
Lemma createNewChannel_run conf userProfile invitees isDM mode
    friendlyName uniqueName createdBy channelAdminRole channelUserRole w :
  firstAttemptsAccepted →
  let sid := fresh_string "CH" (w_channels w) in
  let member := membership conf channelAdminRole channelUserRole isDM userProfile in
  let invited := map (invitation conf channelAdminRole channelUserRole) invitees in
  let missing := withoutUser w (invitees ++ [userProfile]) in
  createNewChannel conf userProfile invitees isDM mode friendlyName uniqueName createdBy
                   channelAdminRole channelUserRole w
  = (Ok (inr (sid, mkChannel uniqueName friendlyName createdBy mode isDM [] [] ∅)),
     setChannels
       (insert sid (mkChannel uniqueName friendlyName createdBy mode isDM [member] invited ∅))
       (addUsers (map userOf missing)
          (sendAll (ChannelCreate uniqueName friendlyName createdBy mode isDM
                    :: map userCreate missing
                    ++ memberCreate sid member :: map (inviteCreate sid) invited) w))).
Proof.
  intros Hok sid member invited missing.
  unfold createNewChannel. rewrite bind_run. unfold channelsCreate.
  set (c0 := mkChannel uniqueName friendlyName createdBy mode isDM [] [] ∅).
  erewrite callWithRetry_first; [|apply Hok|reflexivity].
  cbn [w_channels logCall]. fold sid.
  set (w1 := setChannels (insert sid c0) _).
  unfold tryCatch. rewrite bind_run. unfold populateNewChannel. cbn [fst].
  rewrite bind_run, ensureTwilioUsersExist_run by (intros i n; apply Hok).
  change (withoutUser w1 (invitees ++ [userProfile])) with missing.
  set (w2 := addUsers _ _).
  assert (Hc2 : w_channels w2 !! sid = Some c0) by apply lookup_insert_eq.
  rewrite bind_run, (membersCreate_first _ _ _ c0) by done.
  set (c1 := ch_addMember _ c0). set (w3 := setChannels (insert sid c1) _).
  assert (Hc3 : w_channels w3 !! sid = Some c1) by apply lookup_insert_eq.
  rewrite bind_run.
  match goal with
  | |- context [promiseAll ?f invitees w3] =>
      rewrite (inviteAll_run f sid (fun _ => true)
                 (fun p => roleSid (invitation conf channelAdminRole channelUserRole p))
                 Hok (fun p w0 => eq_refl) invitees c1 w3 Hc3)
  end.
  unfold ret. f_equal.
  assert (Hall : List.filter (fun _ : UserProfile => true) invitees = invitees).
  { induction invitees as [|p ps IH]; [done|]. simpl. by rewrite IH. }
  rewrite Hall. clear Hall.
  change (map (fun p => mkMember (profile_id p)
                          (roleSid (invitation conf channelAdminRole channelUserRole p)))
              invitees) with invited.
  apply World_eq;
    unfold w3, w2, w1;
    cbn [w_channels w_users w_roles w_calls w_profiles w_textChats w_nextId
         setChannels addUsers sendAll logCall]; try reflexivity.
  - rewrite !insert_insert_eq. reflexivity.
  - rewrite <- !app_assoc. reflexivity.
Qed.

(** A validated request for which no existing channel is selected, when
    nothing is rejected. *)
Lemma handleCreateChat_new_run
    req w requestContext elements mode title invitees channelAdminRole channelUserRole :
  Validated req w requestContext elements mode title invitees →
  channelRoles w = (Ok (channelAdminRole, channelUserRole), w) →
  firstAttemptsAccepted →
  let conf := ctx_conf requestContext in
  let requester := ctx_userProfile requestContext in
  let isDM := isDMFor mode invitees (field req "forVideoRoom") in
  let key := uniqueNameFor isDM requester invitees (req_uuid req) in
  let sid := fresh_string "CH" (w_channels w) in
  (if isDM then channelsNamed key (w_channels w) else []) = [] →
  ∃ textChatID w',
    handleCreateChat req w = (Send 200 (ChatCreated sid textChatID), w')
    ∧ w_channels w'
      = <[sid := builtChannel conf requester invitees mode (trim (trim title)) isDM key
                              channelAdminRole channelUserRole]> (w_channels w)
    ∧ w_calls w'
      = w_calls w ++ creationRequests w sid conf requester invitees mode (trim (trim title))
                                      isDM key channelAdminRole channelUserRole
    ∧ w_profiles w' = w_profiles w
    ∧ w_roles w' = w_roles w.
Proof.
  intros Hv Hroles Hok conf requester isDM key sid Hnone.
  rewrite (handleCreateChat_validated _ _ _ _ _ _ _ Hv). unfold runHandler.
  rewrite (provisionChat_run _ _ _ _ _ _ _ _ _ _ Hroles).
  fold conf requester isDM key. rewrite Hnone, bind_run. unfold resolveChannel.
  rewrite createNewChannel_run by done. fold sid.
  set (w1 := setChannels _ _).
  destruct (mirrorAndReply_ok conf isDM (String.eqb mode "private") sid
              (builtChannel conf requester invitees mode (trim (trim title)) isDM key
                            channelAdminRole channelUserRole)
              (mkChannel key (if isDM then key else trim (trim title))
                         (if isDM then "system" else profile_id requester) mode isDM [] [] ∅)
              w1) as (textChatID & w' & -> & Hch & Hcalls & Hp & Hr).
  { apply lookup_insert_eq. }
  exists textChatID, w'. split; [done|].
  rewrite Hch, Hcalls, Hp, Hr. done.
Qed.

(** X5.  A validated request for which [handleCreateChat] selects no existing
    channel (always so for a request that is not a DM), with both service
    roles in place and every first attempt accepted: the reply is 200 with a
    SID that no channel had; the requests sent are, in this order, the
    creation of the channel, the creation of a user for each participant
    without one, the requester's membership and one invitation per invited
    profile; the channel is left with the requester as its only member and
    the invited profiles as invitees, named by the unique name, with the
    title as friendly name and the requester as creator unless it is a DM
    (then the unique name and ["system"]); every other channel is as
    before. *)
Theorem createChat_builds_the_new_channel
    req w requestContext elements mode title invitees channelAdminRole channelUserRole :
  Validated req w requestContext elements mode title invitees →
  channelRoles w = (Ok (channelAdminRole, channelUserRole), w) →
  firstAttemptsAccepted →
  let conf := ctx_conf requestContext in
  let requester := ctx_userProfile requestContext in
  let isDM := isDMFor mode invitees (field req "forVideoRoom") in
  let key := uniqueNameFor isDM requester invitees (req_uuid req) in
  let sid := fresh_string "CH" (w_channels w) in
  (if isDM then channelsNamed key (w_channels w) else []) = [] →
  ∃ textChatID w',
    handleCreateChat req w = (Send 200 (ChatCreated sid textChatID), w')
    ∧ w_channels w !! sid = None
    ∧ w_channels w' !! sid
      = Some (builtChannel conf requester invitees mode (trim (trim title)) isDM key
                           channelAdminRole channelUserRole)
    ∧ (∀ s, s ≠ sid → w_channels w' !! s = w_channels w !! s)
    ∧ w_calls w'
      = w_calls w ++ creationRequests w sid conf requester invitees mode (trim (trim title))
                                      isDM key channelAdminRole channelUserRole.
Proof.
  intros Hv Hroles Hok conf requester isDM key sid Hnone.
  destruct (handleCreateChat_new_run _ _ _ _ _ _ _ _ _ Hv Hroles Hok Hnone)
    as (textChatID & w' & Hrun & Hch & Hcalls & _).
  exists textChatID, w'. split; [exact Hrun|].
  split; [apply fresh_string_fresh|]. rewrite Hch.
  split; [apply lookup_insert_eq|]. split; [|exact Hcalls].
  intros s Hs. by apply lookup_insert_ne.
Qed.

(** X6.  Requests that are not a DM are never matched with an existing
    channel: two validated requests of this kind, one after the other (the
    same request twice included), each create a channel of their own, with
    both service roles in place and first attempts accepted. *)
Theorem createChat_groups_are_never_reused
    req1 req2 w requestContext1 requestContext2 elements1 elements2 mode1 mode2
    title1 title2 invitees1 invitees2 channelAdminRole channelUserRole :
  Validated req1 w requestContext1 elements1 mode1 title1 invitees1 →
  Validated req2 w requestContext2 elements2 mode2 title2 invitees2 →
  isDMFor mode1 invitees1 (field req1 "forVideoRoom") = false →
  isDMFor mode2 invitees2 (field req2 "forVideoRoom") = false →
  channelRoles w = (Ok (channelAdminRole, channelUserRole), w) →
  firstAttemptsAccepted →
  ∃ sid1 sid2 textChatID1 textChatID2 w1 w2,
    handleCreateChat req1 w = (Send 200 (ChatCreated sid1 textChatID1), w1)
    ∧ handleCreateChat req2 w1 = (Send 200 (ChatCreated sid2 textChatID2), w2)
    ∧ sid1 ≠ sid2
    ∧ w_channels w !! sid1 = None
    ∧ w_channels w !! sid2 = None
    ∧ is_Some (w_channels w2 !! sid1)
    ∧ is_Some (w_channels w2 !! sid2).
Proof.
  intros Hv1 Hv2 Hdm1 Hdm2 Hroles Hok.
  destruct (handleCreateChat_new_run _ _ _ _ _ _ _ _ _ Hv1 Hroles Hok)
    as (tid1 & w1 & Hrun1 & Hch1 & _ & Hp1 & Hr1); [by rewrite Hdm1|].
  destruct (handleCreateChat_new_run _ _ _ _ _ _ _ _ _
              (Validated_same_profiles _ _ _ _ _ _ _ _ Hp1 Hv2)
              (channelRoles_same _ _ _ Hr1 Hroles) Hok)
    as (tid2 & w2 & Hrun2 & Hch2 & _); [by rewrite Hdm2|].
  set (sid1 := fresh_string "CH" (w_channels w)) in *.
  set (sid2 := fresh_string "CH" (w_channels w1)) in *.
  assert (Hfresh2 : w_channels w1 !! sid2 = None) by apply fresh_string_fresh.
  assert (Hne : sid1 ≠ sid2).
  { intros Heq. rewrite <- Heq, Hch1, lookup_insert_eq in Hfresh2. done. }
  exists sid1, sid2, tid1, tid2, w1, w2.
  split; [exact Hrun1|]. split; [exact Hrun2|]. split; [exact Hne|].
  split; [apply fresh_string_fresh|].
  split. { rewrite Hch1, lookup_insert_ne in Hfresh2 by done. exact Hfresh2. }
  rewrite Hch2, Hch1. split.
  - rewrite lookup_insert_ne by done. rewrite lookup_insert_eq. by eexists.
  - rewrite lookup_insert_eq. by eexists.
Qed.

(** X7.  [forVideoRoom: true] cancels the DM mode: a validated private
    request with one invitee and this flag creates a group channel, named
    after the requester and the request's UUID, with the title as friendly
    name, the requester as creator and channel admin, whether or not a DM
    channel of the two exists; that channel, like every other, is left as it
    was. *)
Theorem createChat_forVideoRoom_cancels_DM
    req w requestContext elements title invitee channelAdminRole channelUserRole :
  Validated req w requestContext elements "private" title [invitee] →
  field req "forVideoRoom" = JBool true →
  channelRoles w = (Ok (channelAdminRole, channelUserRole), w) →
  firstAttemptsAccepted →
  let conf := ctx_conf requestContext in
  let requester := ctx_userProfile requestContext in
  let sid := fresh_string "CH" (w_channels w) in
  ∃ textChatID w',
    handleCreateChat req w = (Send 200 (ChatCreated sid textChatID), w')
    ∧ w_channels w' !! sid
      = Some (mkChannel (groupUniqueName (profile_id requester) (req_uuid req))
                        (trim (trim title)) (profile_id requester) "private" false
                        [mkMember (profile_id requester) (role_sid channelAdminRole)]
                        [invitation conf channelAdminRole channelUserRole invitee] ∅)
    ∧ ∀ s c, w_channels w !! s = Some c → w_channels w' !! s = Some c.
Proof.
  intros Hv Hfvr Hroles Hok conf requester sid.
  destruct (handleCreateChat_new_run _ _ _ _ _ _ _ _ _ Hv Hroles Hok)
    as (textChatID & w' & Hrun & Hch & _).
  { by rewrite Hfvr. }
  rewrite Hfvr in Hch. fold conf requester sid in Hch.
  exists textChatID, w'. split; [exact Hrun|]. rewrite Hch.
  split; [by rewrite lookup_insert_eq|].
  intros s c Hc. rewrite lookup_insert_ne; [done|].
  intros <-. unfold sid in Hc. by rewrite fresh_string_fresh in Hc.
Qed.

(** ** The existing channel of a DM *)

(** X8.  When [handleCreateChat] selects an existing channel, then whatever
    the provider accepts or rejects, the only requests it sends are the
    requester's membership of that channel and invitations of the invited
    profiles to it, with the roles of the handler; the channel is still
    there afterwards and every other channel is as it was. *)
Theorem createChat_reuse_touches_one_channel
    req w requestContext elements mode title invitees channelAdminRole channelUserRole
    sid c rest :
  Validated req w requestContext elements mode title invitees →
  channelRoles w = (Ok (channelAdminRole, channelUserRole), w) →
  let conf := ctx_conf requestContext in
  let requester := ctx_userProfile requestContext in
  let isDM := isDMFor mode invitees (field req "forVideoRoom") in
  let key := uniqueNameFor isDM requester invitees (req_uuid req) in
  (if isDM then channelsNamed key (w_channels w) else []) = (sid, c) :: rest →
  let w' := snd (handleCreateChat req w) in
  is_Some (w_channels w' !! sid)
  ∧ (∀ s, s ≠ sid → w_channels w' !! s = w_channels w !! s)
  ∧ ∃ sent,
      w_calls w' = w_calls w ++ sent
      ∧ Forall (fun op =>
                  op = memberCreate sid (membership conf channelAdminRole channelUserRole
                                                    isDM requester)
                  ∨ ∃ p, p ∈ invitees
                         ∧ op = inviteCreate sid (invitation conf channelAdminRole
                                                             channelUserRole p)) sent.
Proof.
  intros Hv Hroles conf requester isDM key Hexisting.
  rewrite (handleCreateChat_validated _ _ _ _ _ _ _ Hv). unfold runHandler.
  rewrite (provisionChat_run _ _ _ _ _ _ _ _ _ _ Hroles).
  fold conf requester isDM key. rewrite Hexisting.
  assert (Hc : w_channels w !! sid = Some c).
  { destruct isDM; [|done].
    assert (Hin : (sid, c) ∈ channelsNamed key (w_channels w))
      by (rewrite Hexisting; apply list_elem_of_here).
    by apply elem_of_channelsNamed in Hin as [Hc _]. }
  pose (P := fun op : Op =>
               op = memberCreate sid (membership conf channelAdminRole channelUserRole
                                                 isDM requester)
               ∨ ∃ p, p ∈ invitees
                      ∧ op = inviteCreate sid (invitation conf channelAdminRole
                                                          channelUserRole p)).
  pose (I := fun chs : gmap string Channel =>
               is_Some (chs !! sid) ∧ ∀ s, s ≠ sid → chs !! s = w_channels w !! s).
  match goal with
  | |- context [bind ?m ?k w] => assert (Hsteps : steps P I (bind m k))
  end.
  { apply steps_bind; [|intros resolved; apply steps_mirrorAndReply].
    unfold resolveChannel.
    apply steps_bind; [|intros _; apply steps_ret].
    apply steps_reuseExistingChannel.
    - by left.
    - intros p Hp. right. by exists p.
    - intros chs c0 f [_ Hothers] _. split.
      + rewrite lookup_insert_eq. by eexists.
      + intros s Hs. rewrite lookup_insert_ne by done. by apply Hothers. }
  match goal with
  | |- context [bind ?m ?k w] => destruct (bind m k w) as [r w'] eqn:Hrun
  end.
  destruct (Hsteps _ _ _ Hrun) as ([Hsid Hothers] & _ & _ & sent & Hsent & HP).
  { split; [by eexists|done]. }
  assert (Hsnd : snd (match r with Ok r0 => (r0, w') | Throw e => (Next e, w') end) = w')
    by (by destruct r).
  cbv zeta. rewrite Hsnd. split; [done|]. split; [done|]. by exists sent.
Qed.

(** ** When the new channel cannot be populated *)

(** When every attempt is rejected, each of them was recorded. *)
Lemma retryFrom_gaveUp_world {A} op (effect : World → Outcome A * World) remaining :
  ∀ attempt w,
    (∀ j, (attempt ≤ j ≤ attempt + remaining)%nat → providerFails op j = true) →
    retryFrom attempt remaining (fun j => request op j effect) w
    = (Throw (ProviderError op), Nat.iter (S remaining) (logCall op) w).
Proof.
  induction remaining as [|n IH]; intros attempt w Hfails; simpl;
    unfold request at 1; rewrite (Hfails attempt) by lia.
  - done.
  - rewrite IH by (intros j Hj; apply Hfails; lia).
    by rewrite logCall_iter_shift.
Qed.

Lemma callWithRetry_gaveUp_world {A} op (effect : World → Outcome A * World) w :
  gaveUp op →
  callWithRetry (fun j => request op j effect) w
  = (Throw (ProviderError op), Nat.iter (S retryAttempts) (logCall op) w).
Proof. intros H. apply retryFrom_gaveUp_world. intros j Hj. apply H. lia. Qed.

(** The branch that creates the channel, once the creation is accepted. *)
Lemma createNewChannel_created conf userProfile invitees isDM mode
    friendlyName uniqueName createdBy channelAdminRole channelUserRole w :
  let sid := fresh_string "CH" (w_channels w) in
  let c0 := mkChannel uniqueName friendlyName createdBy mode isDM [] [] ∅ in
  let op := ChannelCreate uniqueName friendlyName createdBy mode isDM in
  accepted op →
  ∃ n, createNewChannel conf userProfile invitees isDM mode friendlyName uniqueName
                        createdBy channelAdminRole channelUserRole w
       = tryCatch
           (populateNewChannel conf userProfile invitees isDM
                               channelAdminRole channelUserRole (sid, c0) ;;;
            ret (inr (sid, c0)))
           (fun e =>
              callWithRetry (channelRemove sid) ;;;
              ret (inl (Send 500 (Status "Failed to add or invite members."))))
           (setChannels (insert sid c0) (Nat.iter (S n) (logCall op) w)).
Proof.
  intros sid c0 op Hcreate.
  unfold createNewChannel. unfold channelsCreate.
  match goal with
  | |- context [callWithRetry (fun attempt => request ?op attempt ?eff)] =>
      destruct (callWithRetry_accepted op eff w Hcreate) as [n Hn];
        [intros k; by eexists _, _|]
  end.
  exists n. rewrite bind_run, Hn. rewrite logCall_iter_channels. reflexivity.
Qed.

(** X9.  When the removal that compensates a failed creation is itself
    rejected at every attempt, [handleCreateChat] does not answer 500: the
    error of the removal goes to [next], the half-built channel stays with
    the provider, and the other channels are as before. *)
Theorem createChat_failed_removal_leaves_the_channel
    req w requestContext elements mode title invitees channelAdminRole channelUserRole :
  Validated req w requestContext elements mode title invitees →
  channelRoles w = (Ok (channelAdminRole, channelUserRole), w) →
  let requester := ctx_userProfile requestContext in
  let isDM := isDMFor mode invitees (field req "forVideoRoom") in
  let key := uniqueNameFor isDM requester invitees (req_uuid req) in
  let sid := fresh_string "CH" (w_channels w) in
  (if isDM then channelsNamed key (w_channels w) else []) = [] →
  accepted (ChannelCreate key (if isDM then key else trim (trim title))
                          (if isDM then "system" else profile_id requester) mode isDM) →
  (∀ role, gaveUp (MemberCreate sid (profile_id requester) role))
  ∨ (∃ p, p ∈ invitees ∧ ∀ role, gaveUp (InviteCreate sid (profile_id p) role)) →
  gaveUp (ChannelRemove sid) →
  ∃ w', handleCreateChat req w = (Next (ProviderError (ChannelRemove sid)), w')
        ∧ w_channels w !! sid = None
        ∧ is_Some (w_channels w' !! sid)
        ∧ (∀ s, s ≠ sid → w_channels w' !! s = w_channels w !! s)
        ∧ last (w_calls w') = Some (ChannelRemove sid).
Proof.
  intros Hv Hroles requester isDM key sid Hnone Hcreate Hfail Hremove.
  rewrite (handleCreateChat_validated _ _ _ _ _ _ _ Hv). unfold runHandler.
  rewrite (provisionChat_run _ _ _ _ _ _ _ _ _ _ Hroles).
  fold requester isDM key. rewrite Hnone, bind_run. unfold resolveChannel.
  destruct (createNewChannel_created (ctx_conf requestContext) requester invitees isDM mode
              (if isDM then key else trim (trim title)) key
              (if isDM then "system" else profile_id requester)
              channelAdminRole channelUserRole w Hcreate) as [n ->].
  fold sid.
  set (c0 := mkChannel key _ _ mode isDM [] [] ∅).
  set (w1 := setChannels (insert sid c0) _).
  unfold tryCatch.
  destruct (populateNewChannel_throws (ctx_conf requestContext) requester invitees isDM
              channelAdminRole channelUserRole (sid, c0) Hfail w1) as (e & w2 & Hthrows).
  rewrite bind_run, Hthrows.
  pose (I := fun chs : gmap string Channel => ∃ c', chs = <[sid := c']> (w_channels w)).
  assert (Hupd : updatable I sid).
  { intros chs c f [c' ->] _. exists (f c). apply insert_insert_eq. }
  destruct (steps_populateNewChannel (fun _ => True) I (ctx_conf requestContext) requester
              invitees isDM channelAdminRole channelUserRole (sid, c0)
              (fun _ _ => Logic.I) Logic.I (fun _ _ => Logic.I) Hupd _ _ _ Hthrows)
    as ([c' Hc'] & _).
  { exists c0. unfold w1. cbn [w_channels setChannels]. by rewrite logCall_iter_channels. }
  rewrite bind_run. cbn [fst]. unfold channelRemove.
  rewrite callWithRetry_gaveUp_world by done.
  eexists. split; [reflexivity|].
  rewrite logCall_iter_channels, logCall_iter_calls, Hc'.
  split; [apply fresh_string_fresh|].
  split; [rewrite lookup_insert_eq; by eexists|].
  split; [|apply last_replicate].
  intros s Hs. by apply lookup_insert_ne.
Qed.

Lemma logCall_iter_users op n w :
  w_users (Nat.iter n (logCall op) w) = w_users w.
Proof. induction n as [|n IH]; [done|]. simpl. exact IH. Qed.

(** The creation of users is not retried: one rejection makes
    [ensureTwilioUsersExist] throw. *)
Lemma ensureTwilioUsersExist_throws profiles p w :
  p ∈ profiles →
  includes (map fst (w_users w)) (profile_id p) = false →
  providerFails (userCreate p) 0 = true →
  ∃ e w', ensureTwilioUsersExist profiles w = (Throw e, w').
Proof.
  intros Hp Hnew Hfails. unfold ensureTwilioUsersExist.
  rewrite bind_run. unfold usersList. rewrite bind_run.
  match goal with
  | |- context [promiseAll ?f profiles w] =>
      destruct (promiseAll_throws f p) with (xs := profiles) (w := w) as (e & w' & ->)
  end; [|done|by eexists _, _].
  intros w0. cbv beta. rewrite Hnew. cbn [negb].
  unfold usersCreate, request. fold (userCreate p). rewrite Hfails. by eexists _, _.
Qed.

(** X10.  The creation of provider users is not wrapped in [callWithRetry]:
    when the provider rejects it once for a participant of a new channel who
    has no user yet, the channel that was just created is removed again and
    the reply is 500; no membership and no invitation was asked for, and the
    channels are those from before. *)
Theorem createChat_user_creation_is_not_retried
    req w requestContext elements mode title invitees channelAdminRole channelUserRole p :
  Validated req w requestContext elements mode title invitees →
  channelRoles w = (Ok (channelAdminRole, channelUserRole), w) →
  let requester := ctx_userProfile requestContext in
  let isDM := isDMFor mode invitees (field req "forVideoRoom") in
  let key := uniqueNameFor isDM requester invitees (req_uuid req) in
  let sid := fresh_string "CH" (w_channels w) in
  (if isDM then channelsNamed key (w_channels w) else []) = [] →
  accepted (ChannelCreate key (if isDM then key else trim (trim title))
                          (if isDM then "system" else profile_id requester) mode isDM) →
  p ∈ invitees ++ [requester] →
  includes (map fst (w_users w)) (profile_id p) = false →
  providerFails (userCreate p) 0 = true →
  accepted (ChannelRemove sid) →
  ∃ w' sent,
    handleCreateChat req w = (Send 500 (Status "Failed to add or invite members."), w')
    ∧ w_channels w' = w_channels w
    ∧ w_calls w' = w_calls w ++ sent
    ∧ Forall (fun op => match op with
                        | MemberCreate _ _ _ | InviteCreate _ _ _ => False
                        | _ => True
                        end) sent
    ∧ last sent = Some (ChannelRemove sid).
Proof.
  intros Hv Hroles requester isDM key sid Hnone Hcreate Hp Hnew Hfails Hremove.
  rewrite (handleCreateChat_validated _ _ _ _ _ _ _ Hv). unfold runHandler.
  rewrite (provisionChat_run _ _ _ _ _ _ _ _ _ _ Hroles).
  fold requester isDM key. rewrite Hnone, bind_run. unfold resolveChannel.
  destruct (createNewChannel_created (ctx_conf requestContext) requester invitees isDM mode
              (if isDM then key else trim (trim title)) key
              (if isDM then "system" else profile_id requester)
              channelAdminRole channelUserRole w Hcreate) as [n ->].
  fold sid.
  set (create := ChannelCreate key _ _ mode isDM).
  set (c0 := mkChannel key _ _ mode isDM [] [] ∅).
  set (w1 := setChannels (insert sid c0) _).
  unfold tryCatch, populateNewChannel. rewrite !bind_run.
  assert (Hnew1 : includes (map fst (w_users w1)) (profile_id p) = false).
  { unfold w1. cbn [w_users setChannels]. by rewrite logCall_iter_users. }
  destruct (ensureTwilioUsersExist_throws (invitees ++ [requester]) p w1 Hp Hnew1 Hfails)
    as (e & w2 & Husers).
  rewrite Husers.
  pose (P := fun op : Op => match op with UserCreate _ _ => True | _ => False end).
  destruct (steps_ensureTwilioUsersExist P (fun chs => chs = w_channels w1)
              (invitees ++ [requester]) (fun _ _ => Logic.I) _ _ _ Husers eq_refl)
    as (Hch2 & _ & _ & users & Hcalls2 & Husers').
  rewrite bind_run. unfold channelRemove.
  assert (Hc2 : w_channels w2 !! sid = Some c0).
  { rewrite Hch2. unfold w1. cbn [w_channels setChannels]. apply lookup_insert_eq. }
  match goal with
  | |- context [callWithRetry (fun attempt => request ?op attempt ?eff) w2] =>
      destruct (callWithRetry_accepted op eff w2 Hremove) as [m ->]
  end.
  { intros k. rewrite logCall_iter_channels, Hc2. by eexists _, _. }
  rewrite logCall_iter_channels, Hc2. unfold ret.
  eexists _, (replicate (S n) create ++ users ++ replicate (S m) (ChannelRemove sid)).
  split; [reflexivity|].
  cbn [w_channels w_calls setChannels].
  rewrite logCall_iter_channels, logCall_iter_calls, Hch2, Hcalls2.
  unfold w1. cbn [w_channels w_calls setChannels].
  rewrite logCall_iter_channels, logCall_iter_calls.
  split; [apply delete_insert_id, fresh_string_fresh|].
  split; [by rewrite <- !app_assoc|].
  split.
  - apply Forall_app. split; [by apply Forall_replicate|].
    apply Forall_app. split; [|by apply Forall_replicate].
    eapply Forall_impl; [exact Husers'|]. by intros [].
  - rewrite app_assoc. apply last_replicate.
Qed.

(** ** The mirror record *)

Lemma find_app_None {A} (f : A → bool) l l' :
  List.find f l = None → List.find f (l ++ l') = List.find f l'.
Proof.
  induction l as [|x l IH]; [done|]. simpl. destruct (f x); [done|exact IH].
Qed.

(** X11.  [getOrCreateTextChat] returns the first stored record of the
    conference and the channel when there is one, and then changes nothing;
    otherwise it stores one new record, with [autoWatch] set to the [isDM] it
    was given, [mirrored] off, the channel's friendly name and an empty access
    list.  In both cases the record returned is stored, the provider is left
    alone, and calling it again (the save being completed) returns the same
    record and changes nothing. *)
Theorem getOrCreateTextChat_finds_or_creates sid c conf isDM w :
  let matching := fun t => String.eqb (tc_conference t) conf
                           && String.eqb (tc_twilioID t) sid in
  ∃ t w',
    getOrCreateTextChat (sid, c) conf isDM w = (Ok t, w')
    ∧ tc_conference t = conf
    ∧ tc_twilioID t = sid
    ∧ t ∈ w_textChats w'
    ∧ w_channels w' = w_channels w
    ∧ w_calls w' = w_calls w
    ∧ match List.find matching (w_textChats w) with
      | Some found => t = found ∧ w' = w
      | None =>
          t = mkTextChat (Some ("TC" +:+ pretty (w_nextId w))) conf sid isDM false
                         (ch_friendlyName c) (Some ∅)
          ∧ w_textChats w' = w_textChats w ++ [t]
      end
    ∧ ∀ c' isDM', getOrCreateTextChat (sid, c') conf isDM' w' = (Ok t, w').
Proof.
  intros matching. unfold getOrCreateTextChat. rewrite bind_run. unfold getWorld.
  cbn [fst snd]. fold matching.
  destruct (List.find matching (w_textChats w)) as [found|] eqn:Hfind.
  - exists found, w. unfold ret.
    destruct (List.find_some _ _ Hfind) as [Hin Hmatch].
    apply andb_true_iff in Hmatch as [Hconf Hsid].
    apply String.eqb_eq in Hconf, Hsid.
    split; [done|]. split; [done|]. split; [done|].
    split; [by apply list_elem_of_In|]. split; [done|]. split; [done|]. split; [done|].
    intros c' isDM'. rewrite bind_run. cbn [fst snd]. fold matching. by rewrite Hfind.
  - unfold saveTextChat. cbn [tc_id].
    set (t := tc_setId _ _).
    exists t, (setTextChats (w_textChats w ++ [t]) (S (w_nextId w)) w).
    split; [done|]. split; [done|]. split; [done|].
    split; [apply elem_of_app; right; apply list_elem_of_here|].
    split; [done|]. split; [done|]. split; [done|].
    intros c' isDM'. rewrite bind_run. cbn [fst snd w_textChats setTextChats]. fold matching.
    rewrite (find_app_None _ _ _ Hfind). cbn [List.find].
    assert (Hmatch : matching t = true).
    { unfold matching, t. cbn [tc_conference tc_twilioID tc_setId].
      by rewrite !String.eqb_refl. }
    by rewrite Hmatch.
Qed.

(** The rebuild of the access list ends in the save of the record with the
    new list. *)
Lemma updateTextChatACLs_run sid textChat flag w c :
  w_channels w !! sid = Some c →
  ∃ acl,
    updateTextChatACLs sid textChat flag w = saveTextChat (tc_setACL acl textChat) w
    ∧ getAccess Read PublicKey acl = false
    ∧ getAccess Read (getRoleByName "attendee" (tc_conference textChat)) acl
      = negb (match flag with Some b => b | None => derivedIsPrivate textChat end).
Proof.
  intros Hc. unfold updateTextChatACLs.
  set (conf := tc_conference textChat).
  destruct (match flag with Some b => b | None => derivedIsPrivate textChat end).
  - unfold bind at 1. unfold bind at 1, membersList, bind at 1, channelFetch.
    rewrite Hc. unfold ret at 1. unfold bind at 1, invitesList, bind at 1, channelFetch.
    rewrite Hc. unfold ret at 1.
    destruct (grantProfiles_run conf
                (map identity (ch_members c) ++ map identity (ch_invites c))
                (baseACL conf) w) as (acl & Hrun & Hkeys & _).
    rewrite Hrun. exists acl. split; [done|].
    unfold getRoleByName. rewrite !Hkeys by done. rewrite !baseACL_access.
    split; role_decide.
  - unfold bind at 1, ret at 1. eexists. split; [reflexivity|].
    unfold getRoleByName. split; [|apply getAccess_setAccess_eq].
    rewrite getAccess_setAccess_key by done. rewrite baseACL_access. role_decide.
Qed.

(** X12.  Rebuilding the access list of a stored record (one that has an id)
    for a channel that exists changes that record's access list and nothing
    else: its other fields are kept, the records with another id are kept,
    no record is added, and the provider is neither asked nor changed. *)
Theorem updateTextChatACLs_saves_only_the_record sid textChat flag w c i :
  w_channels w !! sid = Some c →
  tc_id textChat = Some i →
  ∃ acl w',
    updateTextChatACLs sid textChat flag w = (Ok (tc_setACL acl textChat), w')
    ∧ w_textChats w'
      = map (fun t => if decide (tc_id t = Some i) then tc_setACL acl textChat else t)
            (w_textChats w)
    ∧ (∀ t, t ∈ w_textChats w → tc_id t ≠ Some i → t ∈ w_textChats w')
    ∧ length (w_textChats w') = length (w_textChats w)
    ∧ w_channels w' = w_channels w
    ∧ w_users w' = w_users w
    ∧ w_calls w' = w_calls w.
Proof.
  intros Hc Hid.
  destruct (updateTextChatACLs_run sid textChat flag w c Hc) as (acl & -> & _).
  unfold saveTextChat. cbn [tc_id tc_setACL]. rewrite Hid.
  eexists acl, _. split; [reflexivity|].
  cbn [w_textChats w_channels w_users w_calls setTextChats].
  split; [reflexivity|]. split; [|split; [by rewrite length_map|done]].
  intros t Hin Hne. apply list_elem_of_fmap. exists t. split; [|done].
  by destruct (decide (tc_id t = Some i)).
Qed.

(** ** The checks of [handleInviteToChat] *)

Lemma ValidatedInvite_not_rejected req w requestContext sid elements invitees :
  ValidatedInvite req w requestContext sid elements invitees →
  stringRejected (field req "channel") = false
  ∧ inviteRejected (field req "targetIdentities") = false
  ∧ invitedIds (field req "targetIdentities")
               (profile_id (ctx_userProfile requestContext)) ≠ []
  ∧ ¬ unknownInvitee w (ctx_conf requestContext)
        (invitedIds (field req "targetIdentities")
                    (profile_id (ctx_userProfile requestContext))).
Proof.
  intros (_ & Htargets & Hstrings & Hchannel & Hsid & Hids & Hfound & _).
  rewrite Htargets, Hchannel. cbn [stringRejected inviteRejected invitedIds].
  rewrite Hstrings. split; [by apply String.eqb_neq|]. split; [done|]. split; [done|].
  intros (id & Hin & Hnone).
  rewrite forallb_forall in Hfound.
  specialize (Hfound None). rewrite <- list_elem_of_In in Hfound.
  enough (true = false) by done. symmetry. rewrite <- Hfound; [done|].
  apply list_elem_of_fmap. by exists id.
Qed.

(** Up to the resolution of the profiles, [handleInviteToChat] answers 400,
    leaving the world as it was, or has a validated request. *)
Lemma handleInviteToChat_checks req w requestContext :
  req_intro req = Some requestContext →
  (∃ body, handleInviteToChat req w = (Send 400 body, w))
  ∨ ∃ sid elements invitees, ValidatedInvite req w requestContext sid elements invitees.
Proof.
  intros Hintro. unfold handleInviteToChat, runHandler. rewrite Hintro.
  destruct (negb (truthy (field req "targetIdentities")) || _) eqn:Hmissing;
    [left; by eexists|].
  apply orb_false_iff in Hmissing as [_ Htruthy]. apply negb_false_iff in Htruthy.
  destruct (field req "channel") as [| | | |sid| |] eqn:Hchannel; try (left; by eexists).
  destruct (field req "targetIdentities") as [| | | | |elements|] eqn:Htargets;
    try (left; by eexists).
  destruct (negb (forallb isString elements)) eqn:Hstrings; [left; by eexists|].
  apply negb_false_iff in Hstrings.
  destruct (length _ =? 0)%nat eqn:Hempty; [left; by eexists|].
  rewrite bind_run, resolveProfiles_run. cbv zeta.
  destruct (forallb (fun x : option UserProfile => _) _) eqn:Hall; [|left; by eexists].
  right. eexists sid, elements, _.
  split; [done|]. split; [done|]. split; [done|]. split; [done|].
  split. { simpl in Htruthy. by apply negb_true_iff, String.eqb_neq in Htruthy. }
  cbv zeta. split; [|by split].
  intros Hnil. rewrite Hnil in Hempty. done.
Qed.

(** X13.  [handleInviteToChat] answers 400 and changes nothing when the
    channel is not a non-empty string, when the target identities are not an
    array of strings, when no id is left once the requester's own is removed,
    or when one of the remaining ids has no profile in the conference. *)
Theorem inviteToChat_rejects_before_acting req w requestContext :
  req_intro req = Some requestContext →
  stringRejected (field req "channel") = true
  ∨ inviteRejected (field req "targetIdentities") = true
  ∨ invitedIds (field req "targetIdentities")
               (profile_id (ctx_userProfile requestContext)) = []
  ∨ unknownInvitee w (ctx_conf requestContext)
      (invitedIds (field req "targetIdentities")
                  (profile_id (ctx_userProfile requestContext))) →
  ∃ body, handleInviteToChat req w = (Send 400 body, w).
Proof.
  intros Hintro Hcause.
  destruct (handleInviteToChat_checks req w requestContext Hintro)
    as [Hrejected | (sid & elements & invitees & Hv)]; [done|].
  exfalso.
  destruct (ValidatedInvite_not_rejected _ _ _ _ _ _ Hv) as (Hc & Hi & He & Hu).
  destruct Hcause as [H | [H | [H | H]]]; congruence || done.
Qed.

(** A validated request for a channel that exists and is not a DM, with both
    service roles in place: the membership test and what follows it. *)
Lemma handleInviteToChat_validated req w requestContext sid elements invitees c
    channelAdminRole channelUserRole :
  ValidatedInvite req w requestContext sid elements invitees →
  w_channels w !! sid = Some c →
  ch_isDM c = false →
  channelRoles w = (Ok (channelAdminRole, channelUserRole), w) →
  let conf := ctx_conf requestContext in
  let userProfile := ctx_userProfile requestContext in
  let members := map identity (ch_members c) in
  let invites := map identity (ch_invites c) in
  handleInviteToChat req w
  = runHandler
      (if includes members (profile_id userProfile)
       then
         promiseAll
           (fun profile =>
              if negb (includes members (profile_id profile))
                 && negb (includes invites (profile_id profile))
              then
                callWithRetry
                  (invitesCreate sid (profile_id profile)
                     (if truthyReturned (isUserInRoles (profile_user profile) conf adminOrManager)
                      then role_sid channelAdminRole
                      else role_sid channelUserRole))
              else ret tt) invitees ;;;
         textChat <- getOrCreateTextChat (sid, c) conf (ch_isDM c) ;;
         updateTextChatACLs sid textChat None ;;;
         ret (Send 200 EmptyObject)
       else ret (Send 403 (Text "Access denied."))) w.
Proof.
  intros (Hintro & Htargets & Hstrings & Hchannel & Hsid & Hids & Hfound & ->) Hc Hdm Hroles.
  cbv zeta.
  unfold handleInviteToChat, runHandler. rewrite Hintro, Htargets, Hchannel.
  rewrite (truthy_JStr _ Hsid), Hstrings. cbn [truthy negb orb].
  destruct (List.filter _ (stringsOf elements)) as [|id ids] eqn:Hfiltered; [done|].
  cbn [length Nat.eqb].
  rewrite bind_run, resolveProfiles_run. cbv zeta. rewrite Hfound.
  rewrite bind_run. unfold channelFetch at 1. rewrite Hc.
  rewrite bind_run, Hroles. rewrite Hdm. cbn [negb].
  rewrite bind_run. unfold membersList at 1. rewrite bind_run. unfold channelFetch at 1.
  rewrite Hc. unfold ret at 1.
  rewrite bind_run. unfold invitesList at 1. rewrite bind_run. unfold channelFetch at 1.
  rewrite Hc. unfold ret at 1.
  reflexivity.
Qed.

(** X14.  Only a member of the channel may invite: a validated request for
    a channel that is not a DM, made by someone who is not one of its members
    (an invitee included), is answered 403 and changes nothing. *)
Theorem inviteToChat_requires_membership req w requestContext sid elements invitees c
    channelAdminRole channelUserRole :
  ValidatedInvite req w requestContext sid elements invitees →
  w_channels w !! sid = Some c →
  ch_isDM c = false →
  channelRoles w = (Ok (channelAdminRole, channelUserRole), w) →
  includes (map identity (ch_members c)) (profile_id (ctx_userProfile requestContext))
  = false →
  handleInviteToChat req w = (Send 403 (Text "Access denied."), w).
Proof.
  intros Hv Hc Hdm Hroles Hmember.
  rewrite (handleInviteToChat_validated _ _ _ _ _ _ _ _ _ Hv Hc Hdm Hroles).
  by rewrite Hmember.
Qed.

Lemma ValidatedInvite_same_profiles req w w' requestContext sid elements invitees :
  w_profiles w' = w_profiles w →
  ValidatedInvite req w requestContext sid elements invitees →
  ValidatedInvite req w' requestContext sid elements invitees.
Proof. unfold ValidatedInvite. by intros ->. Qed.

(** The mirror record of the channel of an invitation is found or created
    and its list rebuilt; the provider is not asked to change anything. *)
Lemma inviteMirror_ok conf sid c x w :
  w_channels w !! sid = Some c →
  ∃ w',
    (textChat <- getOrCreateTextChat (sid, x) conf (ch_isDM x) ;;
     updateTextChatACLs sid textChat None ;;;
     ret (Send 200 EmptyObject)) w
    = (Ok (Send 200 EmptyObject), w')
    ∧ w_channels w' = w_channels w
    ∧ w_calls w' = w_calls w
    ∧ w_profiles w' = w_profiles w
    ∧ w_roles w' = w_roles w.
Proof.
  intros Hc.
  set (m := bind _ _).
  assert (Hsteps : steps (fun _ => False) (fun chs => chs = w_channels w) m).
  { apply steps_bind; [apply steps_getOrCreateTextChat|]. intros t.
    apply steps_bind; [apply steps_updateTextChatACLs|]. intros _. apply steps_ret. }
  assert (Hrun : ∃ w', m w = (Ok (Send 200 EmptyObject), w')).
  { unfold m. rewrite bind_run.
    destruct (getOrCreateTextChat (sid, x) conf (ch_isDM x) w) as [[textChat|e] w1] eqn:Hget.
    - assert (Hc1 : w_channels w1 = w_channels w).
      { by destruct (steps_getOrCreateTextChat (fun _ => True)
                       (fun chs => chs = w_channels w) _ _ _ _ _ _ Hget eq_refl). }
      rewrite <- Hc1 in Hc. rewrite bind_run.
      destruct (updateTextChatACLs_attendee sid textChat None w1 c Hc)
        as (t' & w' & acl & -> & _).
      by eexists.
    - exfalso. unfold getOrCreateTextChat in Hget. rewrite bind_run in Hget.
      unfold getWorld in Hget.
      destruct (List.find _ _); [done|].
      by destruct (saveTextChat_acl
                     (mkTextChat None conf (fst (sid, x)) (ch_isDM x) false
                                 (ch_friendlyName (snd (sid, x))) (Some ∅)) w)
        as (t' & w' & Hsave & _); rewrite Hsave in Hget. }
  destruct Hrun as (w' & Hrun). exists w'. split; [done|].
  destruct (Hsteps _ _ _ Hrun eq_refl) as (Hch & Hp & Hr & sent & Hsent & HP).
  destruct sent as [|op sent]; [|by apply Forall_cons in HP as [[] _]].
  rewrite app_nil_r in Hsent. done.
Qed.

(** A member's validated request, when nothing is rejected. *)
Lemma handleInviteToChat_member_run req w requestContext sid elements invitees c
    channelAdminRole channelUserRole :
  ValidatedInvite req w requestContext sid elements invitees →
  w_channels w !! sid = Some c →
  ch_isDM c = false →
  channelRoles w = (Ok (channelAdminRole, channelUserRole), w) →
  includes (map identity (ch_members c)) (profile_id (ctx_userProfile requestContext))
  = true →
  firstAttemptsAccepted →
  let invited := map (invitation (ctx_conf requestContext) channelAdminRole channelUserRole)
                     (notYetIn c invitees) in
  ∃ w',
    handleInviteToChat req w = (Send 200 EmptyObject, w')
    ∧ w_channels w' = <[sid := ch_addInvites invited c]> (w_channels w)
    ∧ w_calls w' = w_calls w ++ map (inviteCreate sid) invited
    ∧ w_profiles w' = w_profiles w
    ∧ w_roles w' = w_roles w.
Proof.
  intros Hv Hc Hdm Hroles Hmember Hok invited.
  rewrite (handleInviteToChat_validated _ _ _ _ _ _ _ _ _ Hv Hc Hdm Hroles).
  rewrite Hmember. unfold runHandler. rewrite bind_run.
  match goal with
  | |- context [promiseAll ?f invitees w] =>
      rewrite (inviteAll_run f sid
                 (fun p => negb (includes (map identity (ch_members c)) (profile_id p))
                           && negb (includes (map identity (ch_invites c)) (profile_id p)))
                 (fun p => roleSid (invitation (ctx_conf requestContext) channelAdminRole
                                               channelUserRole p))
                 Hok ltac:(intros p w0; cbv beta; by destruct (negb _ && negb _))
                 invitees c w Hc)
  end.
  cbv zeta.
  set (w1 := setChannels _ _).
  destruct (inviteMirror_ok (ctx_conf requestContext) sid (ch_addInvites invited c) c w1)
    as (w' & -> & Hch & Hcalls & Hp & Hr).
  { unfold w1. cbn [w_channels setChannels sendAll]. apply lookup_insert_eq. }
  exists w'. split; [done|]. rewrite Hch, Hcalls, Hp, Hr.
  unfold w1. cbn [w_channels w_calls w_profiles w_roles setChannels sendAll].
  repeat split; reflexivity.
Qed.

Lemma ch_addInvites_members ms c : ch_members (ch_addInvites ms c) = ch_members c.
Proof. reflexivity. Qed.

(** Nobody is left to invite once the invitations were created. *)
Lemma notYetIn_invited conf channelAdminRole channelUserRole c invitees :
  notYetIn (ch_addInvites (map (invitation conf channelAdminRole channelUserRole)
                               (notYetIn c invitees)) c) invitees = [].
Proof.
  unfold notYetIn at 1. apply filter_none. intros p Hp.
  cbn [ch_members ch_invites ch_addInvites].
  destruct (includes (map identity (ch_members c)) (profile_id p)) eqn:Hm; [done|].
  cbn [negb andb]. rewrite map_app, includes_app.
  destruct (includes (map identity (ch_invites c)) (profile_id p)) eqn:Hi; [done|].
  cbn [orb]. apply negb_false_iff, includes_elem_of, list_elem_of_fmap.
  exists (invitation conf channelAdminRole channelUserRole p). split; [done|].
  apply list_elem_of_fmap. exists p. split; [done|].
  unfold notYetIn. apply list_elem_of_In, List.filter_In.
  split; [by apply list_elem_of_In|]. by rewrite Hm, Hi.
Qed.

(** X15.  A member's validated request to invite to a channel that is not a
    DM, with both service roles in place and first attempts accepted, is
    answered 200 with [{}]; an invitation is created for exactly the invited
    profiles that were neither members nor invitees of the channel when the
    handler read its lists, in the order of the request (twice for an id
    given twice), and nothing else of the channel changes.  Sent again, the
    same request is answered 200 and asks the provider for nothing. *)
Theorem inviteToChat_invites_those_not_yet_in req w requestContext sid elements invitees c
    channelAdminRole channelUserRole :
  ValidatedInvite req w requestContext sid elements invitees →
  w_channels w !! sid = Some c →
  ch_isDM c = false →
  channelRoles w = (Ok (channelAdminRole, channelUserRole), w) →
  includes (map identity (ch_members c)) (profile_id (ctx_userProfile requestContext))
  = true →
  firstAttemptsAccepted →
  let invited := map (invitation (ctx_conf requestContext) channelAdminRole channelUserRole)
                     (notYetIn c invitees) in
  ∃ w' w'',
    handleInviteToChat req w = (Send 200 EmptyObject, w')
    ∧ w_channels w' = <[sid := ch_addInvites invited c]> (w_channels w)
    ∧ w_calls w' = w_calls w ++ map (inviteCreate sid) invited
    ∧ handleInviteToChat req w' = (Send 200 EmptyObject, w'')
    ∧ w_channels w'' = w_channels w'
    ∧ w_calls w'' = w_calls w'.
Proof.
  intros Hv Hc Hdm Hroles Hmember Hok invited.
  destruct (handleInviteToChat_member_run _ _ _ _ _ _ _ _ _ Hv Hc Hdm Hroles Hmember Hok)
    as (w' & Hrun & Hch & Hcalls & Hp & Hr).
  fold invited in Hch, Hcalls.
  assert (Hc' : w_channels w' !! sid = Some (ch_addInvites invited c))
    by (rewrite Hch; apply lookup_insert_eq).
  destruct (handleInviteToChat_member_run _ _ _ _ _ _ _ _ _
              (ValidatedInvite_same_profiles _ _ _ _ _ _ _ Hp Hv) Hc' Hdm
              (channelRoles_same _ _ _ Hr Hroles) Hmember Hok)
    as (w'' & Hrun' & Hch' & Hcalls' & _).
  unfold invited in Hch', Hcalls'. rewrite notYetIn_invited in Hch', Hcalls'.
  cbn [map] in Hch', Hcalls'. rewrite ch_addInvites_nil in Hch'.
  exists w', w''. split; [exact Hrun|]. split; [exact Hch|]. split; [exact Hcalls|].
  split; [exact Hrun'|]. split.
  - rewrite Hch'. by apply insert_id.
  - by rewrite Hcalls', app_nil_r.
Qed.

(** ** The checks of the reaction handlers *)

(** The checks shared by both handlers either end the request, whatever
    would follow them, or hand a channel of which the requester is a member
    to what follows. *)
Lemma reactionRequest_cases req userProfile w :
  (∃ r, ∀ k, reactionRequest req userProfile k w = (r, w))
  ∨ ∃ sid message reaction c,
      field req "channel" = JStr sid ∧ sid ≠ ""
      ∧ field req "message" = JStr message ∧ message ≠ ""
      ∧ field req "reaction" = JStr reaction ∧ reaction ≠ ""
      ∧ w_channels w !! sid = Some c
      ∧ existsb (fun x => String.eqb (identity x) (profile_id userProfile)) (ch_members c)
        = true
      ∧ ∀ k, reactionRequest req userProfile k w = k sid message reaction w.
Proof.
  unfold reactionRequest.
  destruct (field req "channel") as [| | | |sid| |] eqn:Hch; try (left; by eexists).
  destruct (negb (truthy (JStr sid))) eqn:Hsid; [left; by eexists|].
  destruct (field req "message") as [| | | |message| |] eqn:Hmsg; try (left; by eexists).
  destruct (negb (truthy (JStr message))) eqn:Hmessage; [left; by eexists|].
  destruct (field req "reaction") as [| | | |reaction| |] eqn:Hr; try (left; by eexists).
  destruct (negb (truthy (JStr reaction))) eqn:Hreaction; [left; by eexists|].
  apply negb_false_iff in Hsid, Hmessage, Hreaction. simpl in Hsid, Hmessage, Hreaction.
  apply negb_true_iff, String.eqb_neq in Hsid, Hmessage, Hreaction.
  destruct (w_channels w !! sid) as [c|] eqn:Hc.
  - destruct (existsb (fun x => String.eqb (identity x) (profile_id userProfile))
                      (ch_members c)) eqn:Hmember.
    + right. exists sid, message, reaction, c. repeat (split; [done|]).
      intros k. rewrite bind_run. unfold membersList. rewrite bind_run.
      unfold channelFetch. rewrite Hc. unfold ret at 1. by rewrite Hmember.
    + left. eexists. intros k. rewrite bind_run. unfold membersList. rewrite bind_run.
      unfold channelFetch. rewrite Hc. unfold ret at 1. by rewrite Hmember.
  - left. eexists. intros k. rewrite bind_run. unfold membersList. rewrite bind_run.
    unfold channelFetch. by rewrite Hc.
Qed.

(** X16.  Whatever the request, [handleAddReaction] and
    [handleRemoveReaction] either leave everything as it was, or the request
    is a well-formed one, made by a member of the channel about a message that
    exists, and the handler sends exactly one message update: when the
    provider rejects it the error goes to [next] and nothing has changed but
    the record of the request; when it accepts it the attributes of that
    message are replaced.  Members, invitations, other channels, users and the
    document store are never touched. *)
Theorem reactions_send_at_most_one_update req w :
  ∀ run,
    run = handleAddReaction req w ∨ run = handleRemoveReaction req w →
    snd run = w
    ∨ ∃ requestContext sid message reaction c attributes attributes',
        ReactionRequest req w requestContext sid message reaction c attributes
        ∧ let op := MessageUpdate sid message attributes' in
          (run = (Next (ProviderError op), logCall op w)
           ∨ run = (Send 200 OkTrue,
                    setChannels (insert sid (ch_setMessage message (Some attributes') c))
                                (logCall op w))).
Proof.
  intros run Hrun.
  destruct (req_intro req) as [requestContext|] eqn:Hintro.
  2: { left. destruct Hrun as [-> | ->];
       unfold handleAddReaction, handleRemoveReaction, runHandler; by rewrite Hintro. }
  destruct (reactionRequest_cases req (ctx_userProfile requestContext) w)
    as [[r Hr] | (sid & message & reaction & c & Hch & Hsid & Hmsg & Hmessage
                  & Hre & Hreaction & Hc & Hmember & Hk)].
  { left. destruct Hrun as [-> | ->];
      unfold handleAddReaction, handleRemoveReaction, runHandler;
      rewrite Hintro, Hr; by destruct r. }
  destruct (ch_messages c !! message) as [attributes|] eqn:Ha.
  2: { left. destruct Hrun as [-> | ->];
       unfold handleAddReaction, handleRemoveReaction, runHandler;
       rewrite Hintro, Hk, bind_run; unfold messageFetch; rewrite bind_run;
       unfold channelFetch; by rewrite Hc, Ha. }
  assert (Hreq : ReactionRequest req w requestContext sid message reaction c attributes)
    by (unfold ReactionRequest; repeat (split; [done|]); done).
  destruct Hrun as [-> | ->].
  - rewrite (handleAddReaction_run _ _ _ _ _ _ _ _ Hreq). cbv zeta.
    destruct (readsInherited _ _); [by left|].
    destruct (includes _ _); [by left|].
    right. eexists requestContext, sid, message, reaction, c, attributes, _.
    split; [exact Hreq|]. cbv zeta.
    destruct (providerFails _ 0); [by left|by right].
  - rewrite (handleRemoveReaction_run _ _ _ _ _ _ _ _ Hreq). cbv zeta.
    destruct (readsInherited _ _); [by left|].
    destruct (negb (includes _ _)); [by left|].
    right. eexists requestContext, sid, message, reaction, c, attributes, _.
    split; [exact Hreq|]. cbv zeta.
    destruct (providerFails _ 0); [by left|by right].
Qed.

(** X17.  Both reaction handlers answer 400 and change nothing when the
    channel, the message or the reaction of the body is not a non-empty
    string. *)
Theorem reactions_reject_before_acting req w requestContext :
  req_intro req = Some requestContext →
  stringRejected (field req "channel") = true
  ∨ stringRejected (field req "message") = true
  ∨ stringRejected (field req "reaction") = true →
  ∃ body,
    handleAddReaction req w = (Send 400 body, w)
    ∧ handleRemoveReaction req w = (Send 400 body, w).
Proof.
  intros Hintro Hcause.
  unfold handleAddReaction, handleRemoveReaction, runHandler, reactionRequest.
  rewrite Hintro.
  destruct (field req "channel") as [| | | |sid| |] eqn:Hch; try by eexists.
  destruct (String.eqb sid "") eqn:Hsid; [simpl; rewrite Hsid; by eexists|].
  destruct (field req "message") as [| | | |message| |] eqn:Hmsg;
    try (simpl; rewrite Hsid; by eexists).
  destruct (String.eqb message "") eqn:Hmessage; [simpl; rewrite Hsid, Hmessage; by eexists|].
  destruct (field req "reaction") as [| | | |reaction| |] eqn:Hr;
    try (simpl; rewrite Hsid, Hmessage; by eexists).
  destruct (String.eqb reaction "") eqn:Hreaction;
    [simpl; rewrite Hsid, Hmessage, Hreaction; by eexists|].
  exfalso. simpl in Hcause. rewrite Hsid, Hmessage, Hreaction in Hcause.
  by destruct Hcause as [? | [? | ?]].
Qed.

(** X18.  Only a member of the channel may react: with a channel, a message
    and a reaction that are non-empty strings, a request about a channel that
    exists and of which the requester is not a member is answered 403 by both
    handlers, whether or not the message exists, and changes nothing. *)
Theorem reactions_require_membership req w requestContext sid message reaction c :
  req_intro req = Some requestContext →
  field req "channel" = JStr sid → sid ≠ "" →
  field req "message" = JStr message → message ≠ "" →
  field req "reaction" = JStr reaction → reaction ≠ "" →
  w_channels w !! sid = Some c →
  existsb (fun x => String.eqb (identity x) (profile_id (ctx_userProfile requestContext)))
          (ch_members c) = false →
  handleAddReaction req w = (Send 403 (Status "Invalid channel"), w)
  ∧ handleRemoveReaction req w = (Send 403 (Status "Invalid channel"), w).
Proof.
  intros Hintro Hch Hsid Hmsg Hmessage Hr Hreaction Hc Hmember.
  assert (Hdenied : ∀ k, reactionRequest req (ctx_userProfile requestContext) k w
                         = (Ok (Send 403 (Status "Invalid channel")), w)).
  { intros k. unfold reactionRequest.
    rewrite Hch, Hmsg, Hr, !truthy_JStr by done. cbn [negb].
    rewrite bind_run. unfold membersList. rewrite bind_run. unfold channelFetch.
    rewrite Hc. unfold ret at 1. by rewrite Hmember. }
  unfold handleAddReaction, handleRemoveReaction, runHandler.
  by rewrite Hintro, !Hdenied.
Qed.

Lemma filter_absent user users :
  includes users user = false →
  List.filter (fun x => negb (String.eqb x user)) users = users.
Proof.
  unfold includes. induction users as [|y ys IH]; [done|]. simpl.
  intros H. apply orb_false_iff in H as [Hy Hys].
  rewrite String.eqb_sym, Hy. cbn [negb]. by rewrite IH.
Qed.

(** X19.  Adding a reaction and then removing it restores the reactions: for
    a well-formed request of a member who has not given the reaction yet,
    when the provider accepts the message updates, both calls answer
    [{ ok: true }], and afterwards the reactions of the message and its other
    top-level keys are those from before.  The reaction must not be recorded
    with an empty list beforehand: the removal would drop that key.  And it
    must be a key of the reactions or a name that objects do not inherit:
    [handleAddReaction] throws otherwise. *)
Theorem reactions_add_then_remove_restores
    req w requestContext sid message reaction c attributes :
  ReactionRequest req w requestContext sid message reaction c attributes →
  (∀ a, providerFails (MessageUpdate sid message a) 0 = false) →
  readsInherited attributes reaction = false →
  let user := profile_id (ctx_userProfile requestContext) in
  let users := reactionUsersOf attributes reaction in
  includes users user = false →
  reactionsOf attributes !! reaction = None ∨ users ≠ [] →
  let added := handleAddReaction req w in
  let removed := handleRemoveReaction req (snd added) in
  fst added = Send 200 OkTrue
  ∧ fst removed = Send 200 OkTrue
  ∧ (∃ attributes',
       messageAttributes (snd added) sid message = Some attributes'
       ∧ reactionUsersOf attributes' reaction = users ++ [user])
  ∧ ∃ attributes'',
      messageAttributes (snd removed) sid message = Some attributes''
      ∧ reactionsOf attributes'' = reactionsOf attributes
      ∧ otherKeysOf attributes'' = otherKeysOf attributes.
Proof.
  intros Hreq Hok Hown user users Habsent Hlist added removed.
  pose proof Hreq as (Hintro & Hch & Hsid & Hmsg & Hmessage & Hr & Hreaction
                      & Hc & Hmember & Ha).
  pose proof (handleAddReaction_run _ _ _ _ _ _ _ _ Hreq) as Hadd.
  cbv zeta in Hadd. fold user users in Hadd. rewrite Hown, Habsent, Hok in Hadd.
  set (attributes1 := withReactions attributes
                        (<[reaction := users ++ [user]]> (reactionsOf attributes))) in Hadd.
  set (c1 := ch_setMessage message (Some attributes1) c) in Hadd.
  set (w1 := setChannels (insert sid c1) _) in Hadd.
  assert (Hreq1 : ReactionRequest req w1 requestContext sid message reaction c1
                                  (Some attributes1)).
  { unfold ReactionRequest. repeat (split; [done|]).
    split; [apply lookup_insert_eq|]. split; [exact Hmember|].
    unfold c1. cbn [ch_messages ch_setMessage]. apply lookup_insert_eq. }
  assert (Husers1 : reactionUsersOf (Some attributes1) reaction = users ++ [user]).
  { unfold reactionUsersOf, attributes1. rewrite reactionsOf_withReactions.
    by rewrite lookup_insert_eq. }
  assert (Hown1 : readsInherited (Some attributes1) reaction = false).
  { apply (readsInherited_recorded _ _ user).
    by rewrite Husers1, includes_app, includes_here, orb_true_r. }
  pose proof (handleRemoveReaction_run _ _ _ _ _ _ _ _ Hreq1) as Hremove.
  cbv zeta in Hremove. fold user in Hremove. rewrite Hown1, Husers1 in Hremove.
  rewrite includes_app, includes_here, orb_true_r, Hok in Hremove. cbn [negb] in Hremove.
  unfold removed, added. rewrite Hadd. cbn [fst snd]. rewrite Hremove. cbn [fst snd].
  split; [done|]. split; [done|]. split.
  { exists (Some attributes1). split; [|exact Husers1].
    unfold w1. apply messageAttributes_updated. }
  eexists. split; [apply messageAttributes_updated|].
  rewrite reactionsOf_withReactions, otherKeysOf_withReactions.
  split; [|unfold attributes1; apply otherKeysOf_withReactions].
  rewrite List.filter_app, (filter_absent _ _ Habsent). cbn [List.filter].
  rewrite String.eqb_refl. cbn [negb]. rewrite app_nil_r.
  unfold attributes1. rewrite reactionsOf_withReactions, insert_insert_eq.
  destruct Hlist as [Hnone | Hsome].
  - assert (Hnil : users = []) by (unfold users, reactionUsersOf; by rewrite Hnone).
    rewrite Hnil. cbn [length Nat.eqb]. rewrite delete_insert_id by done. done.
  - destruct users as [|u us] eqn:Husers; [done|]. cbn [length Nat.eqb].
    apply insert_id. unfold users, reactionUsersOf in Husers.
    destruct (reactionsOf attributes !! reaction) as [l|]; [|done]. simpl in Husers.
    by rewrite Husers.
Qed.

(** ** What [handleInviteToChat] never does *)

(** X20.  Whatever the request and whatever the provider accepts or rejects,
    [handleInviteToChat] sends nothing but invitations to the channel named
    in the body, leaves the members of every channel as they were, and leaves
    every other channel untouched: it creates no channel and no membership,
    and removes nothing. *)
Theorem inviteToChat_only_invites req w :
  let w' := snd (handleInviteToChat req w) in
  (∀ s, ch_members <$> w_channels w' !! s = ch_members <$> w_channels w !! s)
  ∧ (∀ s, field req "channel" ≠ JStr s → w_channels w' !! s = w_channels w !! s)
  ∧ ∃ sent,
      w_calls w' = w_calls w ++ sent
      ∧ Forall (fun op => ∃ sid id role,
                            op = InviteCreate sid id role
                            ∧ field req "channel" = JStr sid) sent.
Proof.
  cbv zeta.
  pose (P := fun op : Op => ∃ sid id role,
                              op = InviteCreate sid id role
                              ∧ field req "channel" = JStr sid).
  enough (Hcases : ∀ Q : World → Prop,
            Q w →
            (∀ sid w',
               field req "channel" = JStr sid →
               (∀ s, ch_members <$> w_channels w' !! s = ch_members <$> w_channels w !! s) →
               (∀ s, s ≠ sid → w_channels w' !! s = w_channels w !! s) →
               (∃ sent, w_calls w' = w_calls w ++ sent ∧ Forall P sent) →
               Q w') →
            Q (snd (handleInviteToChat req w))).
  { apply (Hcases (fun w' =>
             (∀ s, ch_members <$> w_channels w' !! s = ch_members <$> w_channels w !! s)
             ∧ (∀ s, field req "channel" ≠ JStr s → w_channels w' !! s = w_channels w !! s)
             ∧ ∃ sent, w_calls w' = w_calls w ++ sent ∧ Forall P sent)).
    - split; [done|]. split; [done|]. nothing_sent.
    - intros sid w' Hchannel Hmembers Hothers Hsent.
      split; [exact Hmembers|]. split; [|exact Hsent].
      intros s Hs. apply Hothers. intros ->. by apply Hs. }
  intros Q Hsame Hinvited.
  unfold handleInviteToChat, runHandler.
  destruct (req_intro req) as [requestContext|]; [|exact Hsame].
  destruct (negb (truthy (field req "targetIdentities")) || _); [exact Hsame|].
  destruct (field req "channel") as [| | | |sid| |] eqn:Hchannel; try exact Hsame.
  destruct (field req "targetIdentities") as [| | | | |elements|]; try exact Hsame.
  destruct (negb (forallb isString elements)); [exact Hsame|].
  destruct (length _ =? 0)%nat; [exact Hsame|].
  rewrite bind_run, resolveProfiles_run. cbv zeta.
  destruct (forallb (fun x : option UserProfile => _) _); [|exact Hsame].
  rewrite bind_run. unfold channelFetch at 1.
  destruct (w_channels w !! sid) as [existingChannel|]; [|exact Hsame].
  rewrite bind_run, channelRoles_run.
  destruct (List.find _ (w_roles w)) as [channelAdminRole|]; [|exact Hsame].
  destruct (List.find _ (w_roles w)) as [channelUserRole|]; [|exact Hsame].
  destruct (negb (ch_isDM existingChannel)); [|exact Hsame].
  pose (I := fun chs : gmap string Channel =>
               (∀ s, ch_members <$> chs !! s = ch_members <$> w_channels w !! s)
               ∧ (∀ s, s ≠ sid → chs !! s = w_channels w !! s)).
  match goal with
  | |- context [bind ?m ?k w] => assert (Hsteps : steps P I (bind m k))
  end.
  { apply steps_bind; [apply steps_membersList|]. intros members.
    apply steps_bind; [apply steps_invitesList|]. intros invites.
    destruct (includes _ _); [|apply steps_ret].
    apply steps_bind.
    { apply steps_promiseAll. intros p Hp.
      destruct (negb (includes _ _) && _); [|apply steps_ret].
      apply steps_callWithRetry. intros j. unfold invitesCreate.
      apply steps_onChannel; [by eexists _, _, _|].
      intros chs c [Hmembers Hothers] Hc. split.
      - intros s. destruct (decide (s = sid)) as [->|Hne].
        + rewrite lookup_insert_eq, <- Hmembers, Hc. done.
        + rewrite lookup_insert_ne by done. apply Hmembers.
      - intros s Hne. rewrite lookup_insert_ne by done. by apply Hothers. }
    intros _. apply steps_bind; [apply steps_getOrCreateTextChat|]. intros textChat.
    apply steps_bind; [apply steps_updateTextChatACLs|]. intros _. apply steps_ret. }
  match goal with
  | |- context [bind ?m ?k w] => destruct (bind m k w) as [r w'] eqn:Hrun
  end.
  destruct (Hsteps _ _ _ Hrun) as ([Hmembers Hothers] & _ & _ & sent & Hsent & HP);
    [by split|].
  assert (Hsnd : snd (match r with Ok r0 => (r0, w') | Throw e => (Next e, w') end) = w')
    by (by destruct r).
  rewrite Hsnd. apply (Hinvited sid); try done. by exists sent.
Qed.

(** X21.  [handleInviteToChat] fetches the channel and asserts the two
    service roles before it looks at the channel: when a role is missing, a
    validated request for a channel that exists, a DM included, ends in the
    assertion error handed to [next], and nothing has changed. *)
Theorem inviteToChat_asserts_the_roles_first req w requestContext sid elements invitees c :
  ValidatedInvite req w requestContext sid elements invitees →
  w_channels w !! sid = Some c →
  roleMissing w →
  handleInviteToChat req w = (Next AssertionError, w).
Proof.
  intros (Hintro & Htargets & Hstrings & Hchannel & Hsid & Hids & Hfound & ->) Hc Hmissing.
  unfold handleInviteToChat, runHandler. rewrite Hintro, Htargets, Hchannel.
  rewrite (truthy_JStr _ Hsid), Hstrings. cbn [truthy negb orb].
  destruct (List.filter _ (stringsOf elements)) as [|id ids] eqn:Hfiltered; [done|].
  cbn [length Nat.eqb].
  rewrite bind_run, resolveProfiles_run. cbv zeta. rewrite Hfound.
  rewrite bind_run. unfold channelFetch at 1. rewrite Hc.
  rewrite bind_run, channelRoles_run.
  by destruct Hmissing as [-> | ->]; [|destruct (List.find _ _)].
Qed.

(** ** The existing channel, when nothing is rejected *)

Lemma reuseExistingChannel_run conf userProfile invitees isDM
    channelAdminRole channelUserRole sid c x w :
  firstAttemptsAccepted →
  w_channels w !! sid = Some c →
  reuseExistingChannel conf userProfile invitees isDM channelAdminRole channelUserRole
                       (sid, x) w
  = (Ok tt,
     setChannels
       (insert sid (completedChannel conf userProfile invitees isDM
                                     channelAdminRole channelUserRole c))
       (sendAll (completionRequests sid conf userProfile invitees isDM
                                    channelAdminRole channelUserRole c) w)).
Proof.
  intros Hok Hc.
  unfold reuseExistingChannel, completedChannel, completionRequests. cbn [fst].
  rewrite bind_run. unfold membersList at 1. rewrite bind_run. unfold channelFetch at 1.
  rewrite Hc. unfold ret at 1.
  rewrite bind_run. unfold invitesList at 1. rewrite bind_run. unfold channelFetch at 1.
  rewrite Hc. unfold ret at 1.
  rewrite bind_run.
  set (member := membership conf channelAdminRole channelUserRole isDM userProfile).
  set (invited := map (invitation conf channelAdminRole channelUserRole) (notYetIn c invitees)).
  assert (Hinvites : ∀ c1 w1,
            w_channels w1 !! sid = Some c1 →
            promiseAll
              (fun profile =>
                 if negb (includes (map identity (ch_members c)) (profile_id profile))
                    && negb (includes (map identity (ch_invites c)) (profile_id profile))
                 then
                   callWithRetry
                     (invitesCreate sid (profile_id profile)
                        (if truthyReturned (isUserInRoles (profile_user profile) conf adminOrManager)
                         then role_sid channelAdminRole else role_sid channelUserRole))
                 else ret tt) invitees w1
            = (Ok (map (fun _ => tt) invitees),
               setChannels (insert sid (ch_addInvites invited c1))
                           (sendAll (map (inviteCreate sid) invited) w1))).
  { intros c1 w1 Hc1.
    match goal with
    | |- promiseAll ?f invitees w1 = _ =>
        rewrite (inviteAll_run f sid
                   (fun p => negb (includes (map identity (ch_members c)) (profile_id p))
                             && negb (includes (map identity (ch_invites c)) (profile_id p)))
                   (fun p => roleSid (invitation conf channelAdminRole channelUserRole p))
                   Hok ltac:(intros p w0; cbv beta; by destruct (negb _ && negb _))
                   invitees c1 w1 Hc1)
    end.
    reflexivity. }
  destruct (includes (map identity (ch_members c)) (profile_id userProfile)); cbn [negb].
  - unfold ret at 1. rewrite bind_run, (Hinvites c w Hc). unfold ret. reflexivity.
  - rewrite (membersCreate_first _ _ _ c) by done.
    rewrite bind_run, (Hinvites (ch_addMember member c)) by apply lookup_insert_eq.
    unfold ret. f_equal.
    apply World_eq;
      cbn [w_channels w_users w_roles w_calls w_profiles w_textChats w_nextId
           setChannels sendAll logCall]; try reflexivity.
    + by rewrite insert_insert_eq.
    + by rewrite <- app_assoc.
Qed.

(** X22.  When [handleCreateChat] selects an existing channel and first
    attempts are accepted, the reply is 200 with that channel's SID; the
    requester is added as a member unless already one, and an invitation is
    created for each invited profile that was neither a member nor an invitee;
    nothing else is sent (no user is created), and what the channel held is
    kept. *)
Theorem createChat_reuse_completes_the_channel
    req w requestContext elements mode title invitees channelAdminRole channelUserRole
    sid c rest :
  Validated req w requestContext elements mode title invitees →
  channelRoles w = (Ok (channelAdminRole, channelUserRole), w) →
  firstAttemptsAccepted →
  let conf := ctx_conf requestContext in
  let requester := ctx_userProfile requestContext in
  let isDM := isDMFor mode invitees (field req "forVideoRoom") in
  let key := uniqueNameFor isDM requester invitees (req_uuid req) in
  (if isDM then channelsNamed key (w_channels w) else []) = (sid, c) :: rest →
  let c' := completedChannel conf requester invitees isDM channelAdminRole channelUserRole c in
  ∃ textChatID w',
    handleCreateChat req w = (Send 200 (ChatCreated sid textChatID), w')
    ∧ w_channels w' = <[sid := c']> (w_channels w)
    ∧ w_calls w'
      = w_calls w ++ completionRequests sid conf requester invitees isDM
                                        channelAdminRole channelUserRole c
    ∧ (∃ added, ch_members c' = ch_members c ++ added)
    ∧ (∃ added, ch_invites c' = ch_invites c ++ added)
    ∧ ch_messages c' = ch_messages c
    ∧ ch_uniqueName c' = ch_uniqueName c.
Proof.
  intros Hv Hroles Hok conf requester isDM key Hexisting c'.
  rewrite (handleCreateChat_validated _ _ _ _ _ _ _ Hv). unfold runHandler.
  rewrite (provisionChat_run _ _ _ _ _ _ _ _ _ _ Hroles).
  fold conf requester isDM key. rewrite Hexisting.
  assert (Hc : w_channels w !! sid = Some c).
  { destruct isDM; [|done].
    assert (Hin : (sid, c) ∈ channelsNamed key (w_channels w))
      by (rewrite Hexisting; apply list_elem_of_here).
    by apply elem_of_channelsNamed in Hin as [Hc _]. }
  rewrite bind_run. unfold resolveChannel. rewrite bind_run.
  rewrite (reuseExistingChannel_run _ _ _ _ _ _ _ c) by done.
  fold c'. unfold ret at 1.
  set (w1 := setChannels _ _).
  destruct (mirrorAndReply_ok conf isDM (String.eqb mode "private") sid c' c w1)
    as (textChatID & w' & -> & Hch & Hcalls & _).
  { apply lookup_insert_eq. }
  exists textChatID, w'. split; [done|]. rewrite Hch, Hcalls.
  split; [done|]. split; [done|].
  unfold c', completedChannel.
  destruct (includes (map identity (ch_members c)) (profile_id requester));
    cbn [ch_members ch_invites ch_messages ch_uniqueName ch_addInvites ch_addMember].
  - split; [exists []; by rewrite app_nil_r|]. split; [by eexists|done].
  - split; [by eexists|]. split; [by eexists|done].
Qed.

(** ** A DM chat asked for from either side *)

Lemma dmUniqueName_swap a b :
  (localeCompare a b =? -1) = negb (localeCompare b a =? -1) →
  dmUniqueName b a = dmUniqueName a b.
Proof.
  intros H. unfold dmUniqueName. rewrite H. by destruct (localeCompare b a =? -1).
Qed.

(** A validated request that selects an existing channel, when nothing is
    rejected. *)
Lemma handleCreateChat_reuse_run
    req w requestContext elements mode title invitees channelAdminRole channelUserRole
    sid c rest :
  Validated req w requestContext elements mode title invitees →
  channelRoles w = (Ok (channelAdminRole, channelUserRole), w) →
  firstAttemptsAccepted →
  let conf := ctx_conf requestContext in
  let requester := ctx_userProfile requestContext in
  let isDM := isDMFor mode invitees (field req "forVideoRoom") in
  let key := uniqueNameFor isDM requester invitees (req_uuid req) in
  (if isDM then channelsNamed key (w_channels w) else []) = (sid, c) :: rest →
  ∃ textChatID w',
    handleCreateChat req w = (Send 200 (ChatCreated sid textChatID), w')
    ∧ w_channels w'
      = <[sid := completedChannel conf requester invitees isDM
                                  channelAdminRole channelUserRole c]> (w_channels w)
    ∧ w_calls w'
      = w_calls w ++ completionRequests sid conf requester invitees isDM
                                        channelAdminRole channelUserRole c
    ∧ w_profiles w' = w_profiles w
    ∧ w_roles w' = w_roles w.
Proof.
  intros Hv Hroles Hok conf requester isDM key Hexisting.
  rewrite (handleCreateChat_validated _ _ _ _ _ _ _ Hv). unfold runHandler.
  rewrite (provisionChat_run _ _ _ _ _ _ _ _ _ _ Hroles).
  fold conf requester isDM key. rewrite Hexisting.
  assert (Hc : w_channels w !! sid = Some c).
  { destruct isDM; [|done].
    assert (Hin : (sid, c) ∈ channelsNamed key (w_channels w))
      by (rewrite Hexisting; apply list_elem_of_here).
    by apply elem_of_channelsNamed in Hin as [Hc _]. }
  rewrite bind_run. unfold resolveChannel. rewrite bind_run.
  rewrite (reuseExistingChannel_run _ _ _ _ _ _ _ c) by done.
  unfold ret at 1.
  set (c' := completedChannel _ _ _ _ _ _ _).
  set (w1 := setChannels _ _).
  destruct (mirrorAndReply_ok conf isDM (String.eqb mode "private") sid c' c w1)
    as (textChatID & w' & -> & Hch & Hcalls & Hp & Hr).
  { apply lookup_insert_eq. }
  exists textChatID, w'. split; [done|]. by rewrite Hch, Hcalls, Hp, Hr.
Qed.

(** A validated DM request, when nothing is rejected and at most one channel
    carries the unique name: the reply names the channel under that name,
    which is brought to the settled state, in a new entry exactly when there
    was none. *)
Lemma handleCreateChat_DM_settles
    req w requestContext elements title invitee channelAdminRole channelUserRole :
  Validated req w requestContext elements "private" title [invitee] →
  strictEqTrue (field req "forVideoRoom") = false →
  channelRoles w = (Ok (channelAdminRole, channelUserRole), w) →
  firstAttemptsAccepted →
  let requester := ctx_userProfile requestContext in
  let key := dmUniqueName (profile_id requester) (profile_id invitee) in
  (∀ s1 c1 s2 c2,
     w_channels w !! s1 = Some c1 → w_channels w !! s2 = Some c2 →
     ch_uniqueName c1 = key → ch_uniqueName c2 = key → s1 = s2) →
  ∃ sid c textChatID w1,
    handleCreateChat req w = (Send 200 (ChatCreated sid textChatID), w1)
    ∧ w_channels w1 = <[sid := c]> (w_channels w)
    ∧ Settled key (profile_id requester) (profile_id invitee) c
    ∧ w_profiles w1 = w_profiles w
    ∧ w_roles w1 = w_roles w
    ∧ (∀ s d, w_channels w !! s = Some d → ch_uniqueName d = key → s = sid)
    ∧ (w_channels w !! sid = None ↔ channelsNamed key (w_channels w) = []).
Proof.
  intros Hv Hfvr Hroles Hok requester key Huniq.
  set (conf := ctx_conf requestContext).
  assert (Hrun : handleCreateChat req w
                 = runHandler
                     (bind (resolveChannel conf requester [invitee] true "private" key key
                                           "system" channelAdminRole channelUserRole
                                           (channelsNamed key (w_channels w)))
                           (mirrorAndReply conf true true)) w).
  { rewrite (handleCreateChat_validated _ _ _ _ _ _ _ Hv). unfold runHandler.
    rewrite (provisionChat_run _ _ _ _ _ _ _ _ _ _ Hroles).
    unfold isDMFor. rewrite Hfvr. reflexivity. }
  assert (Hresolved : ∃ sid c x w1,
            resolveChannel conf requester [invitee] true "private" key key "system"
                           channelAdminRole channelUserRole
                           (channelsNamed key (w_channels w)) w
            = (Ok (inr (sid, x)), w1)
            ∧ w_channels w1 = <[sid := c]> (w_channels w)
            ∧ Settled key (profile_id requester) (profile_id invitee) c
            ∧ w_profiles w1 = w_profiles w ∧ w_roles w1 = w_roles w
            ∧ (∀ s d, w_channels w !! s = Some d → ch_uniqueName d = key → s = sid)
            ∧ (w_channels w !! sid = None ↔ channelsNamed key (w_channels w) = [])).
  { destruct (channelsNamed key (w_channels w)) as [|[sid c] rest] eqn:Hnamed;
      unfold resolveChannel.
    - destruct (createNewChannel_settles conf requester invitee true "private" key key
                  "system" channelAdminRole channelUserRole w Hok)
        as (c' & x & w1 & Hnew & Hch & Hsettled & Hp & Hr).
      eexists _, c', x, w1. split; [exact Hnew|].
      split; [exact Hch|]. split; [exact Hsettled|]. split; [exact Hp|]. split; [exact Hr|].
      split.
      + intros s d Hd Hname. exfalso.
        assert (Hin : (s, d) ∈ channelsNamed key (w_channels w))
          by (by apply elem_of_channelsNamed).
        rewrite Hnamed in Hin. by apply elem_of_nil in Hin.
      + split; [done|]. intros _. apply fresh_string_fresh.
    - assert (Hin : (sid, c) ∈ channelsNamed key (w_channels w))
        by (rewrite Hnamed; apply list_elem_of_here).
      apply elem_of_channelsNamed in Hin as [Hc Hname].
      destruct (reuseExistingChannel_settles conf requester invitee true
                  channelAdminRole channelUserRole sid c c w Hok Hc)
        as (c' & w1 & Hreuse & Hch & Hsettled & Hp & Hr).
      rewrite Hname in Hsettled.
      exists sid, c', c, w1. rewrite bind_run, Hreuse.
      split; [done|].
      split; [exact Hch|]. split; [exact Hsettled|]. split; [exact Hp|]. split; [exact Hr|].
      split.
      + intros s d Hd Hd'. by apply (Huniq s d sid c).
      + split; [congruence|done]. }
  destruct Hresolved as (sid & c & x & w1 & Hres & Hch1 & Hsettled & Hp1 & Hr1 & Honly & Hnew).
  assert (Hc1 : w_channels w1 !! sid = Some c) by (rewrite Hch1; apply lookup_insert_eq).
  destruct (mirrorAndReply_ok conf true true sid c x w1 Hc1)
    as (tid1 & w1' & Hmirror1 & Hch1' & Hcalls1' & Hp1' & Hr1').
  exists sid, c, tid1, w1'.
  split.
  { rewrite Hrun. unfold runHandler. by rewrite bind_run, Hres, Hmirror1. }
  split; [by rewrite Hch1'|]. split; [exact Hsettled|].
  split; [congruence|]. split; [congruence|]. split; [exact Honly|exact Hnew].
Qed.

(** C2 as amended.  Two profiles [a] and [b] whose identities the collation
    orders strictly: exactly one of the two comparisons yields -1.  The DM
    request of [a] inviting [b] and that of [b] inviting [a] compute the same
    unique name: the identity that compares lower, ["-"], the other one, cut
    to 64 characters.  And both resolve to the same channel.  With both
    service roles in place, first attempts accepted and at most one channel
    under the unique name, the request of [a] answers 200 with the SID of the
    one channel under that name (created if there was none) and the request
    of [b], coming second, answers 200 with the same SID; it creates no
    channel and sends at most the membership of [b] to that channel, which
    stays the one channel under the name. *)
Theorem createChat_DM_unique_name_symmetric (a b : UserProfile) :
  (localeCompare (profile_id a) (profile_id b) =? -1)
  = negb (localeCompare (profile_id b) (profile_id a) =? -1) →
  let key := dmUniqueName (profile_id a) (profile_id b) in
  (∃ lower higher,
     ((lower, higher) = (profile_id a, profile_id b)
      ∨ (lower, higher) = (profile_id b, profile_id a))
     ∧ localeCompare lower higher = -1
     ∧ key = substr0 64 (lower +:+ "-" +:+ higher)
     ∧ (String.length key ≤ 64)%nat
     ∧ ∀ uuidA uuidB w w',
         uniqueNameOf true a [b] uuidA w = (Ok key, w)
         ∧ uniqueNameOf true b [a] uuidB w' = (Ok key, w'))
  ∧ ∀ reqA reqB confA confB elementsA elementsB titleA titleB
      channelAdminRole channelUserRole w,
      Validated reqA w (mkContext confA a) elementsA "private" titleA [b] →
      Validated reqB w (mkContext confB b) elementsB "private" titleB [a] →
      strictEqTrue (field reqA "forVideoRoom") = false →
      strictEqTrue (field reqB "forVideoRoom") = false →
      channelRoles w = (Ok (channelAdminRole, channelUserRole), w) →
      firstAttemptsAccepted →
      (∀ s1 c1 s2 c2,
         w_channels w !! s1 = Some c1 → w_channels w !! s2 = Some c2 →
         ch_uniqueName c1 = key → ch_uniqueName c2 = key → s1 = s2) →
      ∃ sid c1 textChatIDA textChatIDB w1 w2,
        handleCreateChat reqA w = (Send 200 (ChatCreated sid textChatIDA), w1)
        ∧ handleCreateChat reqB w1 = (Send 200 (ChatCreated sid textChatIDB), w2)
        ∧ w_channels w1 = <[sid := c1]> (w_channels w)
        ∧ (w_channels w !! sid = None ↔ channelsNamed key (w_channels w) = [])
        ∧ Settled key (profile_id a) (profile_id b) c1
        ∧ let joined := includes (map identity (ch_members c1)) (profile_id b) in
          let joins := membership confB channelAdminRole channelUserRole true b in
          let c2 := if joined then c1 else ch_addMember joins c1 in
          w_channels w2 = <[sid := c2]> (w_channels w1)
          ∧ w_calls w2 = w_calls w1 ++ (if joined then [] else [memberCreate sid joins])
          ∧ channelsNamed key (w_channels w2) = [(sid, c2)].
Proof.
  intros Hcmp key.
  pose proof (dmUniqueName_swap _ _ Hcmp) as Hswap. fold key in Hswap.
  split.
  { assert (Hkey : ∃ lower higher,
              ((lower, higher) = (profile_id a, profile_id b)
               ∨ (lower, higher) = (profile_id b, profile_id a))
              ∧ localeCompare lower higher = -1
              ∧ key = substr0 64 (lower +:+ "-" +:+ higher)).
    { unfold key, dmUniqueName. rewrite Hcmp.
      destruct (localeCompare (profile_id b) (profile_id a) =? -1) eqn:Hba; cbn [negb].
      - exists (profile_id b), (profile_id a). split; [by right|]. split; [|done].
        by apply Z.eqb_eq.
      - exists (profile_id a), (profile_id b). split; [by left|]. split; [|done].
        apply Z.eqb_eq. by rewrite Hcmp. }
    destruct Hkey as (lower & higher & Hpair & Hlt & Hkey).
    exists lower, higher.
    split; [exact Hpair|]. split; [exact Hlt|]. split; [exact Hkey|].
    split; [apply substr0_length|].
    intros uuidA uuidB w w'. unfold uniqueNameOf, ret. by rewrite Hswap. }
  intros reqA reqB confA confB elementsA elementsB titleA titleB
         channelAdminRole channelUserRole w HvA HvB HfvrA HfvrB Hroles Hok Huniq.
  destruct (handleCreateChat_DM_settles reqA w (mkContext confA a) elementsA titleA b
              channelAdminRole channelUserRole HvA HfvrA Hroles Hok Huniq)
    as (sid & c1 & tidA & w1 & HrunA & Hch1 & Hsettled & Hp1 & Hr1 & Honly & Hnew).
  cbn [ctx_userProfile] in Hsettled, Honly, Hnew. fold key in Hsettled, Honly, Hnew.
  pose proof Hsettled as (Hname1 & HmemberA & _).
  assert (Hc1 : w_channels w1 !! sid = Some c1) by (rewrite Hch1; apply lookup_insert_eq).
  assert (Honly1 : ∀ s d, w_channels w1 !! s = Some d → ch_uniqueName d = key → s = sid).
  { intros s d Hd Hname. destruct (decide (s = sid)) as [|Hne]; [done|].
    rewrite Hch1, lookup_insert_ne in Hd by done. by apply (Honly s d). }
  assert (Hnamed1 : channelsNamed key (w_channels w1) = [(sid, c1)])
    by (by apply channelsNamed_singleton).
  assert (HisDM : isDMFor "private" [a] (field reqB "forVideoRoom") = true).
  { unfold isDMFor. by rewrite HfvrB. }
  destruct (handleCreateChat_reuse_run reqB w1 (mkContext confB b) elementsB "private" titleB
              [a] channelAdminRole channelUserRole sid c1 []
              (Validated_same_profiles _ _ _ _ _ _ _ _ Hp1 HvB)
              (channelRoles_same _ _ _ Hr1 Hroles) Hok)
    as (tidB & w2 & HrunB & Hch2 & Hcalls2 & _).
  { rewrite HisDM. cbn [uniqueNameFor ctx_userProfile]. by rewrite Hswap. }
  rewrite HisDM in Hch2, Hcalls2. cbn [ctx_userProfile ctx_conf] in Hch2, Hcalls2.
  unfold completedChannel in Hch2. unfold completionRequests in Hcalls2.
  assert (Hnone : notYetIn c1 [a] = []).
  { unfold notYetIn. cbn [List.filter]. by rewrite HmemberA. }
  rewrite Hnone in Hch2, Hcalls2. cbn [map] in Hch2, Hcalls2.
  rewrite ch_addInvites_nil in Hch2. rewrite app_nil_r in Hcalls2.
  exists sid, c1, tidA, tidB, w1, w2.
  split; [exact HrunA|]. split; [exact HrunB|]. split; [exact Hch1|].
  split; [exact Hnew|]. split; [exact Hsettled|].
  cbv zeta. split; [exact Hch2|]. split.
  { rewrite Hcalls2. by destruct (includes _ (profile_id b)). }
  rewrite Hch2. apply channelsNamed_singleton.
  - apply lookup_insert_eq.
  - destruct (includes _ (profile_id b)); exact Hname1.
  - intros s d Hd Hname. destruct (decide (s = sid)) as [|Hne]; [done|].
    rewrite lookup_insert_ne in Hd by done. by apply (Honly1 s d).
Qed.

(** ** The mirror record of a chat *)

(** The end of [handleCreateChat]: the record it answers with is stored, has
    an id, belongs to the conference and the channel, and its access list is
    the one of the mode. *)
Lemma mirrorAndReply_record conf isDM isPrivate sid c x w :
  w_channels w !! sid = Some c →
  ∃ t acl w',
    mirrorAndReply conf isDM isPrivate (inr (sid, x)) w
    = (Ok (Send 200 (ChatCreated sid (tc_id t))), w')
    ∧ t ∈ w_textChats w'
    ∧ is_Some (tc_id t)
    ∧ tc_conference t = conf
    ∧ tc_twilioID t = sid
    ∧ tc_acl t = Some acl
    ∧ getAccess Read PublicKey acl = false
    ∧ getAccess Read (getRoleByName "attendee" conf) acl = negb isPrivate
    ∧ w_channels w' = w_channels w.
Proof.
  intros Hc. unfold mirrorAndReply. rewrite bind_run.
  assert (Hget : ∃ t0 w1,
            getOrCreateTextChat (sid, x) conf isDM w = (Ok t0, w1)
            ∧ tc_conference t0 = conf ∧ tc_twilioID t0 = sid
            ∧ t0 ∈ w_textChats w1
            ∧ w_channels w1 = w_channels w).
  { unfold getOrCreateTextChat. rewrite bind_run. unfold getWorld. cbn [fst snd].
    destruct (List.find _ (w_textChats w)) as [found|] eqn:Hfind.
    - destruct (List.find_some _ _ Hfind) as [Hin Hmatch].
      apply andb_true_iff in Hmatch as [Hconf Hsid].
      apply String.eqb_eq in Hconf, Hsid.
      exists found, w. unfold ret. split; [done|]. split; [done|]. split; [done|].
      split; [by apply list_elem_of_In|done].
    - unfold saveTextChat. cbn [tc_id]. eexists _, _. split; [reflexivity|].
      split; [done|]. split; [done|]. split; [|done].
      cbn [w_textChats setTextChats]. apply elem_of_app. right. apply list_elem_of_here. }
  destruct Hget as (t0 & w1 & -> & Hconf & Hsid & Hin & Hch1).
  cbn [fst]. rewrite bind_run.
  assert (Hc1 : w_channels w1 !! sid = Some c) by (by rewrite Hch1).
  destruct (updateTextChatACLs_run sid t0 (Some isPrivate) w1 c Hc1)
    as (acl & -> & Hpublic & Hattendee).
  rewrite Hconf in Hattendee.
  unfold saveTextChat. cbn [tc_id tc_setACL].
  destruct (tc_id t0) as [i|] eqn:Hid.
  - eexists (tc_setACL acl t0), acl, _. split; [reflexivity|].
    cbn [w_textChats w_channels setTextChats tc_id tc_conference tc_twilioID tc_acl tc_setACL].
    split.
    { apply list_elem_of_fmap. exists t0. split; [|done].
      by rewrite decide_True. }
    rewrite Hid. split; [by eexists|]. done.
  - eexists (tc_setId _ (tc_setACL acl t0)), acl, _. split; [reflexivity|].
    cbn [w_textChats w_channels setTextChats tc_id tc_conference tc_twilioID tc_acl
         tc_setACL tc_setId].
    split; [apply elem_of_app; right; apply list_elem_of_here|].
    split; [by eexists|]. done.
Qed.

(** X23.  A validated request to [handleCreateChat], with both service roles
    in place and first attempts accepted, is answered 200 with the SID of a
    channel that exists afterwards and the id of a mirror record that is
    stored afterwards: the record of the conference and of that channel,
    whose access list gives no public read access and gives the attendee role
    read access exactly when the mode is not private. *)
Theorem createChat_answers_with_a_stored_record
    req w requestContext elements mode title invitees channelAdminRole channelUserRole :
  Validated req w requestContext elements mode title invitees →
  channelRoles w = (Ok (channelAdminRole, channelUserRole), w) →
  firstAttemptsAccepted →
  let conf := ctx_conf requestContext in
  ∃ sid t acl w',
    handleCreateChat req w = (Send 200 (ChatCreated sid (tc_id t)), w')
    ∧ is_Some (w_channels w' !! sid)
    ∧ t ∈ w_textChats w'
    ∧ is_Some (tc_id t)
    ∧ tc_conference t = conf
    ∧ tc_twilioID t = sid
    ∧ tc_acl t = Some acl
    ∧ getAccess Read PublicKey acl = false
    ∧ getAccess Read (getRoleByName "attendee" conf) acl = negb (String.eqb mode "private").
Proof.
  intros Hv Hroles Hok conf.
  rewrite (handleCreateChat_validated _ _ _ _ _ _ _ Hv). unfold runHandler.
  rewrite (provisionChat_run _ _ _ _ _ _ _ _ _ _ Hroles).
  fold conf.
  set (requester := ctx_userProfile requestContext).
  set (isDM := isDMFor mode invitees (field req "forVideoRoom")).
  set (key := uniqueNameFor isDM requester invitees (req_uuid req)).
  rewrite bind_run. unfold resolveChannel.
  assert (Hresolved : ∃ sid x c' w1,
            match (if isDM then channelsNamed key (w_channels w) else []) with
            | [] => createNewChannel conf requester invitees isDM mode
                      (if isDM then key else trim (trim title)) key
                      (if isDM then "system" else profile_id requester)
                      channelAdminRole channelUserRole
            | newChannel :: _ =>
                reuseExistingChannel conf requester invitees isDM
                                     channelAdminRole channelUserRole newChannel ;;;
                ret (inr newChannel)
            end w = (Ok (inr (sid, x)), w1)
            ∧ w_channels w1 !! sid = Some c').
  { destruct (if isDM then channelsNamed key (w_channels w) else [])
      as [|[sid c] rest] eqn:Hexisting.
    - rewrite createNewChannel_run by done. eexists _, _, _, _.
      split; [reflexivity|]. apply lookup_insert_eq.
    - assert (Hc : w_channels w !! sid = Some c).
      { destruct isDM; [|done].
        assert (Hin : (sid, c) ∈ channelsNamed key (w_channels w))
          by (rewrite Hexisting; apply list_elem_of_here).
        by apply elem_of_channelsNamed in Hin as [Hc _]. }
      rewrite bind_run, (reuseExistingChannel_run _ _ _ _ _ _ _ c) by done.
      unfold ret. eexists _, _, _, _. split; [reflexivity|]. apply lookup_insert_eq. }
  destruct Hresolved as (sid & x & c' & w1 & -> & Hc1).
  destruct (mirrorAndReply_record conf isDM (String.eqb mode "private") sid c' x w1 Hc1)
    as (t & acl & w' & -> & Hin & Hid & Hconf & Hsid & Hacl & Hpublic & Hattendee & Hch).
  exists sid, t, acl, w'. split; [done|].
  split; [rewrite Hch, Hc1; by eexists|]. done.
Qed.

(** ** The unique name *)

(** X24.  The unique name [handleCreateChat] computes never exceeds the 64
    characters the provider allows, for a DM and for a group alike, and
    computing it changes nothing; it can only fail, with a type error, for a
    DM without an invitee, which the handler rules out. *)
Theorem uniqueNameOf_fits isDM userProfile invitees uuid w :
  match uniqueNameOf isDM userProfile invitees uuid w with
  | (Ok key, w') =>
      w' = w ∧ (String.length key ≤ 64)%nat
      ∧ key = uniqueNameFor isDM userProfile invitees uuid
  | (Throw e, w') => w' = w ∧ e = TypeError ∧ isDM = true ∧ invitees = []
  end.
Proof.
  unfold uniqueNameOf, uniqueNameFor.
  destruct isDM; [destruct invitees as [|invitee rest]|]; cbn; try done;
    (split; [done|]); (split; [|done]);
    unfold dmUniqueName, groupUniqueName; apply substr0_length.
Qed.

(** ** The earlier revision of [handleCreateChat] *)

(** X25.  The earlier revision of [handleCreateChat] answers 400 and changes
    nothing when no id is left in the invite list once the requester's own is
    removed (the check the later revision lacks). *)
Theorem createChat_earlier_rejects_an_empty_invite_list req w requestContext :
  req_intro req = Some requestContext →
  canTrim (field req "title") = true →
  invitedIds (field req "invite") (profile_id (ctx_userProfile requestContext)) = [] →
  ∃ body, handleCreateChat_earlier req w = (Send 400 body, w).
Proof.
  intros Hintro Htrim Hempty. unfold handleCreateChat_earlier, runHandler. rewrite Hintro.
  destruct (field req "title") as [| | | |title| |] eqn:Htitle; try done.
  1-2: cbn [optionalTrim]; rewrite bind_run; unfold ret at 1;
       destruct (negb (truthy (field req "invite"))); by eexists.
  cbn [optionalTrim]. rewrite bind_run. unfold ret at 1.
  destruct (negb (truthy (field req "invite")) || _ || _ || _); [by eexists|].
  destruct (field req "invite") as [| | | | |elements|] eqn:Hinvite; try by eexists.
  destruct (negb (forallb isString elements)); [by eexists|].
  cbn [invitedIds] in Hempty. rewrite Hempty. by eexists.
Qed.










(** ** What leaves the document store alone *)

Lemma storeKept_ret {A} (a : A) : storeKept (ret a).
Proof. by intros w r w' [= <- <-]. Qed.

Lemma storeKept_throw {A} e : storeKept (@throw A e).
Proof. by intros w r w' [= <- <-]. Qed.

Lemma storeKept_read {A} (f : World → Outcome A) : storeKept (fun w => (f w, w)).
Proof. by intros w r w' [= <- <-]. Qed.

Lemma storeKept_bind {A B} (m : M A) (k : A → M B) :
  storeKept m → (∀ a, storeKept (k a)) → storeKept (bind m k).
Proof.
  intros Hm Hk w r w' Hrun. unfold bind in Hrun.
  destruct (m w) as [[a|e] w1] eqn:Hmw; destruct (Hm _ _ _ Hmw) as [Ht Hn].
  - destruct (Hk a _ _ _ Hrun) as [Ht' Hn']. split; congruence.
  - injection Hrun as <- <-. done.
Qed.

Lemma storeKept_tryCatch {A} (body : M A) (handler : Error → M A) :
  storeKept body → (∀ e, storeKept (handler e)) → storeKept (tryCatch body handler).
Proof.
  intros Hm Hk w r w' Hrun. unfold tryCatch in Hrun.
  destruct (body w) as [[a|e] w1] eqn:Hmw; destruct (Hm _ _ _ Hmw) as [Ht Hn].
  - injection Hrun as <- <-. done.
  - destruct (Hk e _ _ _ Hrun) as [Ht' Hn']. split; congruence.
Qed.

Lemma storeKept_promiseAll {A B} (f : A → M B) xs :
  (∀ x, storeKept (f x)) → storeKept (promiseAll f xs).
Proof.
  intros Hf. induction xs as [|x xs IH]; [apply storeKept_ret|].
  intros w r w' Hrun. simpl in Hrun.
  destruct (f x w) as [b w1] eqn:Hx. destruct (promiseAll f xs w1) as [bs w2] eqn:Hxs.
  injection Hrun as _ <-.
  destruct (Hf _ _ _ _ Hx) as [Ht Hn]. destruct (IH _ _ _ Hxs) as [Ht' Hn'].
  split; congruence.
Qed.

Lemma storeKept_retryFrom {A} (f : nat → M A) remaining :
  (∀ j, storeKept (f j)) → ∀ attempt, storeKept (retryFrom attempt remaining f).
Proof.
  intros Hf. induction remaining as [|n IH]; intros attempt w r w' Hrun;
    simpl in Hrun; destruct (f attempt w) as [[a|e] w1] eqn:Hfw;
    destruct (Hf _ _ _ _ Hfw) as [Ht Hn].
  - by injection Hrun as <- <-.
  - by injection Hrun as <- <-.
  - by injection Hrun as <- <-.
  - destruct (IH _ _ _ _ Hrun) as [Ht' Hn']. split; congruence.
Qed.

Lemma storeKept_callWithRetry {A} (f : nat → M A) :
  (∀ j, storeKept (f j)) → storeKept (callWithRetry f).
Proof. intros Hf. by apply storeKept_retryFrom. Qed.

Lemma storeKept_request {A} op attempt (effect : World → Outcome A * World) :
  storeKept effect → storeKept (request op attempt effect).
Proof.
  intros Heff w r w' Hrun. unfold request in Hrun.
  destruct (providerFails op attempt).
  - by injection Hrun as <- <-.
  - by destruct (Heff _ _ _ Hrun).
Qed.

Lemma storeKept_onChannel sid f : storeKept (onChannel sid f).
Proof.
  intros w r w' Hrun. unfold onChannel in Hrun.
  destruct (w_channels w !! sid); by injection Hrun as <- <-.
Qed.

Lemma storeKept_channelFetch sid : storeKept (channelFetch sid).
Proof.
  intros w r w' Hrun. unfold channelFetch in Hrun.
  destruct (w_channels w !! sid); by injection Hrun as <- <-.
Qed.

Lemma storeKept_membersList sid : storeKept (membersList sid).
Proof.
  apply storeKept_bind; [apply storeKept_channelFetch|]. intros c. apply storeKept_ret.
Qed.

Lemma storeKept_invitesList sid : storeKept (invitesList sid).
Proof.
  apply storeKept_bind; [apply storeKept_channelFetch|]. intros c. apply storeKept_ret.
Qed.

Lemma storeKept_membersCreate sid id role j : storeKept (membersCreate sid id role j).
Proof. apply storeKept_request, storeKept_onChannel. Qed.

Lemma storeKept_invitesCreate sid id role j : storeKept (invitesCreate sid id role j).
Proof. apply storeKept_request, storeKept_onChannel. Qed.

Lemma storeKept_channelsCreate friendlyName uniqueName createdBy type isDM j :
  storeKept (channelsCreate friendlyName uniqueName createdBy type isDM j).
Proof. apply storeKept_request. by intros w r w' [= <- <-]. Qed.

Lemma storeKept_channelRemove sid j : storeKept (channelRemove sid j).
Proof.
  apply storeKept_request. intros w r w' Hrun.
  destruct (w_channels w !! sid); by injection Hrun as <- <-.
Qed.

Lemma storeKept_ensureTwilioUsersExist profiles :
  storeKept (ensureTwilioUsersExist profiles).
Proof.
  apply storeKept_bind; [apply (storeKept_read (fun w => Ok (w_users w)))|]. intros existing.
  apply storeKept_bind; [|intros _; apply storeKept_ret].
  apply storeKept_promiseAll. intros x.
  destruct (negb _); [|apply storeKept_ret].
  apply storeKept_request. by intros w r w' [= <- <-].
Qed.

Lemma storeKept_channelRoles : storeKept channelRoles.
Proof.
  apply storeKept_bind; [apply (storeKept_read (fun w => Ok (w_roles w)))|]. intros roles.
  apply storeKept_bind; [destruct (List.find _ _); [apply storeKept_ret|apply storeKept_throw]|].
  intros channelAdminRole.
  apply storeKept_bind; [destruct (List.find _ _); [apply storeKept_ret|apply storeKept_throw]|].
  intros channelUserRole. apply storeKept_ret.
Qed.

Lemma storeKept_uniqueNameOf isDM userProfile invitees uuid :
  storeKept (uniqueNameOf isDM userProfile invitees uuid).
Proof.
  unfold uniqueNameOf. destruct isDM; [destruct invitees|];
    first [apply storeKept_ret|apply storeKept_throw].
Qed.

Lemma storeKept_existingChannelsOf isDM uniqueName :
  storeKept (existingChannelsOf isDM uniqueName).
Proof.
  unfold existingChannelsOf. destruct isDM; [|apply storeKept_ret].
  apply storeKept_bind; [apply (storeKept_read (fun w => Ok (map_to_list (w_channels w))))|].
  intros all. apply storeKept_ret.
Qed.

Lemma storeKept_resolveProfiles conf ids : storeKept (resolveProfiles conf ids).
Proof.
  apply storeKept_bind.
  - apply storeKept_promiseAll. intros id.
    apply (storeKept_read (fun w => Ok (lookupProfile (w_profiles w) id conf))).
  - intros found. destruct (forallb _ _); apply storeKept_ret.
Qed.

Lemma storeKept_reuseExistingChannel conf userProfile invitees isDM
    channelAdminRole channelUserRole newChannel :
  storeKept (reuseExistingChannel conf userProfile invitees isDM
                                  channelAdminRole channelUserRole newChannel).
Proof.
  apply storeKept_bind; [apply storeKept_membersList|]. intros members.
  apply storeKept_bind; [apply storeKept_invitesList|]. intros invites.
  apply storeKept_bind.
  { destruct (negb _); [|apply storeKept_ret].
    apply storeKept_callWithRetry. intros j. apply storeKept_membersCreate. }
  intros _. apply storeKept_bind; [|intros _; apply storeKept_ret].
  apply storeKept_promiseAll. intros p.
  destruct (negb _ && _); [|apply storeKept_ret].
  apply storeKept_callWithRetry. intros j. apply storeKept_invitesCreate.
Qed.

Lemma storeKept_populateNewChannel conf userProfile invitees isDM
    channelAdminRole channelUserRole newChannel :
  storeKept (populateNewChannel conf userProfile invitees isDM
                                channelAdminRole channelUserRole newChannel).
Proof.
  apply storeKept_bind; [apply storeKept_ensureTwilioUsersExist|]. intros _.
  apply storeKept_bind.
  { apply storeKept_callWithRetry. intros j. apply storeKept_membersCreate. }
  intros _. apply storeKept_bind; [|intros _; apply storeKept_ret].
  apply storeKept_promiseAll. intros p.
  apply storeKept_callWithRetry. intros j. apply storeKept_invitesCreate.
Qed.

Lemma storeKept_resolveChannel conf userProfile invitees isDM mode
    friendlyName uniqueName createdBy channelAdminRole channelUserRole existingChannels :
  storeKept (resolveChannel conf userProfile invitees isDM mode friendlyName uniqueName
                            createdBy channelAdminRole channelUserRole existingChannels).
Proof.
  unfold resolveChannel. destruct existingChannels as [|newChannel rest].
  - apply storeKept_bind.
    { apply storeKept_callWithRetry. intros j. apply storeKept_channelsCreate. }
    intros newChannel. apply storeKept_tryCatch.
    + apply storeKept_bind; [apply storeKept_populateNewChannel|].
      intros _. apply storeKept_ret.
    + intros e. apply storeKept_bind; [|intros _; apply storeKept_ret].
      apply storeKept_callWithRetry. intros j. apply storeKept_channelRemove.
  - apply storeKept_bind; [apply storeKept_reuseExistingChannel|].
    intros _. apply storeKept_ret.
Qed.

Lemma storeKept_runHandler (m : M Reply) w :
  storeKept m →
  w_textChats (snd (runHandler m w)) = w_textChats w
  ∧ w_nextId (snd (runHandler m w)) = w_nextId w.
Proof.
  intros Hm. unfold runHandler.
  destruct (m w) as [[r|e] w'] eqn:Hrun; exact (Hm _ _ _ Hrun).
Qed.

(** X27.  The earlier revision of [handleCreateChat] never writes to the
    document store: whatever the request and whatever the provider does, the
    mirror records are those from before. *)
Theorem createChat_earlier_keeps_the_store req w :
  w_textChats (snd (handleCreateChat_earlier req w)) = w_textChats w
  ∧ w_nextId (snd (handleCreateChat_earlier req w)) = w_nextId w.
Proof.
  unfold handleCreateChat_earlier. apply storeKept_runHandler.
  destruct (req_intro req) as [requestContext|]; [|apply storeKept_ret].
  apply storeKept_bind.
  { unfold optionalTrim.
    destruct (field req "title"); first [apply storeKept_ret|apply storeKept_throw]. }
  intros title.
  destruct (negb (truthy (field req "invite")) || _ || _ || _); [apply storeKept_ret|].
  destruct (field req "invite") as [| | | | |elements|]; try apply storeKept_ret.
  destruct (negb (forallb isString elements)); [apply storeKept_ret|].
  destruct (length _ =? 0)%nat; [apply storeKept_ret|].
  destruct (field req "mode") as [| | | |mode| |]; try apply storeKept_ret.
  destruct (negb _ && negb _); [apply storeKept_ret|].
  destruct title as [| | | |title| |]; try apply storeKept_ret.
  destruct (strlen (trim title) <? 5); [apply storeKept_ret|].
  apply storeKept_bind; [apply storeKept_resolveProfiles|].
  intros [invitees|]; [|apply storeKept_ret].
  unfold provisionChat_earlier.
  apply storeKept_bind; [apply storeKept_uniqueNameOf|]. intros uniqueName.
  apply storeKept_bind; [apply storeKept_existingChannelsOf|]. intros existingChannels.
  apply storeKept_bind; [apply storeKept_channelRoles|].
  intros [channelAdminRole channelUserRole].
  destruct existingChannels as [|newChannel rest].
  - apply storeKept_bind.
    { apply storeKept_callWithRetry. intros j. apply storeKept_channelsCreate. }
    intros newChannel. apply storeKept_tryCatch.
    + apply storeKept_bind; [|intros _; apply storeKept_ret].
      apply storeKept_bind; [apply storeKept_ensureTwilioUsersExist|]. intros _.
      apply storeKept_bind.
      { apply storeKept_callWithRetry. intros j. apply storeKept_membersCreate. }
      intros _. apply storeKept_bind; [|intros _; apply storeKept_ret].
      apply storeKept_promiseAll. intros p.
      apply storeKept_callWithRetry. intros j. apply storeKept_invitesCreate.
    + intros e. apply storeKept_bind; [|intros _; apply storeKept_ret].
      apply storeKept_callWithRetry. intros j. apply storeKept_channelRemove.
  - apply storeKept_bind; [|intros _; apply storeKept_ret].
    apply storeKept_bind; [apply storeKept_membersList|]. intros members.
    apply storeKept_bind; [apply storeKept_invitesList|]. intros invites.
    apply storeKept_bind.
    { destruct (negb _); [|apply storeKept_ret].
      apply storeKept_callWithRetry. intros j. apply storeKept_membersCreate. }
    intros _. apply storeKept_bind; [|intros _; apply storeKept_ret].
    apply storeKept_promiseAll. intros p.
    destruct (negb _ && _); [|apply storeKept_ret].
    apply storeKept_callWithRetry. intros j. apply storeKept_invitesCreate.
Qed.

(** X28.  A reply of the later revision of [handleCreateChat] with a status
    other than 200 comes with an untouched document store: the 400 of each
    check and the 500 of a new channel that could not be populated are sent
    before the mirror record is looked up, whatever the request and whatever
    the provider does. *)
Theorem createChat_rejections_keep_the_store req w status body :
  fst (handleCreateChat req w) = Send status body →
  status ≠ 200 →
  w_textChats (snd (handleCreateChat req w)) = w_textChats w
  ∧ w_nextId (snd (handleCreateChat req w)) = w_nextId w.
Proof.
  intros Hreply Hstatus.
  destruct (req_intro req) as [requestContext|] eqn:Hintro.
  2: { unfold handleCreateChat, runHandler. by rewrite Hintro. }
  pose proof (handleCreateChat_checks req w requestContext Hintro) as Hchecks.
  destruct (canTrim (field req "title")); [|by rewrite Hchecks].
  destruct Hchecks as [[body' ->] | (elements & mode & title & invitees & Hv)]; [done|].
  revert Hreply.
  rewrite (handleCreateChat_validated _ _ _ _ _ _ _ Hv).
  pose proof (channelRoles_run w) as Hroles.
  destruct (List.find _ (w_roles w)) as [channelAdminRole|] eqn:Hadmin.
  2: { unfold runHandler. rewrite provisionChat_roleMissing; [done| |by left].
       apply isDMFor_invitees. }
  destruct (List.find (fun x => String.eqb (role_friendlyName x) "channel user") (w_roles w))
    as [channelUserRole|] eqn:Huser.
  2: { unfold runHandler. rewrite provisionChat_roleMissing; [done| |by right].
       apply isDMFor_invitees. }
  unfold runHandler. rewrite (provisionChat_run _ _ _ _ _ _ _ _ _ _ Hroles).
  rewrite bind_run.
  destruct (resolveChannel _ _ _ _ _ _ _ _ _ _ _ w) as [[[reply|[sid x]]|e] w1] eqn:Hresolve.
  - intros _. cbn [mirrorAndReply]. unfold ret. cbn [snd].
    exact (storeKept_resolveChannel _ _ _ _ _ _ _ _ _ _ _ _ _ _ Hresolve).
  - intros Hreply. exfalso. cbn [mirrorAndReply] in Hreply. rewrite bind_run in Hreply.
    destruct (getOrCreateTextChat _ _ _ w1) as [[textChat|e] w2]; [|done].
    rewrite bind_run in Hreply.
    destruct (updateTextChatACLs _ _ _ w2) as [[textChat'|e] w3]; [|done].
    unfold ret in Hreply. cbn [fst] in Hreply. congruence.
  - intros _. cbn [snd].
    exact (storeKept_resolveChannel _ _ _ _ _ _ _ _ _ _ _ _ _ _ Hresolve).
Qed.

(** X29.  [handleInviteToChat] undoes nothing: when the provider gives up on
    the invitation of one of the profiles to invite, the error goes to
    [next]; the members of the channel and the invitations it had are still
    there (with whatever invitations the same request got through), and the
    mirror record is not rebuilt. *)
Theorem inviteToChat_failure_is_not_undone req w requestContext sid elements invitees c
    channelAdminRole channelUserRole p :
  ValidatedInvite req w requestContext sid elements invitees →
  w_channels w !! sid = Some c →
  ch_isDM c = false →
  channelRoles w = (Ok (channelAdminRole, channelUserRole), w) →
  includes (map identity (ch_members c)) (profile_id (ctx_userProfile requestContext))
  = true →
  p ∈ notYetIn c invitees →
  (∀ role, gaveUp (InviteCreate sid (profile_id p) role)) →
  ∃ e w' c',
    handleInviteToChat req w = (Next e, w')
    ∧ w_textChats w' = w_textChats w
    ∧ w_channels w' !! sid = Some c'
    ∧ ch_members c' = ch_members c
    ∧ ch_invites c `prefix_of` ch_invites c'.
Proof.
  intros Hv Hc Hdm Hroles Hmember Hp Hgave.
  rewrite (handleInviteToChat_validated _ _ _ _ _ _ _ _ _ Hv Hc Hdm Hroles).
  rewrite Hmember. unfold runHandler. rewrite bind_run.
  unfold notYetIn in Hp. apply list_elem_of_In, List.filter_In in Hp as [Hin Hneeded].
  apply list_elem_of_In in Hin.
  match goal with
  | |- context [promiseAll ?f invitees w] => set (invite := f)
  end.
  assert (Hthrows : ∃ e w', promiseAll invite invitees w = (Throw e, w')).
  { apply (promiseAll_throws invite p); [|done].
    intros w0. unfold invite. rewrite Hneeded.
    match goal with
    | |- context [invitesCreate ?s ?i ?r] =>
        destruct (invitesCreate_gaveUp s i r w0 (Hgave r)) as [w1 Hw1]
    end.
    eexists _, _. exact Hw1. }
  destruct Hthrows as (e & w' & Hthrows). rewrite Hthrows.
  assert (Hkept : storeKept (promiseAll invite invitees)).
  { apply storeKept_promiseAll. intros x. unfold invite.
    destruct (negb (includes _ (profile_id x)) && _); [|apply storeKept_ret].
    apply storeKept_callWithRetry. intros j. apply storeKept_invitesCreate. }
  assert (Hsteps : steps (fun _ => True)
                     (fun chs => ∃ c', chs !! sid = Some c'
                                       ∧ ch_members c' = ch_members c
                                       ∧ ch_invites c `prefix_of` ch_invites c')
                     (promiseAll invite invitees)).
  { apply steps_promiseAll. intros x Hx. unfold invite.
    destruct (negb (includes _ (profile_id x)) && _); [|apply steps_ret].
    apply steps_callWithRetry. intros j. unfold invitesCreate.
    apply steps_onChannel; [done|].
    intros chs c1 (c' & Hc' & Hmembers & Hprefix) Hc1.
    rewrite Hc' in Hc1. injection Hc1 as <-.
    eexists. split; [apply lookup_insert_eq|].
    cbn [ch_members ch_invites ch_addInvite]. split; [done|].
    by apply prefix_app_r. }
  destruct (Hkept _ _ _ Hthrows) as [Hstore _].
  destruct (Hsteps _ _ _ Hthrows) as ((c' & Hc' & Hmembers & Hprefix) & _).
  { by exists c. }
  by exists e, w', c'.
Qed.

(** X30.  Rebuilding an access list consults the provider only for a private
    record: when the channel does not exist, a rebuild with the privacy flag
    on fails with the provider's error before anything is saved, and a
    rebuild with the flag off succeeds and saves the public list. *)
Theorem updateTextChatACLs_without_the_channel sid textChat flag w :
  w_channels w !! sid = None →
  let conf := tc_conference textChat in
  if match flag with Some b => b | None => derivedIsPrivate textChat end
  then updateTextChatACLs sid textChat flag w = (Throw NotFound, w)
  else ∃ t' w',
         updateTextChatACLs sid textChat flag w = (Ok t', w')
         ∧ tc_acl t' = Some (setAccess Read (getRoleByName "attendee" conf) true (baseACL conf))
         ∧ w_channels w' = w_channels w
         ∧ w_calls w' = w_calls w.
Proof.
  intros Hnone conf. unfold updateTextChatACLs. fold conf.
  destruct (match flag with Some b => b | None => derivedIsPrivate textChat end).
  - rewrite bind_run. unfold bind at 1, membersList, bind at 1, channelFetch.
    by rewrite Hnone.
  - rewrite bind_run. unfold ret at 1.
    destruct (saveTextChat_acl
                (tc_setACL (setAccess Read (getRoleByName "attendee" conf) true (baseACL conf))
                           textChat) w) as (t' & w' & Hsave & Hacl & Hch & Hcalls & _).
    exists t', w'. by rewrite Hsave, Hacl.
Qed.

End Handlers.

(** ** The properties on sample runs *)

(** C6.  On the sample lobby, a public channel whose mirror record is marked
    public, inviting Bob succeeds and rebuilds the record without an explicit
    flag: the record comes out private (the attendee role no longer reads, the
    member's and the invitee's accounts are listed one by one), so the
    rebuild does not keep the classification. *)
Theorem inviteToChat_turns_public_record_private :
  let run := handleInviteToChat nobodyIsManager neverRejects 0 inviteBobToLobby lobbyWorld in
  let attendees := getAccess Read (getRoleByName "attendee" "conf") in
  (attendees <$> tc_acl lobbyRecord) = Some true
  ∧ derivedIsPrivate lobbyRecord = true
  ∧ fst run = Send 200 EmptyObject
  ∧ (fun t => attendees <$> tc_acl t) <$> w_textChats (snd run) = [Some false]
  ∧ (fun t => getAccess Read (UserKey "u-alice") <$> tc_acl t) <$> w_textChats (snd run)
    = [Some true]
  ∧ (fun t => getAccess Read (UserKey "u-bob") <$> tc_acl t) <$> w_textChats (snd run)
    = [Some true].
Proof. vm_compute. repeat split; reflexivity. Qed.


Lemma alice_invites_bob_validated w :
  w_profiles w = [alice; bob] →
  Validated (createChatBy alice [JStr "bob"] "private") w aliceInConf
            [JStr "bob"] "private" " Plenary " [bob].
Proof.
  intros Hp. unfold Validated. rewrite Hp.
  repeat split; try by vm_compute. by right.
Qed.

Lemma bob_invites_alice_validated w :
  w_profiles w = [alice; bob] →
  Validated (createChatBy bob [JStr "alice"] "private") w bobInConf
            [JStr "alice"] "private" " Plenary " [alice].
Proof.
  intros Hp. unfold Validated. rewrite Hp.
  repeat split; try by vm_compute. by right.
Qed.

(** C2, as stated, fails for two distinct identities that the collation
    does not tell apart: both comparisons yield 0, so each request puts the
    other party's identity first, the two unique names differ, and the second
    request creates a second channel. *)
Lemma createChat_DM_tie_makes_two_channels :
  let create := handleCreateChat ignoringSoftHyphens nobodyIsManager neverRejects 0 in
  let first := create (createChatBy anna [JStr (profile_id anNa)] "private") annaWorld in
  let second := create (createChatBy anNa [JStr (profile_id anna)] "private") (snd first) in
  profile_id anna ≠ profile_id anNa
  ∧ ignoringSoftHyphens (profile_id anna) (profile_id anNa) = 0
  ∧ ignoringSoftHyphens (profile_id anNa) (profile_id anna) = 0
  ∧ dmUniqueName ignoringSoftHyphens (profile_id anna) (profile_id anNa)
    = profile_id anNa +:+ "-anna"
  ∧ dmUniqueName ignoringSoftHyphens (profile_id anNa) (profile_id anna)
    = "anna-" +:+ profile_id anNa
  ∧ fst first = Send 200 (ChatCreated "CH" (Some "TC0"))
  ∧ fst second = Send 200 (ChatCreated "CH0" (Some "TC1"))
  ∧ (ch_uniqueName <$> w_channels (snd second) !! "CH") = Some (profile_id anNa +:+ "-anna")
  ∧ (ch_uniqueName <$> w_channels (snd second) !! "CH0")
    = Some ("anna-" +:+ profile_id anNa).
Proof.
  cbv zeta. split; [intros H; vm_compute in H; discriminate H|].
  repeat split; vm_compute; reflexivity.
Qed.

Lemma createChat_DM_unique_name_symmetric_witness :
  (sampleCompare "alice" "bob" =? -1) = negb (sampleCompare "bob" "alice" =? -1)
  ∧ uniqueNameOf sampleCompare true alice [bob] "1b9d6bcd" emptyWorld
    = (Ok "alice-bob", emptyWorld)
  ∧ uniqueNameOf sampleCompare true bob [alice] "7c9e6679" emptyWorld
    = (Ok "alice-bob", emptyWorld)
  ∧ ∃ sid textChatIDA textChatIDB w1 w2 c2,
      handleCreateChat sampleCompare nobodyIsManager neverRejects 0
                       (createChatBy alice [JStr "bob"] "private") emptyWorld
      = (Send 200 (ChatCreated sid textChatIDA), w1)
      ∧ handleCreateChat sampleCompare nobodyIsManager neverRejects 0
                         (createChatBy bob [JStr "alice"] "private") w1
        = (Send 200 (ChatCreated sid textChatIDB), w2)
      ∧ channelsNamed "alice-bob" (w_channels w2) = [(sid, c2)].
Proof.
  assert (H : (sampleCompare "alice" "bob" =? -1) = negb (sampleCompare "bob" "alice" =? -1))
    by reflexivity.
  split; [exact H|].
  destruct (createChat_DM_unique_name_symmetric sampleCompare nobodyIsManager neverRejects 0
              alice bob H)
    as [(lower & higher & _ & _ & _ & _ & Hnames) Hchannel].
  split; [exact (proj1 (Hnames "1b9d6bcd" "7c9e6679" emptyWorld emptyWorld))|].
  split; [exact (proj2 (Hnames "1b9d6bcd" "7c9e6679" emptyWorld emptyWorld))|].
  assert (H1 := alice_invites_bob_validated emptyWorld eq_refl).
  assert (H2 := bob_invites_alice_validated emptyWorld eq_refl).
  assert (H3 : strictEqTrue (field (createChatBy alice [JStr "bob"] "private") "forVideoRoom")
               = false) by (by vm_compute).
  assert (H4 : strictEqTrue (field (createChatBy bob [JStr "alice"] "private") "forVideoRoom")
               = false) by (by vm_compute).
  assert (H5 : channelRoles emptyWorld = (Ok (channelAdmin, channelUser), emptyWorld))
    by reflexivity.
  assert (H6 : firstAttemptsAccepted neverRejects) by (intros op; reflexivity).
  assert (H7 : ∀ s1 c1 s2 c2,
             w_channels emptyWorld !! s1 = Some c1 → w_channels emptyWorld !! s2 = Some c2 →
             ch_uniqueName c1 = dmUniqueName sampleCompare "alice" "bob" →
             ch_uniqueName c2 = dmUniqueName sampleCompare "alice" "bob" → s1 = s2).
  { intros s1 c1 s2 c2 Hc1. cbn [w_channels emptyWorld] in Hc1.
    by rewrite lookup_empty in Hc1. }
  destruct (Hchannel _ _ "conf" "conf" _ _ _ _ _ _ _ H1 H2 H3 H4 H5 H6 H7)
    as (sid & c1 & tidA & tidB & w1 & w2 & HrunA & HrunB & _ & _ & _ & _ & _ & Hnamed).
  exists sid, tidA, tidB, w1, w2. eexists.
  split; [exact HrunA|]. split; [exact HrunB|]. exact Hnamed.
Defined.

Lemma likeMessage_IM2 :
  ReactionRequest (likeMessage "IM2") lobbyWorld aliceInConf "CH1" "IM2" "like" lobby
                  (Some (mkAttributes None {[ "pinned" := "true" ]})).
Proof. repeat split; try done; by vm_compute. Qed.

Lemma likeMessage_IM1 :
  ReactionRequest (likeMessage "IM1") lobbyWorld aliceInConf "CH1" "IM1" "like" lobby
                  (Some (mkAttributes (Some {[ "like" := ["alice"; "alice"] ]}) ∅)).
Proof. repeat split; try done; by vm_compute. Qed.

(** C9, as stated, fails in two ways.  On a message whose list already holds
    the requester twice, she is still there twice after two calls of
    [handleAddReaction].  And for the reaction [constructor], which no
    message records, both calls hand a [TypeError] to [next] and she is not in
    the list at all. *)
Lemma addReaction_twice_not_exactly_once :
  (let first := handleAddReaction neverRejects (likeMessage "IM1") lobbyWorld in
   let second := handleAddReaction neverRejects (likeMessage "IM1") (snd first) in
   fst first = Send 200 OkTrue
   ∧ fst second = Send 200 OkTrue
   ∧ (fun a => reactionUsersOf a "like") <$> messageAttributes (snd second) "CH1" "IM1"
     = Some ["alice"; "alice"]
   ∧ (fun a => occurrences "alice" (reactionUsersOf a "like"))
       <$> messageAttributes (snd second) "CH1" "IM1" ≠ Some 1%nat)
  ∧ (let first := handleAddReaction neverRejects (reactWith (JStr "constructor")) lobbyWorld in
     let second := handleAddReaction neverRejects (reactWith (JStr "constructor")) (snd first) in
     first = (Next TypeError, lobbyWorld)
     ∧ second = (Next TypeError, lobbyWorld)
     ∧ (fun a => occurrences "alice" (reactionUsersOf a "constructor"))
         <$> messageAttributes (snd second) "CH1" "IM1" = Some 0%nat).
Proof.
  cbv zeta. split.
  - split; [by vm_compute|]. split; [by vm_compute|]. split; [by vm_compute|].
    intros H. vm_compute in H. discriminate H.
  - repeat split; vm_compute; reflexivity.
Qed.

Lemma reactions_add_twice_and_remove_witness :
  ReactionRequest (likeMessage "IM2") lobbyWorld aliceInConf "CH1" "IM2" "like" lobby
                  (Some (mkAttributes None {[ "pinned" := "true" ]}))
  ∧ (∀ a, neverRejects (MessageUpdate "CH1" "IM2" a) 0 = false)
  ∧ readsInherited (Some (mkAttributes None {[ "pinned" := "true" ]})) "like" = false
  ∧ (occurrences "alice"
       (reactionUsersOf (Some (mkAttributes None {[ "pinned" := "true" ]})) "like") ≤ 1)%nat
  ∧ handleAddReaction neverRejects (likeMessage "IM2")
      (snd (handleAddReaction neverRejects (likeMessage "IM2") lobbyWorld))
    = (Send 200 OkTrue, snd (handleAddReaction neverRejects (likeMessage "IM2") lobbyWorld)).
Proof.
  assert (H1 := likeMessage_IM2).
  assert (H2 : ∀ a, neverRejects (MessageUpdate "CH1" "IM2" a) 0 = false) by reflexivity.
  assert (H3 : readsInherited (Some (mkAttributes None {[ "pinned" := "true" ]})) "like"
               = false) by reflexivity.
  assert (H4 : (occurrences "alice"
                  (reactionUsersOf (Some (mkAttributes None {[ "pinned" := "true" ]})) "like")
                ≤ 1)%nat) by (vm_compute; lia).
  split; [exact H1|]. split; [exact H2|]. split; [exact H3|]. split; [exact H4|].
  exact (proj1 (proj2 (proj1
           (reactions_add_twice_and_remove neverRejects _ _ _ _ _ _ _ _ H1 H2 H3 H4)))).
Defined.



Lemma inviteToChat_DM_is_rejected_witness :
  req_intro inviteAliceToDM = Some bobInConf
  ∧ field inviteAliceToDM "channel" = JStr "CH2"
  ∧ w_channels dmWorld !! "CH2" = Some dmChannel
  ∧ ch_isDM dmChannel = true
  ∧ channelRoles dmWorld
    = (Ok (mkRole "channel admin" "RL-admin", mkRole "channel user" "RL-user"), dmWorld)
  ∧ ∃ body,
      handleInviteToChat nobodyIsManager neverRejects 0 inviteAliceToDM dmWorld
      = (Send 400 body, dmWorld).
Proof.
  assert (H1 : req_intro inviteAliceToDM = Some bobInConf) by reflexivity.
  assert (H2 : field inviteAliceToDM "channel" = JStr "CH2") by (vm_compute; reflexivity).
  assert (H3 : w_channels dmWorld !! "CH2" = Some dmChannel) by (vm_compute; reflexivity).
  assert (H4 : ch_isDM dmChannel = true) by reflexivity.
  assert (H5 : channelRoles dmWorld
               = (Ok (mkRole "channel admin" "RL-admin", mkRole "channel user" "RL-user"),
                  dmWorld)) by reflexivity.
  repeat (split; [assumption|]).
  exact (inviteToChat_DM_is_rejected nobodyIsManager neverRejects 0 _ _ _ _ _ _ H1 H2 H3 H4 H5).
Defined.

(** C5.  With an invite list that is empty, or that names only the requester,
    [handleCreateChat] does not answer 400: it creates a channel, makes the
    requester its member and answers 200.  [handleInviteToChat] answers 400
    to a list that names only the requester. *)
Theorem createChat_without_invitees_creates_a_channel :
  let create := handleCreateChat sampleCompare nobodyIsManager neverRejects 0 in
  let created := [ChannelCreate "alice-1b9d6bcd" "Plenary" "alice" "public" false;
                  UserCreate "alice" "Alice";
                  MemberCreate "CH" "alice" "RL-admin"] in
  fst (create (createChatBy alice [] "public") emptyWorld)
  = Send 200 (ChatCreated "CH" (Some "TC0"))
  ∧ w_calls (snd (create (createChatBy alice [] "public") emptyWorld)) = created
  ∧ fst (create (createChatBy alice [JStr "alice"] "public") emptyWorld)
    = Send 200 (ChatCreated "CH" (Some "TC0"))
  ∧ w_calls (snd (create (createChatBy alice [JStr "alice"] "public") emptyWorld)) = created
  ∧ fst (handleInviteToChat nobodyIsManager neverRejects 0 inviteSelfToLobby lobbyWorld)
    = Send 400 (Status
        "Invited members should be a non-empty array (that does not include yourself).").
Proof. repeat split; vm_compute; reflexivity. Qed.

Lemma createChat_DM_twice_reuses_the_channel_witness :
  Validated (createChatBy alice [JStr "bob"] "private") emptyWorld aliceInConf
            [JStr "bob"] "private" " Plenary " [bob]
  ∧ strictEqTrue (field (createChatBy alice [JStr "bob"] "private") "forVideoRoom") = false
  ∧ channelRoles emptyWorld = (Ok (channelAdmin, channelUser), emptyWorld)
  ∧ firstAttemptsAccepted neverRejects
  ∧ ∃ sid textChatID1 textChatID2 w1 w2,
      handleCreateChat sampleCompare nobodyIsManager neverRejects 0
                       (createChatBy alice [JStr "bob"] "private") emptyWorld
      = (Send 200 (ChatCreated sid textChatID1), w1)
      ∧ handleCreateChat sampleCompare nobodyIsManager neverRejects 0
                         (createChatBy alice [JStr "bob"] "private") w1
        = (Send 200 (ChatCreated sid textChatID2), w2)
      ∧ w_calls w2 = w_calls w1.
Proof.
  assert (H1 := alice_invites_bob_validated emptyWorld eq_refl).
  assert (H2 : strictEqTrue (field (createChatBy alice [JStr "bob"] "private") "forVideoRoom")
               = false) by (by vm_compute).
  assert (H3 : channelRoles emptyWorld = (Ok (channelAdmin, channelUser), emptyWorld))
    by reflexivity.
  assert (H4 : firstAttemptsAccepted neverRejects) by (intros op; reflexivity).
  assert (H5 : ∀ s1 c1 s2 c2,
             w_channels emptyWorld !! s1 = Some c1 → w_channels emptyWorld !! s2 = Some c2 →
             ch_uniqueName c1 = dmUniqueName sampleCompare "alice" "bob" →
             ch_uniqueName c2 = dmUniqueName sampleCompare "alice" "bob" → s1 = s2).
  { intros s1 c1 s2 c2 Hc1. cbn [w_channels emptyWorld] in Hc1.
    by rewrite lookup_empty in Hc1. }
  repeat (split; [assumption|]).
  destruct (createChat_DM_twice_reuses_the_channel sampleCompare nobodyIsManager neverRejects 0
              _ _ _ _ _ _ _ _ H1 H2 H3 H4 H5)
    as (sid & c & t1 & t2 & w1 & w2 & Hfirst & Hsecond & Hcalls & _).
  by exists sid, t1, t2, w1, w2.
Defined.

(** C4.  The handlers test what [isUserInRoles] returns without awaiting it.
    When the function is [async], what it returns is a promise, which is
    truthy whatever it resolves to: on the sample data, where nobody has the
    manager or admin privilege, Alice's DM request with Bob makes her a member
    and invites him, both with the channel admin role, and her invitation of
    Bob to the lobby carries the channel admin role as well.  The rule of the
    claim gives the channel user role in all three cases, and that is what the
    handlers assign when the function answers at once. *)
Theorem unawaited_privilege_makes_everyone_channel_admin :
  let dm := createChatBy alice [JStr "bob"] "private" in
  let createChat := fun isUserInRoles =>
    handleCreateChat sampleCompare isUserInRoles neverRejects 0 dm emptyWorld in
  let inviteToChat := fun isUserInRoles =>
    handleInviteToChat isUserInRoles neverRejects 0 inviteBobToLobby lobbyWorld in
  awaited (promisesNobody "u-alice" "conf" adminOrManager) = false
  ∧ awaited (promisesNobody "u-bob" "conf" adminOrManager) = false
  ∧ requestIsDM dm "alice" = true
  ∧ ch_isDM lobby = false
  ∧ claimedRole channelAdmin channelUser (requestIsDM dm "alice") true
                (awaited (promisesNobody "u-alice" "conf" adminOrManager)) = "RL-user"
  ∧ claimedRole channelAdmin channelUser (requestIsDM dm "alice") false
                (awaited (promisesNobody "u-bob" "conf" adminOrManager)) = "RL-user"
  ∧ claimedRole channelAdmin channelUser (ch_isDM lobby) false
                (awaited (promisesNobody "u-bob" "conf" adminOrManager)) = "RL-user"
  ∧ fst (createChat promisesNobody) = Send 200 (ChatCreated "CH" (Some "TC0"))
  ∧ w_calls (snd (createChat promisesNobody))
    = [ChannelCreate "alice-bob" "alice-bob" "system" "private" true;
       UserCreate "bob" "Bob"; UserCreate "alice" "Alice";
       MemberCreate "CH" "alice" "RL-admin";
       InviteCreate "CH" "bob" "RL-admin"]
  ∧ fst (inviteToChat promisesNobody) = Send 200 EmptyObject
  ∧ w_calls (snd (inviteToChat promisesNobody)) = [InviteCreate "CH1" "bob" "RL-admin"]
  ∧ w_calls (snd (createChat nobodyIsManager))
    = [ChannelCreate "alice-bob" "alice-bob" "system" "private" true;
       UserCreate "bob" "Bob"; UserCreate "alice" "Alice";
       MemberCreate "CH" "alice" "RL-user";
       InviteCreate "CH" "bob" "RL-user"]
  ∧ w_calls (snd (inviteToChat nobodyIsManager)) = [InviteCreate "CH1" "bob" "RL-user"].
Proof. repeat split; vm_compute; reflexivity. Qed.

Lemma createChat_compensates_only_a_new_channel_witness :
  (Validated (createChatBy alice [JStr "bob"] "private") emptyWorld aliceInConf
             [JStr "bob"] "private" " Plenary " [bob]
  ∧ channelRoles emptyWorld = (Ok (channelAdmin, channelUser), emptyWorld)
  ∧ accepted rejectsInvitations 2 (ChannelCreate "alice-bob" "alice-bob" "system" "private" true)
  ∧ (∀ role, gaveUp rejectsInvitations 2 (InviteCreate "CH" "bob" role))
  ∧ accepted rejectsInvitations 2 (ChannelRemove "CH")
  ∧ ∃ w', handleCreateChat sampleCompare nobodyIsManager rejectsInvitations 2
                           (createChatBy alice [JStr "bob"] "private") emptyWorld
          = (Send 500 (Status "Failed to add or invite members."), w')
          ∧ w_channels w' = w_channels emptyWorld)
  ∧ (Validated (createChatBy alice [JStr "bob"] "private") dmWorld aliceInConf
               [JStr "bob"] "private" " Plenary " [bob]
     ∧ channelRoles dmWorld = (Ok (channelAdmin, channelUser), dmWorld)
     ∧ ∃ sent,
         w_calls (snd (handleCreateChat sampleCompare nobodyIsManager rejectsInvitations 2
                         (createChatBy alice [JStr "bob"] "private") dmWorld))
         = w_calls dmWorld ++ sent
         ∧ Forall (fun op => ∀ s, op ≠ ChannelRemove s) sent).
Proof.
  split.
  - assert (H1 := alice_invites_bob_validated emptyWorld eq_refl).
    assert (H2 : channelRoles emptyWorld = (Ok (channelAdmin, channelUser), emptyWorld))
      by reflexivity.
    assert (H3 : accepted rejectsInvitations 2
                   (ChannelCreate "alice-bob" "alice-bob" "system" "private" true))
      by (exists 0%nat; split; [lia|reflexivity]).
    assert (H4 : ∀ role, gaveUp rejectsInvitations 2 (InviteCreate "CH" "bob" role))
      by (intros role j Hj; reflexivity).
    assert (H5 : accepted rejectsInvitations 2 (ChannelRemove "CH"))
      by (exists 0%nat; split; [lia|reflexivity]).
    repeat (split; [assumption|]).
    destruct (proj1 (createChat_compensates_only_a_new_channel
                       sampleCompare nobodyIsManager rejectsInvitations 2
                       _ _ _ _ _ _ _ _ _ H1 H2))
      as (w' & Hrun & _ & _ & Hchannels).
    + by vm_compute.
    + exact H3.
    + right. exists bob. split; [apply list_elem_of_here|exact H4].
    + exact H5.
    + by exists w'.
  - assert (H1 := alice_invites_bob_validated dmWorld eq_refl).
    assert (H2 : channelRoles dmWorld = (Ok (channelAdmin, channelUser), dmWorld))
      by reflexivity.
    repeat (split; [assumption|]).
    destruct (proj2 (createChat_compensates_only_a_new_channel
                       sampleCompare nobodyIsManager rejectsInvitations 2
                       _ _ _ _ _ _ _ _ _ H1 H2)) as [_ Hsent]; [by vm_compute|].
    exact Hsent.
Defined.

(** ** Further sample runs *)

Lemma createChat_rejects_before_acting_witness :
  req_intro (chatWithBob (JStr "secret") (JStr " Plenary ")) = Some aliceInConf
  ∧ canTrim (field (chatWithBob (JStr "secret") (JStr " Plenary ")) "title") = true
  ∧ modeRejected (field (chatWithBob (JStr "secret") (JStr " Plenary ")) "mode") = true
  ∧ ∃ body,
      handleCreateChat sampleCompare nobodyIsManager neverRejects 0
                       (chatWithBob (JStr "secret") (JStr " Plenary ")) lobbyWorld
      = (Send 400 body, lobbyWorld).
Proof.
  assert (H1 : req_intro (chatWithBob (JStr "secret") (JStr " Plenary ")) = Some aliceInConf)
    by reflexivity.
  assert (H2 : canTrim (field (chatWithBob (JStr "secret") (JStr " Plenary ")) "title") = true)
    by reflexivity.
  assert (H3 : modeRejected (field (chatWithBob (JStr "secret") (JStr " Plenary ")) "mode")
               = true) by reflexivity.
  repeat (split; [assumption|]).
  exact (createChat_rejects_before_acting sampleCompare nobodyIsManager neverRejects 0
           _ lobbyWorld _ H1 H2 (or_intror (or_introl H3))).
Defined.

Lemma createChat_title_of_another_type_witness :
  req_intro (chatWithBob (JStr "public") (JNum 5)) = Some aliceInConf
  ∧ canTrim (field (chatWithBob (JStr "public") (JNum 5)) "title") = false
  ∧ handleCreateChat sampleCompare nobodyIsManager neverRejects 0
                     (chatWithBob (JStr "public") (JNum 5)) lobbyWorld
    = (Next TypeError, lobbyWorld).
Proof.
  assert (H1 : req_intro (chatWithBob (JStr "public") (JNum 5)) = Some aliceInConf)
    by reflexivity.
  assert (H2 : canTrim (field (chatWithBob (JStr "public") (JNum 5)) "title") = false)
    by reflexivity.
  repeat (split; [assumption|]).
  exact (createChat_title_of_another_type sampleCompare nobodyIsManager neverRejects 0
           _ lobbyWorld _ H1 H2).
Defined.

Lemma chatWithBob_validated w :
  w_profiles w = [alice; bob] →
  Validated (chatWithBob (JStr "public") (JStr " Plenary ")) w aliceInConf
            [JStr "bob"] "public" " Plenary " [bob].
Proof.
  intros Hp. unfold Validated. rewrite Hp.
  split; [reflexivity|]. split; [reflexivity|]. split; [reflexivity|].
  split; [reflexivity|]. split; [by left|]. split; [reflexivity|].
  split; [by vm_compute|]. split; reflexivity.
Qed.

Lemma createChat_asserts_the_roles_first_witness :
  Validated (chatWithBob (JStr "public") (JStr " Plenary ")) noRolesWorld aliceInConf
            [JStr "bob"] "public" " Plenary " [bob]
  ∧ roleMissing noRolesWorld
  ∧ handleCreateChat sampleCompare nobodyIsManager neverRejects 0
                     (chatWithBob (JStr "public") (JStr " Plenary ")) noRolesWorld
    = (Next AssertionError, noRolesWorld).
Proof.
  assert (H1 : Validated (chatWithBob (JStr "public") (JStr " Plenary ")) noRolesWorld
                 aliceInConf [JStr "bob"] "public" " Plenary " [bob])
    by (by apply chatWithBob_validated).
  assert (H2 : roleMissing noRolesWorld) by (by left).
  repeat (split; [assumption|]).
  exact (createChat_asserts_the_roles_first sampleCompare nobodyIsManager neverRejects 0
           _ _ _ _ _ _ _ H1 H2).
Defined.

Lemma ensureTwilioUsersExist_creates_the_missing_users_witness :
  (∀ i n, neverRejects (UserCreate i n) 0 = false)
  ∧ ∃ w',
      ensureTwilioUsersExist neverRejects [alice; bob] lobbyWorld = (Ok tt, w')
      ∧ w_calls w' = w_calls lobbyWorld ++ [UserCreate "bob" "Bob"]
      ∧ ensureTwilioUsersExist neverRejects [alice; bob] w' = (Ok tt, w').
Proof.
  assert (H1 : ∀ i n, neverRejects (UserCreate i n) 0 = false) by reflexivity.
  split; [assumption|].
  destruct (ensureTwilioUsersExist_creates_the_missing_users neverRejects [alice; bob]
              lobbyWorld H1) as (w' & Hrun & _ & Hcalls & _ & _ & Hagain).
  exists w'. split; [exact Hrun|]. split; [exact Hcalls|exact Hagain].
Defined.

Lemma createChat_builds_the_new_channel_witness :
  Validated (chatWithBob (JStr "public") (JStr " Plenary ")) lobbyWorld aliceInConf
            [JStr "bob"] "public" " Plenary " [bob]
  ∧ channelRoles lobbyWorld = (Ok (channelAdmin, channelUser), lobbyWorld)
  ∧ firstAttemptsAccepted neverRejects
  ∧ (if isDMFor "public" [bob] JUndefined
     then channelsNamed (uniqueNameFor sampleCompare true alice [bob] "1b9d6bcd")
                        (w_channels lobbyWorld)
     else []) = []
  ∧ ∃ textChatID w',
      handleCreateChat sampleCompare nobodyIsManager neverRejects 0
                       (chatWithBob (JStr "public") (JStr " Plenary ")) lobbyWorld
      = (Send 200 (ChatCreated (fresh_string "CH" (w_channels lobbyWorld)) textChatID), w')
      ∧ (ch_members <$> w_channels w' !! fresh_string "CH" (w_channels lobbyWorld))
        = Some [mkMember "alice" "RL-admin"]
      ∧ (ch_invites <$> w_channels w' !! fresh_string "CH" (w_channels lobbyWorld))
        = Some [mkMember "bob" "RL-user"].
Proof.
  assert (H1 : Validated (chatWithBob (JStr "public") (JStr " Plenary ")) lobbyWorld
                 aliceInConf [JStr "bob"] "public" " Plenary " [bob])
    by (by apply chatWithBob_validated).
  assert (H2 : channelRoles lobbyWorld = (Ok (channelAdmin, channelUser), lobbyWorld))
    by reflexivity.
  assert (H3 : firstAttemptsAccepted neverRejects) by (by intros op).
  assert (H4 : (if isDMFor "public" [bob] JUndefined
                then channelsNamed (uniqueNameFor sampleCompare true alice [bob] "1b9d6bcd")
                                   (w_channels lobbyWorld)
                else []) = []) by reflexivity.
  repeat (split; [assumption|]).
  destruct (createChat_builds_the_new_channel sampleCompare nobodyIsManager neverRejects 0
              _ _ _ _ _ _ _ _ _ H1 H2 H3 H4) as (textChatID & w' & Hrun & _ & Hc & _).
  exists textChatID, w'. split; [exact Hrun|]. rewrite Hc. split; reflexivity.
Defined.

Lemma createChat_groups_are_never_reused_witness :
  Validated (chatWithBob (JStr "public") (JStr " Plenary ")) lobbyWorld aliceInConf
            [JStr "bob"] "public" " Plenary " [bob]
  ∧ isDMFor "public" [bob] JUndefined = false
  ∧ channelRoles lobbyWorld = (Ok (channelAdmin, channelUser), lobbyWorld)
  ∧ firstAttemptsAccepted neverRejects
  ∧ ∃ sid1 sid2 textChatID1 textChatID2 w1 w2,
      handleCreateChat sampleCompare nobodyIsManager neverRejects 0
                       (chatWithBob (JStr "public") (JStr " Plenary ")) lobbyWorld
      = (Send 200 (ChatCreated sid1 textChatID1), w1)
      ∧ handleCreateChat sampleCompare nobodyIsManager neverRejects 0
                         (chatWithBob (JStr "public") (JStr " Plenary ")) w1
        = (Send 200 (ChatCreated sid2 textChatID2), w2)
      ∧ sid1 ≠ sid2.
Proof.
  assert (H1 : Validated (chatWithBob (JStr "public") (JStr " Plenary ")) lobbyWorld
                 aliceInConf [JStr "bob"] "public" " Plenary " [bob])
    by (by apply chatWithBob_validated).
  assert (H2 : isDMFor "public" [bob] JUndefined = false) by reflexivity.
  assert (H3 : channelRoles lobbyWorld = (Ok (channelAdmin, channelUser), lobbyWorld))
    by reflexivity.
  assert (H4 : firstAttemptsAccepted neverRejects) by (by intros op).
  repeat (split; [assumption|]).
  destruct (createChat_groups_are_never_reused sampleCompare nobodyIsManager neverRejects 0
              _ _ _ _ _ _ _ _ _ _ _ _ _ _ _ H1 H1 H2 H2 H3 H4)
    as (sid1 & sid2 & tid1 & tid2 & w1 & w2 & Hrun1 & Hrun2 & Hne & _).
  exists sid1, sid2, tid1, tid2, w1, w2.
  split; [exact Hrun1|]. split; [exact Hrun2|exact Hne].
Defined.

Lemma videoRoomChat_validated :
  Validated videoRoomChat dmWorld aliceInConf [JStr "bob"] "private" " Plenary " [bob].
Proof.
  unfold Validated.
  split; [reflexivity|]. split; [reflexivity|]. split; [reflexivity|].
  split; [reflexivity|]. split; [by right|]. split; [reflexivity|].
  split; [by vm_compute|]. split; reflexivity.
Qed.

Lemma createChat_forVideoRoom_cancels_DM_witness :
  Validated videoRoomChat dmWorld aliceInConf [JStr "bob"] "private" " Plenary " [bob]
  ∧ field videoRoomChat "forVideoRoom" = JBool true
  ∧ channelRoles dmWorld = (Ok (channelAdmin, channelUser), dmWorld)
  ∧ firstAttemptsAccepted neverRejects
  ∧ ∃ textChatID w',
      handleCreateChat sampleCompare nobodyIsManager neverRejects 0 videoRoomChat dmWorld
      = (Send 200 (ChatCreated (fresh_string "CH" (w_channels dmWorld)) textChatID), w')
      ∧ w_channels w' !! "CH2" = Some dmChannel.
Proof.
  assert (H1 : Validated videoRoomChat dmWorld aliceInConf [JStr "bob"] "private"
                 " Plenary " [bob]) by apply videoRoomChat_validated.
  assert (H2 : field videoRoomChat "forVideoRoom" = JBool true) by reflexivity.
  assert (H3 : channelRoles dmWorld = (Ok (channelAdmin, channelUser), dmWorld))
    by reflexivity.
  assert (H4 : firstAttemptsAccepted neverRejects) by (by intros op).
  repeat (split; [assumption|]).
  destruct (createChat_forVideoRoom_cancels_DM sampleCompare nobodyIsManager neverRejects 0
              _ _ _ _ _ _ _ _ H1 H2 H3 H4) as (textChatID & w' & Hrun & _ & Hkept).
  exists textChatID, w'. split; [exact Hrun|]. by apply Hkept.
Defined.

Lemma createChat_reuse_touches_one_channel_witness :
  Validated (createChatBy alice [JStr "bob"] "private") dmWorld aliceInConf
            [JStr "bob"] "private" " Plenary " [bob]
  ∧ channelRoles dmWorld = (Ok (channelAdmin, channelUser), dmWorld)
  ∧ (if isDMFor "private" [bob] JUndefined
     then channelsNamed (uniqueNameFor sampleCompare true alice [bob] "1b9d6bcd")
                        (w_channels dmWorld)
     else []) = [("CH2", dmChannel)]
  ∧ is_Some (w_channels (snd (handleCreateChat sampleCompare nobodyIsManager
                                rejectsInvitations 2
                                (createChatBy alice [JStr "bob"] "private") dmWorld))
             !! "CH2").
Proof.
  assert (H1 := alice_invites_bob_validated dmWorld eq_refl).
  assert (H2 : channelRoles dmWorld = (Ok (channelAdmin, channelUser), dmWorld))
    by reflexivity.
  assert (H3 : (if isDMFor "private" [bob] JUndefined
                then channelsNamed (uniqueNameFor sampleCompare true alice [bob] "1b9d6bcd")
                                   (w_channels dmWorld)
                else []) = [("CH2", dmChannel)]) by (by vm_compute).
  repeat (split; [assumption|]).
  exact (proj1 (createChat_reuse_touches_one_channel sampleCompare nobodyIsManager
                  rejectsInvitations 2 _ _ _ _ _ _ _ _ _ _ _ _ H1 H2 H3)).
Defined.

Lemma createChat_failed_removal_leaves_the_channel_witness :
  Validated (createChatBy alice [JStr "bob"] "private") emptyWorld aliceInConf
            [JStr "bob"] "private" " Plenary " [bob]
  ∧ channelRoles emptyWorld = (Ok (channelAdmin, channelUser), emptyWorld)
  ∧ accepted rejectsInvitationsAndRemovals 2
             (ChannelCreate "alice-bob" "alice-bob" "system" "private" true)
  ∧ (∀ role, gaveUp rejectsInvitationsAndRemovals 2 (InviteCreate "CH" "bob" role))
  ∧ gaveUp rejectsInvitationsAndRemovals 2 (ChannelRemove "CH")
  ∧ ∃ w', handleCreateChat sampleCompare nobodyIsManager rejectsInvitationsAndRemovals 2
                           (createChatBy alice [JStr "bob"] "private") emptyWorld
          = (Next (ProviderError (ChannelRemove "CH")), w')
          ∧ is_Some (w_channels w' !! "CH").
Proof.
  assert (H1 := alice_invites_bob_validated emptyWorld eq_refl).
  assert (H2 : channelRoles emptyWorld = (Ok (channelAdmin, channelUser), emptyWorld))
    by reflexivity.
  assert (H3 : accepted rejectsInvitationsAndRemovals 2
                 (ChannelCreate "alice-bob" "alice-bob" "system" "private" true))
    by (exists 0%nat; split; [lia|reflexivity]).
  assert (H4 : ∀ role, gaveUp rejectsInvitationsAndRemovals 2 (InviteCreate "CH" "bob" role))
    by (intros role j Hj; reflexivity).
  assert (H5 : gaveUp rejectsInvitationsAndRemovals 2 (ChannelRemove "CH"))
    by (intros j Hj; reflexivity).
  repeat (split; [assumption|]).
  destruct (createChat_failed_removal_leaves_the_channel
              sampleCompare nobodyIsManager rejectsInvitationsAndRemovals 2
              _ _ _ _ _ _ _ _ _ H1 H2) as (w' & Hrun & _ & Hstays & _).
  - by vm_compute.
  - exact H3.
  - right. exists bob. split; [apply list_elem_of_here|exact H4].
  - exact H5.
  - exists w'. split; [exact Hrun|exact Hstays].
Defined.

Lemma createChat_user_creation_is_not_retried_witness :
  Validated (createChatBy alice [JStr "bob"] "private") emptyWorld aliceInConf
            [JStr "bob"] "private" " Plenary " [bob]
  ∧ channelRoles emptyWorld = (Ok (channelAdmin, channelUser), emptyWorld)
  ∧ accepted rejectsUsers 2 (ChannelCreate "alice-bob" "alice-bob" "system" "private" true)
  ∧ bob ∈ [bob] ++ [alice]
  ∧ includes (map fst (w_users emptyWorld)) (profile_id bob) = false
  ∧ rejectsUsers (userCreate bob) 0 = true
  ∧ accepted rejectsUsers 2 (ChannelRemove "CH")
  ∧ ∃ w', handleCreateChat sampleCompare nobodyIsManager rejectsUsers 2
                           (createChatBy alice [JStr "bob"] "private") emptyWorld
          = (Send 500 (Status "Failed to add or invite members."), w')
          ∧ w_channels w' = w_channels emptyWorld.
Proof.
  assert (H1 := alice_invites_bob_validated emptyWorld eq_refl).
  assert (H2 : channelRoles emptyWorld = (Ok (channelAdmin, channelUser), emptyWorld))
    by reflexivity.
  assert (H3 : accepted rejectsUsers 2
                 (ChannelCreate "alice-bob" "alice-bob" "system" "private" true))
    by (exists 0%nat; split; [lia|reflexivity]).
  assert (H4 : bob ∈ [bob] ++ [alice]) by apply list_elem_of_here.
  assert (H5 : includes (map fst (w_users emptyWorld)) (profile_id bob) = false)
    by reflexivity.
  assert (H6 : rejectsUsers (userCreate bob) 0 = true) by reflexivity.
  assert (H7 : accepted rejectsUsers 2 (ChannelRemove "CH"))
    by (exists 0%nat; split; [lia|reflexivity]).
  repeat (split; [assumption|]).
  destruct (createChat_user_creation_is_not_retried
              sampleCompare nobodyIsManager rejectsUsers 2
              _ _ _ _ _ _ _ _ _ bob H1 H2) as (w' & sent & Hrun & Hchannels & _).
  - by vm_compute.
  - exact H3.
  - exact H4.
  - exact H5.
  - exact H6.
  - exact H7.
  - exists w'. split; [exact Hrun|exact Hchannels].
Defined.

Lemma updateTextChatACLs_saves_only_the_record_witness :
  w_channels lobbyWorld !! "CH1" = Some lobby
  ∧ tc_id lobbyRecord = Some "TC0"
  ∧ ∃ acl w',
      updateTextChatACLs "CH1" lobbyRecord (Some true) lobbyWorld
      = (Ok (tc_setACL acl lobbyRecord), w')
      ∧ length (w_textChats w') = length (w_textChats lobbyWorld)
      ∧ w_calls w' = w_calls lobbyWorld.
Proof.
  assert (H1 : w_channels lobbyWorld !! "CH1" = Some lobby) by reflexivity.
  assert (H2 : tc_id lobbyRecord = Some "TC0") by reflexivity.
  repeat (split; [assumption|]).
  destruct (updateTextChatACLs_saves_only_the_record "CH1" lobbyRecord (Some true)
              lobbyWorld lobby "TC0" H1 H2)
    as (acl & w' & Hrun & _ & _ & Hlen & _ & _ & Hcalls).
  exists acl, w'. split; [exact Hrun|]. split; [exact Hlen|exact Hcalls].
Defined.

Lemma inviteToChat_rejects_before_acting_witness :
  req_intro inviteSelfToLobby = Some aliceInConf
  ∧ invitedIds (field inviteSelfToLobby "targetIdentities")
               (profile_id (ctx_userProfile aliceInConf)) = []
  ∧ ∃ body,
      handleInviteToChat nobodyIsManager neverRejects 0 inviteSelfToLobby lobbyWorld
      = (Send 400 body, lobbyWorld).
Proof.
  assert (H1 : req_intro inviteSelfToLobby = Some aliceInConf) by reflexivity.
  assert (H2 : invitedIds (field inviteSelfToLobby "targetIdentities")
                          (profile_id (ctx_userProfile aliceInConf)) = []) by reflexivity.
  repeat (split; [assumption|]).
  exact (inviteToChat_rejects_before_acting nobodyIsManager neverRejects 0
           _ lobbyWorld _ H1 (or_intror (or_intror (or_introl H2)))).
Defined.

Lemma inviteAliceToLobby_validated :
  ValidatedInvite inviteAliceToLobby lobbyWorld bobInConf "CH1" [JStr "alice"] [alice].
Proof.
  unfold ValidatedInvite.
  split; [reflexivity|]. split; [reflexivity|]. split; [reflexivity|].
  split; [reflexivity|]. split; [done|]. cbv zeta.
  split; [by vm_compute|]. split; reflexivity.
Qed.

Lemma inviteToChat_requires_membership_witness :
  ValidatedInvite inviteAliceToLobby lobbyWorld bobInConf "CH1" [JStr "alice"] [alice]
  ∧ w_channels lobbyWorld !! "CH1" = Some lobby
  ∧ ch_isDM lobby = false
  ∧ channelRoles lobbyWorld = (Ok (channelAdmin, channelUser), lobbyWorld)
  ∧ includes (map identity (ch_members lobby)) (profile_id (ctx_userProfile bobInConf))
    = false
  ∧ handleInviteToChat nobodyIsManager neverRejects 0 inviteAliceToLobby lobbyWorld
    = (Send 403 (Text "Access denied."), lobbyWorld).
Proof.
  assert (H1 := inviteAliceToLobby_validated).
  assert (H2 : w_channels lobbyWorld !! "CH1" = Some lobby) by reflexivity.
  assert (H3 : ch_isDM lobby = false) by reflexivity.
  assert (H4 : channelRoles lobbyWorld = (Ok (channelAdmin, channelUser), lobbyWorld))
    by reflexivity.
  assert (H5 : includes (map identity (ch_members lobby))
                        (profile_id (ctx_userProfile bobInConf)) = false) by reflexivity.
  repeat (split; [assumption|]).
  exact (inviteToChat_requires_membership nobodyIsManager neverRejects 0
           _ _ _ _ _ _ _ _ _ H1 H2 H3 H4 H5).
Defined.

Lemma inviteBobToLobby_validated :
  ValidatedInvite inviteBobToLobby lobbyWorld aliceInConf "CH1" [JStr "bob"] [bob].
Proof.
  unfold ValidatedInvite.
  split; [reflexivity|]. split; [reflexivity|]. split; [reflexivity|].
  split; [reflexivity|]. split; [done|]. cbv zeta.
  split; [by vm_compute|]. split; reflexivity.
Qed.

Lemma inviteToChat_invites_those_not_yet_in_witness :
  ValidatedInvite inviteBobToLobby lobbyWorld aliceInConf "CH1" [JStr "bob"] [bob]
  ∧ w_channels lobbyWorld !! "CH1" = Some lobby
  ∧ ch_isDM lobby = false
  ∧ channelRoles lobbyWorld = (Ok (channelAdmin, channelUser), lobbyWorld)
  ∧ includes (map identity (ch_members lobby)) (profile_id (ctx_userProfile aliceInConf))
    = true
  ∧ firstAttemptsAccepted neverRejects
  ∧ ∃ w' w'',
      handleInviteToChat nobodyIsManager neverRejects 0 inviteBobToLobby lobbyWorld
      = (Send 200 EmptyObject, w')
      ∧ w_calls w' = w_calls lobbyWorld ++ [InviteCreate "CH1" "bob" "RL-user"]
      ∧ handleInviteToChat nobodyIsManager neverRejects 0 inviteBobToLobby w'
        = (Send 200 EmptyObject, w'')
      ∧ w_calls w'' = w_calls w'.
Proof.
  assert (H1 := inviteBobToLobby_validated).
  assert (H2 : w_channels lobbyWorld !! "CH1" = Some lobby) by reflexivity.
  assert (H3 : ch_isDM lobby = false) by reflexivity.
  assert (H4 : channelRoles lobbyWorld = (Ok (channelAdmin, channelUser), lobbyWorld))
    by reflexivity.
  assert (H5 : includes (map identity (ch_members lobby))
                        (profile_id (ctx_userProfile aliceInConf)) = true) by reflexivity.
  assert (H6 : firstAttemptsAccepted neverRejects) by (by intros op).
  repeat (split; [assumption|]).
  destruct (inviteToChat_invites_those_not_yet_in nobodyIsManager neverRejects 0
              _ _ _ _ _ _ _ _ _ H1 H2 H3 H4 H5 H6)
    as (w' & w'' & Hrun & _ & Hcalls & Hrun' & _ & Hcalls').
  exists w', w''. split; [exact Hrun|]. split; [exact Hcalls|].
  split; [exact Hrun'|exact Hcalls'].
Defined.

Lemma reactions_send_at_most_one_update_witness :
  let run := handleAddReaction neverRejects (likeMessage "IM2") lobbyWorld in
  (run = handleAddReaction neverRejects (likeMessage "IM2") lobbyWorld
   ∨ run = handleRemoveReaction neverRejects (likeMessage "IM2") lobbyWorld)
  ∧ (snd run = lobbyWorld
     ∨ ∃ requestContext sid message reaction c attributes attributes',
         ReactionRequest (likeMessage "IM2") lobbyWorld requestContext sid message reaction c
                         attributes
         ∧ (run = (Next (ProviderError (MessageUpdate sid message attributes')),
                   logCall (MessageUpdate sid message attributes') lobbyWorld)
            ∨ run = (Send 200 OkTrue,
                     setChannels
                       (insert sid (ch_setMessage message (Some attributes') c))
                       (logCall (MessageUpdate sid message attributes') lobbyWorld)))).
Proof.
  intros run.
  assert (H1 : run = handleAddReaction neverRejects (likeMessage "IM2") lobbyWorld
               ∨ run = handleRemoveReaction neverRejects (likeMessage "IM2") lobbyWorld)
    by (left; reflexivity).
  split; [exact H1|].
  exact (reactions_send_at_most_one_update neverRejects (likeMessage "IM2") lobbyWorld run H1).
Defined.

Lemma reactions_reject_before_acting_witness :
  req_intro (reactWith (JStr "")) = Some aliceInConf
  ∧ stringRejected (field (reactWith (JStr "")) "reaction") = true
  ∧ ∃ body,
      handleAddReaction neverRejects (reactWith (JStr "")) lobbyWorld
      = (Send 400 body, lobbyWorld)
      ∧ handleRemoveReaction neverRejects (reactWith (JStr "")) lobbyWorld
        = (Send 400 body, lobbyWorld).
Proof.
  assert (H1 : req_intro (reactWith (JStr "")) = Some aliceInConf) by reflexivity.
  assert (H2 : stringRejected (field (reactWith (JStr "")) "reaction") = true)
    by reflexivity.
  repeat (split; [assumption|]).
  exact (reactions_reject_before_acting neverRejects _ lobbyWorld _ H1
           (or_intror (or_intror H2))).
Defined.

Lemma reactions_require_membership_witness :
  req_intro bobLikesMessage = Some bobInConf
  ∧ field bobLikesMessage "channel" = JStr "CH1" ∧ "CH1" ≠ ""
  ∧ field bobLikesMessage "message" = JStr "IM1" ∧ "IM1" ≠ ""
  ∧ field bobLikesMessage "reaction" = JStr "like" ∧ "like" ≠ ""
  ∧ w_channels lobbyWorld !! "CH1" = Some lobby
  ∧ existsb (fun x => String.eqb (identity x) (profile_id (ctx_userProfile bobInConf)))
            (ch_members lobby) = false
  ∧ handleAddReaction neverRejects bobLikesMessage lobbyWorld
    = (Send 403 (Status "Invalid channel"), lobbyWorld).
Proof.
  assert (H1 : req_intro bobLikesMessage = Some bobInConf) by reflexivity.
  assert (H2 : field bobLikesMessage "channel" = JStr "CH1") by reflexivity.
  assert (H3 : "CH1" ≠ "") by done.
  assert (H4 : field bobLikesMessage "message" = JStr "IM1") by reflexivity.
  assert (H5 : "IM1" ≠ "") by done.
  assert (H6 : field bobLikesMessage "reaction" = JStr "like") by reflexivity.
  assert (H7 : "like" ≠ "") by done.
  assert (H8 : w_channels lobbyWorld !! "CH1" = Some lobby) by reflexivity.
  assert (H9 : existsb (fun x => String.eqb (identity x)
                                            (profile_id (ctx_userProfile bobInConf)))
                       (ch_members lobby) = false) by reflexivity.
  repeat (split; [assumption|]).
  exact (proj1 (reactions_require_membership neverRejects _ _ _ _ _ _ _
                  H1 H2 H3 H4 H5 H6 H7 H8 H9)).
Defined.

Lemma reactions_add_then_remove_restores_witness :
  ReactionRequest (likeMessage "IM2") lobbyWorld aliceInConf "CH1" "IM2" "like" lobby
                  (Some (mkAttributes None {[ "pinned" := "true" ]}))
  ∧ (∀ a, neverRejects (MessageUpdate "CH1" "IM2" a) 0 = false)
  ∧ readsInherited (Some (mkAttributes None {[ "pinned" := "true" ]})) "like" = false
  ∧ includes (reactionUsersOf (Some (mkAttributes None {[ "pinned" := "true" ]})) "like")
             (profile_id (ctx_userProfile aliceInConf)) = false
  ∧ reactionsOf (Some (mkAttributes None {[ "pinned" := "true" ]})) !! "like" = None
  ∧ ∃ attributes'',
      messageAttributes
        (snd (handleRemoveReaction neverRejects (likeMessage "IM2")
                (snd (handleAddReaction neverRejects (likeMessage "IM2") lobbyWorld))))
        "CH1" "IM2" = Some attributes''
      ∧ reactionsOf attributes'' = ∅.
Proof.
  assert (H1 := likeMessage_IM2).
  assert (H2 : ∀ a, neverRejects (MessageUpdate "CH1" "IM2" a) 0 = false) by reflexivity.
  assert (H3 : includes (reactionUsersOf (Some (mkAttributes None {[ "pinned" := "true" ]}))
                                         "like")
                        (profile_id (ctx_userProfile aliceInConf)) = false) by reflexivity.
  assert (H4 : reactionsOf (Some (mkAttributes None {[ "pinned" := "true" ]})) !! "like"
               = None) by reflexivity.
  assert (H5 : readsInherited (Some (mkAttributes None {[ "pinned" := "true" ]})) "like"
               = false) by reflexivity.
  repeat (split; [assumption|]).
  destruct (reactions_add_then_remove_restores neverRejects _ _ _ _ _ _ _ _
              H1 H2 H5 H3 (or_introl H4)) as (_ & _ & _ & attributes'' & Hfound & Hsame & _).
  exists attributes''. split; [exact Hfound|exact Hsame].
Defined.

Lemma inviteBobToLobby_without_roles :
  ValidatedInvite inviteBobToLobby noRolesWorld aliceInConf "CH1" [JStr "bob"] [bob].
Proof.
  unfold ValidatedInvite.
  split; [reflexivity|]. split; [reflexivity|]. split; [reflexivity|].
  split; [reflexivity|]. split; [done|]. cbv zeta.
  split; [by vm_compute|]. split; reflexivity.
Qed.

Lemma inviteToChat_asserts_the_roles_first_witness :
  ValidatedInvite inviteBobToLobby noRolesWorld aliceInConf "CH1" [JStr "bob"] [bob]
  ∧ w_channels noRolesWorld !! "CH1" = Some lobby
  ∧ roleMissing noRolesWorld
  ∧ handleInviteToChat nobodyIsManager neverRejects 0 inviteBobToLobby noRolesWorld
    = (Next AssertionError, noRolesWorld).
Proof.
  assert (H1 := inviteBobToLobby_without_roles).
  assert (H2 : w_channels noRolesWorld !! "CH1" = Some lobby) by reflexivity.
  assert (H3 : roleMissing noRolesWorld) by (by left).
  repeat (split; [assumption|]).
  exact (inviteToChat_asserts_the_roles_first nobodyIsManager neverRejects 0
           _ _ _ _ _ _ _ H1 H2 H3).
Defined.

Lemma createChat_reuse_completes_the_channel_witness :
  Validated (createChatBy alice [JStr "bob"] "private") dmWorld aliceInConf
            [JStr "bob"] "private" " Plenary " [bob]
  ∧ channelRoles dmWorld = (Ok (channelAdmin, channelUser), dmWorld)
  ∧ firstAttemptsAccepted neverRejects
  ∧ (if isDMFor "private" [bob] JUndefined
     then channelsNamed (uniqueNameFor sampleCompare true alice [bob] "1b9d6bcd")
                        (w_channels dmWorld)
     else []) = [("CH2", dmChannel)]
  ∧ ∃ textChatID w',
      handleCreateChat sampleCompare nobodyIsManager neverRejects 0
                       (createChatBy alice [JStr "bob"] "private") dmWorld
      = (Send 200 (ChatCreated "CH2" textChatID), w')
      ∧ w_calls w' = w_calls dmWorld.
Proof.
  assert (H1 := alice_invites_bob_validated dmWorld eq_refl).
  assert (H2 : channelRoles dmWorld = (Ok (channelAdmin, channelUser), dmWorld))
    by reflexivity.
  assert (H3 : firstAttemptsAccepted neverRejects) by (by intros op).
  assert (H4 : (if isDMFor "private" [bob] JUndefined
                then channelsNamed (uniqueNameFor sampleCompare true alice [bob] "1b9d6bcd")
                                   (w_channels dmWorld)
                else []) = [("CH2", dmChannel)]) by (by vm_compute).
  repeat (split; [assumption|]).
  destruct (createChat_reuse_completes_the_channel sampleCompare nobodyIsManager
              neverRejects 0 _ _ _ _ _ _ _ _ _ _ _ _ H1 H2 H3 H4)
    as (textChatID & w' & Hrun & _ & Hcalls & _).
  exists textChatID, w'. split; [exact Hrun|]. rewrite Hcalls. reflexivity.
Defined.

Lemma createChat_answers_with_a_stored_record_witness :
  Validated (chatWithBob (JStr "public") (JStr " Plenary ")) lobbyWorld aliceInConf
            [JStr "bob"] "public" " Plenary " [bob]
  ∧ channelRoles lobbyWorld = (Ok (channelAdmin, channelUser), lobbyWorld)
  ∧ firstAttemptsAccepted neverRejects
  ∧ ∃ sid t acl w',
      handleCreateChat sampleCompare nobodyIsManager neverRejects 0
                       (chatWithBob (JStr "public") (JStr " Plenary ")) lobbyWorld
      = (Send 200 (ChatCreated sid (tc_id t)), w')
      ∧ t ∈ w_textChats w'
      ∧ tc_acl t = Some acl
      ∧ getAccess Read (getRoleByName "attendee" "conf") acl = true.
Proof.
  assert (H1 : Validated (chatWithBob (JStr "public") (JStr " Plenary ")) lobbyWorld
                 aliceInConf [JStr "bob"] "public" " Plenary " [bob])
    by (by apply chatWithBob_validated).
  assert (H2 : channelRoles lobbyWorld = (Ok (channelAdmin, channelUser), lobbyWorld))
    by reflexivity.
  assert (H3 : firstAttemptsAccepted neverRejects) by (by intros op).
  repeat (split; [assumption|]).
  destruct (createChat_answers_with_a_stored_record sampleCompare nobodyIsManager
              neverRejects 0 _ _ _ _ _ _ _ _ _ H1 H2 H3)
    as (sid & t & acl & w' & Hrun & _ & Hin & _ & _ & _ & Hacl & _ & Hattendee).
  exists sid, t, acl, w'. split; [exact Hrun|]. split; [exact Hin|].
  split; [exact Hacl|exact Hattendee].
Defined.

Lemma createChat_earlier_rejects_an_empty_invite_list_witness :
  req_intro chatWithHerself = Some aliceInConf
  ∧ canTrim (field chatWithHerself "title") = true
  ∧ invitedIds (field chatWithHerself "invite") (profile_id (ctx_userProfile aliceInConf))
    = []
  ∧ ∃ body,
      handleCreateChat_earlier sampleCompare neverRejects 0 chatWithHerself lobbyWorld
      = (Send 400 body, lobbyWorld).
Proof.
  assert (H1 : req_intro chatWithHerself = Some aliceInConf) by reflexivity.
  assert (H2 : canTrim (field chatWithHerself "title") = true) by reflexivity.
  assert (H3 : invitedIds (field chatWithHerself "invite")
                          (profile_id (ctx_userProfile aliceInConf)) = []) by reflexivity.
  repeat (split; [assumption|]).
  exact (createChat_earlier_rejects_an_empty_invite_list sampleCompare neverRejects 0
           _ lobbyWorld _ H1 H2 H3).
Defined.



Lemma createChat_rejections_keep_the_store_witness :
  fst (handleCreateChat sampleCompare nobodyIsManager rejectsInvitations 2
         (chatWithBob (JStr "private") (JStr " Plenary ")) lobbyWorld)
  = Send 500 (Status "Failed to add or invite members.")
  ∧ 500 ≠ 200
  ∧ w_textChats (snd (handleCreateChat sampleCompare nobodyIsManager rejectsInvitations 2
                        (chatWithBob (JStr "private") (JStr " Plenary ")) lobbyWorld))
    = [lobbyRecord].
Proof.
  assert (H1 : fst (handleCreateChat sampleCompare nobodyIsManager rejectsInvitations 2
                      (chatWithBob (JStr "private") (JStr " Plenary ")) lobbyWorld)
               = Send 500 (Status "Failed to add or invite members.")) by (by vm_compute).
  assert (H2 : 500 ≠ 200) by lia.
  split; [exact H1|]. split; [exact H2|].
  exact (proj1 (createChat_rejections_keep_the_store sampleCompare nobodyIsManager
                  rejectsInvitations 2 _ _ _ _ H1 H2)).
Defined.

Lemma inviteToChat_failure_is_not_undone_witness :
  ValidatedInvite inviteBobToLobby lobbyWorld aliceInConf "CH1" [JStr "bob"] [bob]
  ∧ w_channels lobbyWorld !! "CH1" = Some lobby
  ∧ ch_isDM lobby = false
  ∧ channelRoles lobbyWorld = (Ok (channelAdmin, channelUser), lobbyWorld)
  ∧ includes (map identity (ch_members lobby)) (profile_id (ctx_userProfile aliceInConf))
    = true
  ∧ bob ∈ notYetIn lobby [bob]
  ∧ (∀ role, gaveUp rejectsInvitations 2 (InviteCreate "CH1" (profile_id bob) role))
  ∧ ∃ e w',
      handleInviteToChat nobodyIsManager rejectsInvitations 2 inviteBobToLobby lobbyWorld
      = (Next e, w')
      ∧ w_textChats w' = w_textChats lobbyWorld.
Proof.
  assert (H1 := inviteBobToLobby_validated).
  assert (H2 : w_channels lobbyWorld !! "CH1" = Some lobby) by reflexivity.
  assert (H3 : ch_isDM lobby = false) by reflexivity.
  assert (H4 : channelRoles lobbyWorld = (Ok (channelAdmin, channelUser), lobbyWorld))
    by reflexivity.
  assert (H5 : includes (map identity (ch_members lobby))
                        (profile_id (ctx_userProfile aliceInConf)) = true) by reflexivity.
  assert (H6 : bob ∈ notYetIn lobby [bob]) by apply list_elem_of_here.
  assert (H7 : ∀ role, gaveUp rejectsInvitations 2 (InviteCreate "CH1" (profile_id bob) role))
    by (intros role j Hj; reflexivity).
  repeat (split; [assumption|]).
  destruct (inviteToChat_failure_is_not_undone nobodyIsManager rejectsInvitations 2
              _ _ _ _ _ _ _ _ _ _ H1 H2 H3 H4 H5 H6 H7)
    as (e & w' & c' & Hrun & Hstore & _).
  exists e, w'. split; [exact Hrun|exact Hstore].
Defined.

Lemma updateTextChatACLs_without_the_channel_witness :
  w_channels lobbyWorld !! "CH9" = None
  ∧ updateTextChatACLs "CH9" lobbyRecord (Some true) lobbyWorld = (Throw NotFound, lobbyWorld).
Proof.
  assert (H1 : w_channels lobbyWorld !! "CH9" = None) by reflexivity.
  split; [exact H1|].
  exact (updateTextChatACLs_without_the_channel "CH9" lobbyRecord (Some true) lobbyWorld H1).
Defined.
